(** * Risk backtesting and model selection of forecasting-ibex-sp500

    A shallow embedding of
      - [volatility.py]   : [compute_var], [backtest_var] (Kupiec test),
      - [risk_metrics.py] : [compute_es], [christoffersen_test],
      - [models.py]       : [estimate_arima],
      - [tests.py]        : [arch_lm_test],
    and the properties of these functions.

    Numbers.  The code computes with NumPy/Python doubles.  They are
    modelled by [float]: an exact real, one of the two infinities, or NaN,
    with IEEE-754's rules for the special values (what an operation gives at
    NaN, at an infinity, at a zero divisor, [log 0], [0 * inf], ...).
    Rounding, overflow and underflow of finite results are not modelled
    there: a finite operation gives the exact real.  Where they decide what
    the code returns, in the ratio and the statistic of [backtest_var], the
    function is embedded a second time on IEEE-754 binary64 numbers
    ([Double], [Volatility64]).

    Libraries.  [scipy.stats] and [statsmodels] are not part of the
    repository; the functions the code calls from them are parameters
    ([SciPyStats], [StatsModels]). *)

From Stdlib Require Import PrimFloat Uint63.
From Stdlib Require SpecFloat FloatOps FloatAxioms.
From Stdlib Require Import Reals Lra Lia ZArith List Sorted Bool String.
From Stdlib Require Import DecimalString.
Import ListNotations.

Set Warnings "-inexact-float".

Open Scope R_scope.

(** ** Doubles *)

Inductive float : Type :=
| NaN
| PInf
| NInf
| Fin (r : R).

Definition Rsign (r : R) : comparison :=
  if Rlt_dec 0 r then Gt else if Rlt_dec r 0 then Lt else Eq.

Definition of_Z (z : Z) : float := Fin (IZR z).

Definition fneg (a : float) : float :=
  match a with
  | NaN => NaN
  | PInf => NInf
  | NInf => PInf
  | Fin x => Fin (- x)
  end.

Definition fadd (a b : float) : float :=
  match a, b with
  | NaN, _ | _, NaN => NaN
  | PInf, NInf | NInf, PInf => NaN
  | PInf, _ | _, PInf => PInf
  | NInf, _ | _, NInf => NInf
  | Fin x, Fin y => Fin (x + y)
  end.

Definition fsub (a b : float) : float := fadd a (fneg b).

(** An infinity times a finite number: signed by the number, NaN at zero. *)
Definition inf_times (neg : bool) (x : R) : float :=
  match Rsign x with
  | Gt => if neg then NInf else PInf
  | Lt => if neg then PInf else NInf
  | Eq => NaN
  end.

Definition fmul (a b : float) : float :=
  match a, b with
  | NaN, _ | _, NaN => NaN
  | Fin x, Fin y => Fin (x * y)
  | Fin x, PInf | PInf, Fin x => inf_times false x
  | Fin x, NInf | NInf, Fin x => inf_times true x
  | PInf, PInf | NInf, NInf => PInf
  | PInf, NInf | NInf, PInf => NInf
  end.

(** NumPy's true division: a zero divisor gives an infinity (NaN for 0/0)
    and a warning, not an exception.  Zeros are unsigned here (read as +0). *)
Definition fdiv (a b : float) : float :=
  match a, b with
  | NaN, _ | _, NaN => NaN
  | Fin x, Fin y =>
      if Req_dec_T y 0 then inf_times false x else Fin (x / y)
  | Fin _, (PInf | NInf) => Fin 0
  | PInf, Fin y => if Rlt_dec y 0 then NInf else PInf
  | NInf, Fin y => if Rlt_dec y 0 then PInf else NInf
  | (PInf | NInf), (PInf | NInf) => NaN
  end.

(** [a < b], [a <= b], [a == b]: false as soon as one side is NaN. *)
Definition flt (a b : float) : bool :=
  match a, b with
  | NaN, _ | _, NaN => false
  | _, NInf | PInf, _ => false
  | NInf, _ | _, PInf => true
  | Fin x, Fin y => if Rlt_dec x y then true else false
  end.

Definition feq (a b : float) : bool :=
  match a, b with
  | PInf, PInf | NInf, NInf => true
  | Fin x, Fin y => if Req_dec_T x y then true else false
  | _, _ => false
  end.

Definition fle (a b : float) : bool := flt a b || feq a b.

(** [np.log]: [-inf] at zero, NaN below it. *)
Definition flog (a : float) : float :=
  match a with
  | NaN | NInf => NaN
  | PInf => PInf
  | Fin x =>
      match Rsign x with
      | Gt => Fin (ln x)
      | Eq => NInf
      | Lt => NaN
      end
  end.

(** [np.sqrt]: NaN below zero. *)
Definition fsqrt (a : float) : float :=
  match a with
  | NaN | NInf => NaN
  | PInf => PInf
  | Fin x => if Rlt_dec x 0 then NaN else Fin (sqrt x)
  end.

(** [a ** k] for an integer exponent [k]. *)
Definition fpow (a : float) (k : Z) : float :=
  if (k =? 0)%Z then Fin 1
  else
    match a with
    | NaN => NaN
    | Fin x =>
        if (0 <? k)%Z then Fin (x ^ Z.to_nat k)
        else fdiv (Fin 1) (Fin (x ^ Z.to_nat (- k)))
    | PInf => if (0 <? k)%Z then PInf else Fin 0
    | NInf =>
        if (0 <? k)%Z then (if Z.even k then PInf else NInf) else Fin 0
    end.

(** Nearest integer, ties to the even one ([np.rint]). *)
Definition Rrint (r : R) : Z :=
  let f := Int_part r in
  let d := r - IZR f in
  if Rlt_dec d (1 / 2) then f
  else if Rlt_dec (1 / 2) d then (f + 1)%Z
  else if Z.even f then f else (f + 1)%Z.

(** [round(a, 2)] of a NumPy double: to two decimals; NaN and the
    infinities are kept. *)
Definition round2 (a : float) : float :=
  match a with
  | Fin x => Fin (IZR (Rrint (x * 100)) / 100)
  | _ => a
  end.

(** ** Exceptions *)

(** A Python exception, by the name of its class. *)
Inductive exn : Type := Exn (cls : string).

Inductive result (A : Type) : Type :=
| Returns (a : A)
| Raises (e : exn).

Arguments Returns {A} a.
Arguments Raises {A} e.

Definition bind {A B : Type} (c : result A) (k : A -> result B) : result B :=
  match c with
  | Returns a => k a
  | Raises e => Raises e
  end.

Notation "x <- c ;; k" := (bind c (fun x => k))
  (at level 61, c at next level, right associativity).

Definition ValueError : exn := Exn "ValueError".
Definition OverflowError : exn := Exn "OverflowError".

(** Integer part towards zero. *)
Definition Rtrunc (r : R) : Z :=
  if Rle_dec 0 r then Int_part r else (- Int_part (- r))%Z.

(** Python's [int(a)] of a double. *)
Definition py_int (a : float) : result Z :=
  match a with
  | NaN => Raises ValueError
  | PInf | NInf => Raises OverflowError
  | Fin x => Returns (Rtrunc x)
  end.

(** ** Library functions *)

(** [scipy.stats]: the chi-square distribution function on the reals, and
    the quantile and density functions of Student's t (total on doubles:
    SciPy answers NaN outside the domain). *)
Class SciPyStats : Type := {
  chi2_cdf_R : R -> R -> R;
  student_t_ppf : float -> float -> float;
  student_t_pdf : float -> float -> float
}.

(** [chi2.cdf(a, df)] on a double. *)
Definition chi2_cdf `{SciPyStats} (a : float) (df : R) : float :=
  match a with
  | NaN => NaN
  | PInf => Fin 1
  | NInf => Fin 0
  | Fin x => Fin (chi2_cdf_R x df)
  end.

(** The sum of a series or array of integers. *)
Definition np_sum (l : list Z) : Z := fold_right Z.add 0%Z l.

(** A distribution object, as passed to [compute_var]: its [ppf]. *)
Record distribution : Type := { ppf : float -> float }.

(** ** volatility.py *)

Module Volatility.

(** [q * sigma] with [sigma = np.sqrt(variance)], elementwise. *)
Definition compute_var (variance : list float) (dist : distribution)
    (alpha : float) : list float :=
  let sigma := map fsqrt variance in
  let q := ppf dist alpha in
  map (fun s => fmul q s) sigma.

Record report : Type := {
  alpha : float;
  n : Z;
  violations : Z;
  violation_ratio : float;
  kupiec_lr : float;
  p_value : float
}.

(** [(returns < var_series).astype(int)] on two aligned series. *)
Definition exceptions_of (returns var_series : list float) : list Z :=
  map (fun rv => if flt (fst rv) (snd rv) then 1%Z else 0%Z)
      (combine returns var_series).

(** Kupiec's test in exact arithmetic, on the values of two series.
    [returns < var_series] raises a [ValueError] on series that are not
    labelled alike; labels are left out here, the two lists being the
    values of aligned series when they have the same length.  The labels,
    and the rounding of the doubles, are in [Volatility64.backtest_var]. *)
Definition backtest_var `{SciPyStats} (returns var_series : list float)
    (alpha : float) : result report :=
  if negb (List.length returns =? List.length var_series)%nat then
    Raises ValueError
  else
    let exceptions := exceptions_of returns var_series in
    let n := Z.of_nat (List.length exceptions) in
    let x := np_sum exceptions in
    let pi_hat := fdiv (of_Z x) (of_Z n) in
    let '(lr_uc, p_value) :=
      if ((x =? 0) || (x =? n))%Z then (NaN, NaN)
      else
        let lr_uc :=
          fmul (Fin (-2))
            (fsub
               (flog (fmul (fpow (fsub (Fin 1) alpha) (n - x)) (fpow alpha x)))
               (flog (fmul (fpow (fsub (Fin 1) pi_hat) (n - x))
                           (fpow pi_hat x)))) in
        (lr_uc, fsub (Fin 1) (chi2_cdf lr_uc 1)) in
    Returns {| alpha := alpha;
               n := n;
               violations := x;
               violation_ratio := round2 (fdiv pi_hat alpha);
               kupiec_lr := lr_uc;
               p_value := p_value |}.

End Volatility.

(** ** Doubles, bit for bit *)

(** IEEE-754 binary64 numbers: the primitive floats, whose [+], [-], [*]
    and [/] round to the nearest double, ties to even, as NumPy's do. *)
Module Double.

Definition double : Set := PrimFloat.float.

(** The double of an integer (below [2^63] in absolute value). *)
Definition of_Z (z : Z) : double :=
  if (z <? 0)%Z then (- PrimFloat.of_uint63 (Uint63.of_Z (- z)))%float
  else PrimFloat.of_uint63 (Uint63.of_Z z).

(** [np.rint]: the nearest integer, ties to the even one, with the sign
    of the argument.  Below [2^52] in absolute value, adding and taking
    away [2^52] rounds to an integer; from [2^52] on, every double is an
    integer; NaN and the infinities are kept. *)
Definition rint (a : double) : double :=
  if (PrimFloat.abs a <? 0x1p52)%float then
    let r := (PrimFloat.abs a + 0x1p52 - 0x1p52)%float in
    if (a <? 0)%float then (- r)%float
    else if (a =? 0)%float then a else r
  else a.

(** [round(a, 2)] of a NumPy double: [np.rint(a * 100) / 100]. *)
Definition round2 (a : double) : double := (rint (a * 100) / 100)%float.

(** The library functions of Kupiec's statistic, on doubles: [a ** b]
    (C's [pow], through NumPy), [np.log] and [chi2.cdf(a, df)]. *)
Class Numerics : Type := {
  power : double -> double -> double;
  log : double -> double;
  chi2_cdf : double -> Z -> double
}.

End Double.

(** ** volatility.py on doubles *)

Module Volatility64.

(** A pandas Series: the labels of its rows and their values. *)
Record Series : Type := {
  index : list Z;
  values : list Double.double
}.

Record report : Type := {
  alpha : Double.double;
  n : Z;
  violations : Z;
  violation_ratio : Double.double;
  kupiec_lr : Double.double;
  p_value : Double.double
}.

Definition below (a b : list Double.double) : list bool :=
  map (fun rv => (fst rv <? snd rv)%float) (combine a b).

(** [returns < var_series]: pandas compares two Series only when they
    are labelled alike, and raises a [ValueError] otherwise, also when
    they have the same length. *)
Definition lt (a b : Series) : result (list bool) :=
  if list_eq_dec Z.eq_dec (index a) (index b) then
    Returns (below (values a) (values b))
  else Raises ValueError.

Definition astype_int (l : list bool) : list Z :=
  map (fun b : bool => if b then 1%Z else 0%Z) l.

Definition backtest_var `{Double.Numerics} (returns var_series : Series)
    (alpha : Double.double) : result report :=
  hits <- lt returns var_series ;;
  let exceptions := astype_int hits in
  let n := Z.of_nat (List.length exceptions) in
  let x := np_sum exceptions in
  let pi_hat := (Double.of_Z x / Double.of_Z n)%float in
  let '(lr_uc, p_value) :=
    if ((x =? 0) || (x =? n))%Z then (PrimFloat.nan, PrimFloat.nan)
    else
      let lr_uc :=
        (-2 * (Double.log
                 (Double.power (1 - alpha) (Double.of_Z (n - x))
                  * Double.power alpha (Double.of_Z x))
               - Double.log
                   (Double.power (1 - pi_hat) (Double.of_Z (n - x))
                    * Double.power pi_hat (Double.of_Z x))))%float in
      (lr_uc, (1 - Double.chi2_cdf lr_uc 1)%float) in
  Returns {| alpha := alpha;
             n := n;
             violations := x;
             violation_ratio := Double.round2 (pi_hat / alpha)%float;
             kupiec_lr := lr_uc;
             p_value := p_value |}.

End Volatility64.

(** ** risk_metrics.py *)

Module RiskMetrics.

Record series : Type := {
  values : list float;
  name : string
}.

(** The text of a Python [int]. *)
Definition str_of_int (z : Z) : string :=
  DecimalString.NilZero.string_of_int (Z.to_int z).

(** Expected Shortfall for a left-tail Student-t distribution.  The only
    statement that can raise is the [int(...)] of the series' name. *)
Definition compute_es `{SciPyStats} (sigma : list float) (dof alpha : float)
    : result series :=
  let q := student_t_ppf alpha dof in
  let f_q := student_t_pdf q dof in
  let es_std :=
    fdiv (fmul (fneg f_q) (fadd dof (fpow q 2)))
         (fmul (fsub dof (Fin 1)) alpha) in
  let es := map (fun s => fmul es_std s) sigma in
  level <- py_int (fmul (fsub (Fin 1) alpha) (Fin 100)) ;;
  Returns {| values := es; name := "ES_" ++ str_of_int level |}.

(** [.astype(int)] of a series of doubles: towards zero; pandas refuses
    NaN and the infinities with a [ValueError]. *)
Fixpoint astype_int (l : list float) : result (list Z) :=
  match l with
  | [] => Returns []
  | Fin x :: l' =>
      zs <- astype_int l' ;;
      Returns (Rtrunc x :: zs)
  | _ :: _ => Raises ValueError
  end.

Record report : Type := {
  n00 : float;
  n01 : float;
  n10 : float;
  n11 : float;
  lr_ind : float;
  p_value : float
}.

(** [np.sum((x_t == a) & (x_tp1 == b))] *)
Definition transitions (a b : Z) (x_t x_tp1 : list Z) : Z :=
  np_sum
    (map (fun uv => if ((fst uv =? a) && (snd uv =? b))%Z then 1%Z else 0%Z)
         (combine x_t x_tp1)).

Definition christoffersen_test `{SciPyStats} (exceedances : list float)
    : result report :=
  x <- astype_int exceedances ;;
  if (List.length x <? 2)%nat then
    Returns {| n00 := NaN; n01 := NaN; n10 := NaN; n11 := NaN;
               lr_ind := NaN; p_value := NaN |}
  else
    let x_t := removelast x in
    let x_tp1 := tl x in
    let n00 := transitions 0 0 x_t x_tp1 in
    let n01 := transitions 0 1 x_t x_tp1 in
    let n10 := transitions 1 0 x_t x_tp1 in
    let n11 := transitions 1 1 x_t x_tp1 in
    if ((n01 + n00 =? 0) || (n10 + n11 =? 0) || (n01 + n11 =? 0))%Z then
      Returns {| n00 := of_Z n00; n01 := of_Z n01;
                 n10 := of_Z n10; n11 := of_Z n11;
                 lr_ind := NaN; p_value := NaN |}
    else
      let pi_01 := fdiv (of_Z n01) (of_Z (n00 + n01)) in
      let pi_11 := fdiv (of_Z n11) (of_Z (n10 + n11)) in
      let pi := fdiv (of_Z (n01 + n11)) (of_Z (n00 + n01 + n10 + n11)) in
      let logL0 :=
        fadd (fmul (of_Z (n00 + n01)) (flog (fsub (Fin 1) pi)))
             (fmul (of_Z (n10 + n11)) (flog pi)) in
      let logL1 :=
        fadd (fadd (fadd (fmul (of_Z n00) (flog (fsub (Fin 1) pi_01)))
                         (fmul (of_Z n01) (flog pi_01)))
                   (fmul (of_Z n10) (flog (fsub (Fin 1) pi_11))))
             (fmul (of_Z n11) (flog pi_11)) in
      let lr_ind := fmul (Fin (-2)) (fsub logL0 logL1) in
      let p_value := fsub (Fin 1) (chi2_cdf lr_ind 1) in
      Returns {| n00 := of_Z n00; n01 := of_Z n01;
                 n10 := of_Z n10; n11 := of_Z n11;
                 lr_ind := lr_ind; p_value := p_value |}.

End RiskMetrics.

(** ** models.py and tests.py *)

(** [statsmodels]: an ARIMA fit of a series at an order [(p, d, q)], which
    returns a fitted model or raises an [Exception]; the AIC of a fitted
    model; and [het_arch], which gives the LM statistic, its p-value, the F
    statistic and its p-value. *)
Class StatsModels : Type := {
  ARIMAResults : Type;
  ARIMA_fit : list float -> Z * Z * Z -> result ARIMAResults;
  aic : ARIMAResults -> float;
  het_arch : list float -> Z -> result (float * float * float * float)
}.

(** [range(n)] *)
Definition range (n : Z) : list Z := map Z.of_nat (seq 0 (Z.to_nat n)).

Module Models.

Section Search.
Context `{StatsModels}.

(** The three variables the loops update. *)
Record search : Type := {
  best_aic : float;
  best_order : option (Z * Z * Z);
  best_model : option ARIMAResults
}.

(** The body of the inner loop: fit, compare, replace; a fit that raises
    leaves the variables as they are. *)
Definition try_order (series : list float) (d p : Z) (st : search) (q : Z)
    : search :=
  match ARIMA_fit series (p, d, q) with
  | Returns model =>
      if flt (aic model) (best_aic st) then
        {| best_aic := aic model;
           best_order := Some (p, d, q);
           best_model := Some model |}
      else st
  | Raises _ => st
  end.

Definition search_grid (series : list float) (max_p max_q d : Z) : search :=
  fold_left
    (fun st p => fold_left (try_order series d p) (range (max_q + 1)) st)
    (range (max_p + 1))
    {| best_aic := PInf; best_order := None; best_model := None |}.

(** [criterion] and [label] play no part in the result: the criterion is
    always the AIC.  The summary line printed before returning takes [None]
    and [inf] as they are; no statement outside the [try] can raise. *)
Definition estimate_arima (series : list float) (max_p max_q d : Z)
    : result (option ARIMAResults) :=
  Returns (best_model (search_grid series max_p max_q d)).

End Search.

End Models.

Module Tests.

Definition newline : string := String (Ascii.ascii_of_nat 10) EmptyString.

(** What [print] wrote: a line of text, or a label followed by a number
    formatted with four decimals. *)
Inductive line : Type :=
| Text (s : string)
| Stat (label : string) (v : float).

Definition arch_lm_test `{StatsModels} (series : list float) (name : string)
    (lags : Z) : result (list line * (float * float)) :=
  r <- het_arch series lags ;;
  let '(lm_stat, lm_pval, f_stat, f_pval) := r in
  Returns
    ([ Text ("--- ARCH–LM Test: " ++ name ++ " ---");
       Stat "LM Statistic: " lm_stat;
       Stat "p-value (LM): " lm_pval;
       Stat "F Statistic:  " f_stat;
       Stat "p-value (F):  " f_pval;
       Text ("-----------------------------" ++ newline) ],
     (lm_stat, lm_pval)).

End Tests.

(** ** The order of the search *)

(** The pairs [(p, q)] in the order the two loops of [estimate_arima]
    visit them, and the order "lower [p], then lower [q]". *)
Definition grid (max_p max_q : Z) : list (Z * Z) :=
  flat_map (fun p => map (pair p) (range (max_q + 1))) (range (max_p + 1)).


Section Visit.
Context `{StatsModels}.
Variables (series : list float) (d : Z).

(** The fit at a pair of the grid, one turn of the inner loop at it, and
    the variables before the loops. *)
Definition fit_at (pq : Z * Z) : result ARIMAResults :=
  ARIMA_fit series (fst pq, d, snd pq).

Definition visit (st : Models.search) (pq : Z * Z) : Models.search :=
  Models.try_order series d (fst pq) st (snd pq).

Definition no_model : Models.search :=
  {| Models.best_aic := PInf;
     Models.best_order := None;
     Models.best_model := None |}.

(** What the variables hold after the orders [done]: nothing, when no
    order of [done] had a fit with an AIC below [+inf]; otherwise the fit
    of an order of [done] whose AIC no fit of [done] is below, and no fit
    of an earlier order is below or equal to. *)
Definition selected (done : list (Z * Z)) (st : Models.search) : Prop :=
  match Models.best_model st with
  | None =>
      Models.best_aic st = PInf
      /\ Models.best_order st = None
      /\ forall pq m, In pq done -> fit_at pq = Returns m ->
                      flt (aic m) PInf = false
  | Some m =>
      exists before pq after,
        done = before ++ pq :: after
        /\ fit_at pq = Returns m
        /\ Models.best_aic st = aic m
        /\ Models.best_order st = Some (fst pq, d, snd pq)
        /\ (forall pq' m', In pq' before -> fit_at pq' = Returns m' ->
                           fle (aic m') (aic m) = false)
        /\ (forall pq' m', In pq' after -> fit_at pq' = Returns m' ->
                           flt (aic m') (aic m) = false)
  end.

End Visit.

(** ** The statistic of the specification *)

(** Kupiec's likelihood ratio as the specification writes it,
    [-2 * ((n-x)*log(1-alpha) + x*log(alpha) - (n-x)*log(1-x/n) - x*log(x/n))],
    to be compared with what [backtest_var] computes. *)
Definition LR_uc_spec (alpha : float) (n x : Z) : float :=
  let pi_hat := fdiv (of_Z x) (of_Z n) in
  fmul (Fin (-2))
    (fsub
       (fsub
          (fadd (fmul (of_Z (n - x)) (flog (fsub (Fin 1) alpha)))
                (fmul (of_Z x) (flog alpha)))
          (fmul (of_Z (n - x)) (flog (fsub (Fin 1) pi_hat))))
       (fmul (of_Z x) (flog pi_hat))).

(** Christoffersen's likelihood ratio as the specification writes it,
    [-2 * (logL0 - logL1)], with [logL0] from
    [pi = (n01+n11)/(n00+n01+n10+n11)] and [logL1] from
    [pi_01 = n01/(n00+n01)] and [pi_11 = n11/(n10+n11)]. *)
Definition LR_ind_spec (n00 n01 n10 n11 : Z) : float :=
  let pi_01 := fdiv (of_Z n01) (of_Z (n00 + n01)) in
  let pi_11 := fdiv (of_Z n11) (of_Z (n10 + n11)) in
  let pi := fdiv (of_Z (n01 + n11)) (of_Z (n00 + n01 + n10 + n11)) in
  let logL0 :=
    fadd (fmul (of_Z (n00 + n01)) (flog (fsub (Fin 1) pi)))
         (fmul (of_Z (n10 + n11)) (flog pi)) in
  let logL1 :=
    fadd (fadd (fadd (fmul (of_Z n00) (flog (fsub (Fin 1) pi_01)))
                     (fmul (of_Z n01) (flog pi_01)))
               (fmul (of_Z n10) (flog (fsub (Fin 1) pi_11))))
         (fmul (of_Z n11) (flog pi_11)) in
  fmul (Fin (-2)) (fsub logL0 logL1).

(** ** pandas series *)

(** A series is the list of its values; the operations below keep the
    index, so two series of one frame are combined position by position. *)
Module Pandas.

Definition map2 (f : float -> float -> float) (a b : list float)
    : list float :=
  map (fun xy => f (fst xy) (snd xy)) (combine a b).

(** [s.shift(k)]: the values move [k] places down (up for a negative
    [k]); the places left free hold NaN. *)
Definition shift (k : Z) (s : list float) : list float :=
  if (0 <=? k)%Z then
    firstn (List.length s) (repeat NaN (Z.to_nat k) ++ s)
  else
    skipn (Z.to_nat (- k)) s
    ++ repeat NaN (Nat.min (Z.to_nat (- k)) (List.length s)).

(** [s.diff()] *)
Definition diff (s : list float) : list float := map2 fsub s (shift 1 s).

(** [s.clip(lower=0)] and [s.clip(upper=0)]: NaN stays. *)
Definition clip_lower_0 (s : list float) : list float :=
  map (fun a => if flt a (Fin 0) then Fin 0 else a) s.

Definition clip_upper_0 (s : list float) : list float :=
  map (fun a => if flt (Fin 0) a then Fin 0 else a) s.

(** The values a rolling window of [w] places ends with at place [t],
    and the observations among them: rolling aggregations read NaN and
    the infinities as missing. *)
Definition window_at (w : nat) (s : list float) (t : nat) : list float :=
  skipn (S t - w) (firstn (S t) s).

Definition observations (l : list float) : list R :=
  flat_map (fun a => match a with Fin x => [x] | _ => [] end) l.

Definition Rsum (l : list R) : R := fold_right Rplus 0 l.

Definition mean (l : list R) : R := Rsum l / INR (List.length l).

(** [s.rolling(window=w, min_periods=m).mean()] *)
Definition rolling_mean (w m : nat) (s : list float) : list float :=
  map (fun t =>
         let o := observations (window_at w s t) in
         if (m <=? List.length o)%nat && (0 <? List.length o)%nat
         then Fin (mean o) else NaN)
      (seq 0 (List.length s)).

(** The sample variance (one degree of freedom taken off). *)
Definition variance_1 (l : list R) : R :=
  Rsum (map (fun x => (x - mean l) ^ 2) l) / (INR (List.length l) - 1).

(** [s.rolling(w).std()]: at least [w] observations, and more than one. *)
Definition rolling_std (w : nat) (s : list float) : list float :=
  map (fun t =>
         let o := observations (window_at w s t) in
         if (w <=? List.length o)%nat && (1 <? List.length o)%nat
         then Fin (sqrt (variance_1 o)) else NaN)
      (seq 0 (List.length s)).

(** One step of [ewm(..., adjust=False).mean()] with the smoothing factor
    [a]: the running mean [weighted], the weight [old_wt] of the past, and
    the current value [cur].  A NaN value keeps the mean and lets the
    weight of the past decay; a value equal to the mean keeps it as it
    is. *)
Definition ewm_step (a : R) (st : float * R) (cur : float) : float * R :=
  let '(weighted, old_wt) := st in
  match weighted with
  | NaN =>
      match cur with
      | NaN => (weighted, old_wt)
      | _ => (cur, old_wt)
      end
  | _ =>
      let old_wt := old_wt * (1 - a) in
      match cur with
      | NaN => (weighted, old_wt)
      | _ =>
          (if feq weighted cur then weighted
           else fdiv (fadd (fmul (Fin old_wt) weighted) (fmul (Fin a) cur))
                     (Fin (old_wt + a)),
           1)
      end
  end.

Fixpoint ewm_from (a : R) (st : float * R) (s : list float) : list float :=
  match s with
  | [] => []
  | cur :: s' =>
      let st' := ewm_step a st cur in
      fst st' :: ewm_from a st' s'
  end.

(** [s.ewm(span=span, adjust=False).mean()]: the factor is
    [2 / (span + 1)]; a span below 1 is refused. *)
Definition ewm_mean (span : Z) (s : list float) : result (list float) :=
  if (span <? 1)%Z then Raises ValueError
  else
    match s with
    | [] => Returns []
    | x0 :: s' => Returns (x0 :: ewm_from (2 / (IZR span + 1)) (x0, 1) s')
    end.

End Pandas.

(** ** build_technical_indicators.py *)

Module Indicators.

(** A window that is negative is refused by [rolling]. *)
Definition compute_RSI (series : list float) (window : Z)
    : result (list float) :=
  let delta := Pandas.diff series in
  let gain := Pandas.clip_lower_0 delta in
  let loss := map fneg (Pandas.clip_upper_0 delta) in
  if (window <? 0)%Z then Raises ValueError
  else
    let w := Z.to_nat window in
    let avg_gain := Pandas.rolling_mean w w gain in
    let avg_loss := Pandas.rolling_mean w w loss in
    let RS := Pandas.map2 fdiv avg_gain avg_loss in
    let RSI :=
      map (fun rs => fsub (Fin 100) (fdiv (Fin 100) (fadd (Fin 1) rs))) RS in
    Returns RSI.

Definition compute_MACD (series : list float) (fast slow signal : Z)
    : result (list float) :=
  ema_fast <- Pandas.ewm_mean fast series ;;
  ema_slow <- Pandas.ewm_mean slow series ;;
  let macd_line := Pandas.map2 fsub ema_fast ema_slow in
  signal_line <- Pandas.ewm_mean signal macd_line ;;
  Returns (Pandas.map2 fsub macd_line signal_line).

Definition compute_momentum (series : list float) (window : Z)
    : list float :=
  Pandas.map2 fsub series (Pandas.shift window series).

Definition compute_volatility (series : list float) (window : Z)
    : result (list float) :=
  if (window <? 0)%Z then Raises ValueError
  else
    Returns (map (fun v => fmul v (Fin (sqrt 252)))
                 (Pandas.rolling_std (Z.to_nat window) series)).

End Indicators.

(** ** data_utils.py *)

Definition KeyError : exn := Exn "KeyError".
Definition IndexError : exn := Exn "IndexError".

(** A data frame: its columns, by name, in their order.  The names of a
    frame are taken to be distinct; the index is left out, the rows being
    combined position by position. *)
Module DataUtils.

Definition frame : Type := list (string * list float).

(** [df[name]] *)
Fixpoint getitem (df : frame) (name : string) : result (list float) :=
  match df with
  | [] => Raises KeyError
  | (c, v) :: df' =>
      if String.eqb c name then Returns v else getitem df' name
  end.

(** [df[name] = v]: in place when the column exists, else as the last
    column. *)
Fixpoint setitem (df : frame) (name : string) (v : list float) : frame :=
  match df with
  | [] => [(name, v)]
  | (c, u) :: df' =>
      if String.eqb c name then (c, v) :: df'
      else (c, u) :: setitem df' name v
  end.

Definition lag_name (col : string) (lag : Z) : string :=
  col ++ "_lag" ++ RiskMetrics.str_of_int lag.

(** One turn of the inner loop, and the two loops; an exception ends
    them. *)
Definition add_lag (col : string) (acc : result frame) (lag : Z)
    : result frame :=
  out <- acc ;;
  v <- getitem out col ;;
  Returns (setitem out (lag_name col lag) (Pandas.shift lag v)).

Definition create_lagged_features (df : frame) (columns : list string)
    (lags : list Z) : result frame :=
  fold_left (fun acc col => fold_left (add_lag col) lags acc)
            columns (Returns df).

(** A turn of the loops as a pair (column, lag): what it does and the
    name it writes. *)
Definition run_task (acc : result frame) (ck : string * Z) : result frame :=
  add_lag (fst ck) acc (snd ck).

Definition task_name (ck : string * Z) : string :=
  lag_name (fst ck) (snd ck).

Definition isna (a : float) : bool :=
  match a with NaN => true | _ => false end.

Definition nrows (df : frame) : nat :=
  match df with
  | [] => 0%nat
  | (_, v) :: _ => List.length v
  end.

(** [df.dropna()]: the rows without NaN in any column. *)
Definition dropna (df : frame) : frame :=
  let keep :=
    filter (fun t => forallb (fun cv => negb (isna (nth t (snd cv) NaN))) df)
           (seq 0 (nrows df)) in
  map (fun cv => (fst cv, map (fun t => nth t (snd cv) NaN) keep)) df.

Definition add_direction_label (df : frame) (column : string)
    : result frame :=
  v <- getitem df column ;;
  let direction :=
    map (fun a => if flt (Fin 0) a then Fin 1 else Fin 0)
        (Pandas.shift (-1) v) in
  Returns (dropna (setitem df "direction" direction)).

End DataUtils.

(** ** data_utils.py: loading *)

(** [load_returns_data] after [pd.read_csv]: [df] is the table that was
    read, with cells of some type and distinct column names;
    [to_datetime] is [pd.to_datetime] on a column, which gives time stamps
    or raises.  The result is the index and the columns that remain. *)
Module Loading.

Section Table.
Variables cell timestamp : Type.
Variable to_datetime : list cell -> result (list timestamp).

Definition table : Type := list (string * list cell).

(** [for c in candidates: if c in columns: date_col = c; break] *)
Definition detect (candidates columns : list string) : option string :=
  find (fun c => existsb (String.eqb c) columns) candidates.

(** [df.rename(columns={old: new})] *)
Definition rename (old new : string) (df : table) : table :=
  map (fun cv => (if String.eqb (fst cv) old then new else fst cv, snd cv))
      df.

Fixpoint column (df : table) (name : string) : result (list cell) :=
  match df with
  | [] => Raises KeyError
  | (c, v) :: df' => if String.eqb c name then Returns v else column df' name
  end.

(** [df.set_index(name)] takes the column out of the columns. *)
Definition without (name : string) (df : table) : table :=
  filter (fun cv => negb (String.eqb (fst cv) name)) df.

Definition load_returns_data (df : table)
    : result (list timestamp * table) :=
  match detect ["Date"; "date"; "Unnamed: 0"]%string (map fst df) with
  | None => Raises ValueError
  | Some date_col =>
      let df := rename date_col "Date" df in
      dates <- column df "Date" ;;
      index <- to_datetime dates ;;
      Returns (index, without "Date" df)
  end.

End Table.

End Loading.

(** ** models.py: forecasts *)

(** [model.get_forecast(steps=h).predicted_mean]: the path of the mean
    forecast up to the horizon [h], or an exception. *)
Class ARIMAForecast `{StatsModels} : Type := {
  predicted_mean : ARIMAResults -> Z -> result (list float)
}.

Module Forecasts.

(** [s.iloc[-1]] *)
Definition iloc_last (s : list float) : result float :=
  match s with
  | [] => Raises IndexError
  | _ => Returns (last s NaN)
  end.

(** [d[k] = v] on a dictionary: in place when the key exists, else as the
    last item. *)
Fixpoint dict_set (d : list (Z * float)) (k : Z) (v : float)
    : list (Z * float) :=
  match d with
  | [] => [(k, v)]
  | (k', v') :: d' =>
      if (k' =? k)%Z then (k', v) :: d' else (k', v') :: dict_set d' k v
  end.

Definition add_step `{ARIMAForecast} (model : ARIMAResults)
    (acc : result (list (Z * float))) (step : Z)
    : result (list (Z * float)) :=
  forecasts <- acc ;;
  pred <- predicted_mean model step ;;
  f <- iloc_last pred ;;
  Returns (dict_set forecasts step f).

(** The rows of the table: horizon, forecast, model label. *)
Definition forecast_arima `{ARIMAForecast} (model : ARIMAResults)
    (steps : list Z) (label : string)
    : result (list (Z * float * string)) :=
  forecasts <- fold_left (add_step model) steps (Returns []) ;;
  Returns (map (fun hf => (fst hf, snd hf, label)) forecasts).

End Forecasts.

(** ** Instances used in examples *)

(** Some chi-square-like distribution function (all mass at 1/2) and
    constant Student-t functions, where an example needs an instance. *)
Definition example_stats : SciPyStats := {|
  chi2_cdf_R := fun x _ => if Rle_dec (1 / 2) x then 1 else 0;
  student_t_ppf := fun _ _ => Fin (-3);
  student_t_pdf := fun _ _ => Fin (1 / 100)
|}.

(** A library in which no ARIMA order can be fitted, and whose ARCH test
    gives the number of lags as F statistic. *)
Definition example_models : StatsModels := {|
  ARIMAResults := unit;
  ARIMA_fit := fun _ _ => Raises (Exn "LinAlgError");
  aic := fun _ => Fin 0;
  het_arch := fun _ lags => Returns (Fin 0, Fin 1, of_Z lags, Fin 1)
|}.

(** A library whose fitted model is the pair [(p, q)] of its order:
    the order (0, 0) cannot be fitted, (1, 1) has the AIC 12 and every other
    order the AIC 10. *)
Definition example_ties : StatsModels := {|
  ARIMAResults := Z * Z;
  ARIMA_fit := fun _ '(p, _, q) =>
    if ((p =? 0) && (q =? 0))%Z then Raises (Exn "LinAlgError")
    else Returns (p, q);
  aic := fun '(p, q) =>
    if ((p =? 1) && (q =? 1))%Z then Fin 12 else Fin 10;
  het_arch := fun _ _ => Raises ValueError
|}.

(** The forecasts of that library: the path to the horizon [h] is
    0, 1, ..., h - 1, and a horizon below 1 is refused. *)
Definition example_forecast : @ARIMAForecast example_ties := {|
  predicted_mean := fun _ h =>
    if (h <? 1)%Z then Raises ValueError else Returns (map of_Z (range h))
|}.

(** The uniform distribution on [-1/2, 1/2]: its quantile at [a] is
    [a - 1/2]. *)
Definition example_dist : distribution :=
  {| ppf := fun a => fsub a (Fin (1 / 2)) |}.

(** A library that answers the calls of the examples: the two powers
    [0.95 ** 3800] and [0.05 ** 200] as C's [pow] gives them; [log] with
    its value at zero; a distribution function that keeps NaN. *)
Definition example_numerics : Double.Numerics := {|
  Double.power := fun a b =>
    if (b =? 3800)%float then 2.2371757216712917e-85%float
    else if (b =? 200)%float then 6.223015277861211e-261%float
    else 1%float;
  Double.log := fun a =>
    if (a =? 0)%float then PrimFloat.neg_infinity else 0%float;
  Double.chi2_cdf := fun a _ =>
    if PrimFloat.is_nan a then PrimFloat.nan else 0.5%float
|}.

(** Ten days labelled 1 to 10, the fourth and the seventh below the VaR,
    and 4000 days of which the first 200 are below it. *)
Definition ten_days : Volatility64.Series := {|
  Volatility64.index := map Z.of_nat (seq 1 10);
  Volatility64.values :=
    [0; 0.01; 0; -0.1; 0; 0.01; -0.1; 0; 0; 0.01]%float
|}.

Definition ten_days_var : Volatility64.Series := {|
  Volatility64.index := map Z.of_nat (seq 1 10);
  Volatility64.values := repeat (-0.03)%float 10
|}.

Definition many_days : Volatility64.Series := {|
  Volatility64.index := map Z.of_nat (seq 1 4000);
  Volatility64.values := repeat (-0.1)%float 200 ++ repeat 0%float 3800
|}.

Definition many_days_var : Volatility64.Series := {|
  Volatility64.index := map Z.of_nat (seq 1 4000);
  Volatility64.values := repeat (-0.03)%float 4000
|}.

(** ** Tactics *)

(** Decides the comparisons of real numbers in the goal, by [lra]. *)
Ltac rdec :=
  repeat match goal with
  | |- context [Rlt_dec ?a ?b] => destruct (Rlt_dec a b); try lra
  | |- context [Rle_dec ?a ?b] => destruct (Rle_dec a b); try lra
  | |- context [Req_dec_T ?a ?b] => destruct (Req_dec_T a b); try lra
  end.

(** * Properties *)

Lemma Returns_inj {A : Type} (a b : A) : Returns a = Returns b -> a = b.
Proof. now injection 1. Qed.

(** ** Doubles *)

Lemma Rsign_pos (r : R) : 0 < r -> Rsign r = Gt.
Proof. intros; unfold Rsign; now rdec. Qed.

Lemma Rsign_0 : Rsign 0 = Eq.
Proof. unfold Rsign; now rdec. Qed.

Lemma fle_Fin (x y : R) : fle (Fin x) (Fin y) = true <-> x <= y.
Proof.
  unfold fle; simpl.
  destruct (Rlt_dec x y), (Req_dec_T x y); simpl; split; auto; try lra;
    discriminate.
Qed.

(** [<=] then [<] gives [<]. *)
Lemma fle_flt_trans (a b c : float) :
  fle a b = true -> flt b c = true -> flt a c = true.
Proof.
  unfold fle; destruct a, b, c; simpl; try discriminate; auto;
    rdec; simpl; auto; discriminate.
Qed.

Lemma flt_not_fle (a b : float) : flt a b = true -> fle b a = false.
Proof.
  unfold fle; destruct a, b; simpl; try discriminate; auto;
    rdec; simpl; auto; discriminate.
Qed.

(** What is not below [+inf] is below nothing that is. *)
Lemma not_below_inf (a b : float) :
  flt a PInf = false -> flt b PInf = true -> fle a b = false.
Proof.
  unfold fle; destruct a, b; simpl; try discriminate; auto.
Qed.

(** Multiplying by a positive finite number keeps the order. *)
Lemma fmul_fle_compat_r (a b : float) (s : R) :
  0 < s -> fle a b = true -> fle (fmul a (Fin s)) (fmul b (Fin s)) = true.
Proof.
  intros Hs.
  destruct a as [| | |x], b as [| | |y]; unfold fle; simpl;
    unfold inf_times; rewrite ?(Rsign_pos s Hs); simpl;
    try discriminate; auto.
  intros Hxy.
  assert (x <= y) by (apply fle_Fin; exact Hxy).
  apply fle_Fin; nra.
Qed.

Lemma fsqrt_Fin_pos (r : R) : 0 < r -> fsqrt (Fin r) = Fin (sqrt r).
Proof. intros; simpl; now rdec. Qed.

(** ** volatility.py: [compute_var] *)

(** [compute_var] is [ppf(alpha) * sqrt(v)] at every point. *)
Lemma compute_var_pointwise (variance : list float) (dist : distribution)
    (alpha : float) :
  Volatility.compute_var variance dist alpha
  = map (fun v => fmul (ppf dist alpha) (fsqrt v)) variance.
Proof. unfold Volatility.compute_var; now rewrite map_map. Qed.

(** At the argument 4 and the quantile -1/4 the result is -1/2, where
    quantile times argument is -1. *)
Lemma compute_var_at_4 :
  Volatility.compute_var [Fin 4] example_dist (Fin (1 / 4)) = [Fin (-1 / 2)]
  /\ fmul (ppf example_dist (Fin (1 / 4))) (Fin 4) = Fin (-1)
  /\ Fin (-1 / 2) <> Fin (-1).
Proof.
  assert (Hs : sqrt 4 = 2).
  { replace 4 with (2 * 2) by lra. apply sqrt_square; lra. }
  repeat split.
  - unfold Volatility.compute_var; simpl. rdec. rewrite Hs.
    do 2 f_equal; lra.
  - simpl; f_equal; lra.
  - intros E; injection E; lra.
Qed.

(** C10: [compute_var] reads its first argument as a variance: the result
    is [ppf(alpha) * sqrt(v)] at every point, so on a volatility series it
    gives [ppf(alpha) * sqrt(sigma)], which is not [ppf(alpha) * sigma]. *)
Theorem compute_var_takes_variance :
  (forall variance dist alpha,
      Volatility.compute_var variance dist alpha
      = map (fun v => fmul (ppf dist alpha) (fsqrt v)) variance)
  /\ (exists sigma dist alpha,
        Volatility.compute_var sigma dist alpha
        <> map (fun s => fmul (ppf dist alpha) s) sigma).
Proof.
  split.
  - exact compute_var_pointwise.
  - exists [Fin 4], example_dist, (Fin (1 / 4)).
    destruct compute_var_at_4 as (-> & E & Hne).
    cbn [map]; rewrite E.
    intros H; injection H; intros H'; apply Hne; now rewrite H'.
Qed.

(** C7, as stated, fails: on a positive series [sigma] the result is not
    [ppf(alpha) * sigma]. *)
Lemma compute_var_not_times_sigma :
  ~ (forall (sigma : list R) dist alpha,
        Forall (fun s => 0 < s) sigma ->
        Volatility.compute_var (map Fin sigma) dist alpha
        = map (fun s => fmul (ppf dist alpha) (Fin s)) sigma).
Proof.
  intros H.
  specialize (H [4] example_dist (Fin (1 / 4))).
  destruct compute_var_at_4 as (E1 & E2 & Hne).
  cbn [map] in H; rewrite E1, E2 in H.
  assert (E : Fin (-1 / 2) = Fin (-1)).
  { assert (F : Forall (fun s => 0 < s) [4])
      by (constructor; [lra | constructor]).
    specialize (H F). now injection H as ->. }
  exact (Hne E).
Qed.

(** C7, amended: on a series of positive variances, [compute_var] is
    [ppf(alpha) * sqrt(v)] at every point, which is [ppf(alpha) * sigma] for
    [sigma = sqrt(v)]; and when the quantile function is nondecreasing on
    (0, 1/2), the result at a smaller [alpha] is below or equal to the
    result at a larger one, at every point. *)
Theorem compute_var_monotone (variance : list R) (dist : distribution) :
  Forall (fun v => 0 < v) variance ->
  (forall a b, 0 < a -> a <= b -> b < 1 / 2 ->
               fle (ppf dist (Fin a)) (ppf dist (Fin b)) = true) ->
  (forall alpha,
      Volatility.compute_var (map Fin variance) dist alpha
      = map (fun v => fmul (ppf dist alpha) (Fin (sqrt v))) variance)
  /\ (forall a b, 0 < a -> a <= b -> b < 1 / 2 ->
        Forall2 (fun x y => fle x y = true)
          (Volatility.compute_var (map Fin variance) dist (Fin a))
          (Volatility.compute_var (map Fin variance) dist (Fin b))).
Proof.
  intros Hpos Hq.
  assert (Heq : forall alpha,
             Volatility.compute_var (map Fin variance) dist alpha
             = map (fun v => fmul (ppf dist alpha) (Fin (sqrt v))) variance).
  { intros alpha. rewrite compute_var_pointwise, map_map.
    apply map_ext_in; intros v Hv.
    rewrite fsqrt_Fin_pos; auto.
    rewrite Forall_forall in Hpos; auto. }
  split; [exact Heq|].
  intros a b Ha Hab Hb. rewrite !Heq. clear Heq.
  induction Hpos as [|v l Hv _ IH]; cbn [map]; constructor.
  - apply fmul_fle_compat_r; [now apply sqrt_lt_R0 | now apply Hq].
  - exact IH.
Qed.

(** The uniform quantile function at the variance series [4; 9]. *)
Lemma compute_var_monotone_witness :
  (forall alpha,
      Volatility.compute_var (map Fin [4; 9]) example_dist alpha
      = map (fun v => fmul (ppf example_dist alpha) (Fin (sqrt v))) [4; 9])
  /\ (forall a b, 0 < a -> a <= b -> b < 1 / 2 ->
        Forall2 (fun x y => fle x y = true)
          (Volatility.compute_var (map Fin [4; 9]) example_dist (Fin a))
          (Volatility.compute_var (map Fin [4; 9]) example_dist (Fin b))).
Proof.
  apply (compute_var_monotone [4; 9] example_dist).
  - repeat constructor; lra.
  - intros a b Ha Hab Hb. simpl. apply fle_Fin. lra.
Defined.

(** ** volatility.py: [backtest_var] *)

Section Backtest.
Context `{SciPyStats}.

Lemma exceptions_of_length (returns var_series : list float) :
  List.length returns = List.length var_series ->
  List.length (Volatility.exceptions_of returns var_series)
  = List.length returns.
Proof.
  intros E. unfold Volatility.exceptions_of.
  rewrite length_map, length_combine, <- E. apply Nat.min_id.
Qed.

(** On aligned series the function returns, with these fields. *)
Lemma backtest_var_aligned (returns var_series : list float) (alpha : float) :
  List.length returns = List.length var_series ->
  let x := np_sum (Volatility.exceptions_of returns var_series) in
  let n := Z.of_nat (List.length returns) in
  let pi_hat := fdiv (of_Z x) (of_Z n) in
  let lr :=
    fmul (Fin (-2))
      (fsub
         (flog (fmul (fpow (fsub (Fin 1) alpha) (n - x)) (fpow alpha x)))
         (flog (fmul (fpow (fsub (Fin 1) pi_hat) (n - x)) (fpow pi_hat x)))) in
  let degenerate := ((x =? 0) || (x =? n))%Z in
  Volatility.backtest_var returns var_series alpha
  = Returns {| Volatility.alpha := alpha;
               Volatility.n := n;
               Volatility.violations := x;
               Volatility.violation_ratio := round2 (fdiv pi_hat alpha);
               Volatility.kupiec_lr := if degenerate then NaN else lr;
               Volatility.p_value :=
                 if degenerate then NaN
                 else fsub (Fin 1) (chi2_cdf lr 1) |}.
Proof.
  intros E. cbv zeta. unfold Volatility.backtest_var.
  rewrite (exceptions_of_length _ _ E), <- E, Nat.eqb_refl. cbn [negb].
  now destruct ((_ =? 0) || _)%Z.
Qed.

End Backtest.

(** C1: with no violation, or with only violations, the Kupiec test
    returns, and both the statistic and the p-value are NaN. *)
Theorem backtest_var_degenerate `{SciPyStats}
    (returns var_series : list float) (alpha : float) :
  List.length returns = List.length var_series ->
  (0 < Z.of_nat (List.length returns))%Z ->
  (np_sum (Volatility.exceptions_of returns var_series) = 0
   \/ np_sum (Volatility.exceptions_of returns var_series)
      = Z.of_nat (List.length returns))%Z ->
  exists r,
    Volatility.backtest_var returns var_series alpha = Returns r
    /\ Volatility.kupiec_lr r = NaN
    /\ Volatility.p_value r = NaN.
Proof.
  intros E _ Hx.
  eexists; split; [apply backtest_var_aligned; exact E|].
  cbn [Volatility.kupiec_lr Volatility.p_value].
  assert (C : ((np_sum (Volatility.exceptions_of returns var_series)
                =? 0)
               || (np_sum (Volatility.exceptions_of returns var_series)
                   =? Z.of_nat (List.length returns)))%Z = true).
  { apply orb_true_iff. rewrite !Z.eqb_eq. exact Hx. }
  now rewrite C.
Qed.

(** Two days, both above the VaR: no violation. *)
Lemma backtest_var_degenerate_witness :
  exists r,
    Volatility.backtest_var (H := example_stats)
      [Fin (1 / 100); Fin (-1 / 100)] [Fin (-3 / 100); Fin (-3 / 100)]
      (Fin (1 / 20)) = Returns r
    /\ Volatility.kupiec_lr r = NaN
    /\ Volatility.p_value r = NaN.
Proof.
  apply (backtest_var_degenerate (H := example_stats)).
  - reflexivity.
  - simpl; lia.
  - left. unfold Volatility.exceptions_of; simpl. now rdec.
Defined.

(** *** The likelihood ratio *)

Lemma fpow_Fin_pos (y : R) (k : Z) :
  (0 < k)%Z -> fpow (Fin y) k = Fin (y ^ Z.to_nat k).
Proof.
  intros Hk. unfold fpow.
  replace (k =? 0)%Z with false by (symmetry; apply Z.eqb_neq; lia).
  now replace (0 <? k)%Z with true by (symmetry; apply Z.ltb_lt; lia).
Qed.

Lemma flog_Fin_pos (y : R) : 0 < y -> flog (Fin y) = Fin (ln y).
Proof. intros Hy. simpl. now rewrite Rsign_pos. Qed.

Lemma fdiv_Fin (x y : R) : y <> 0 -> fdiv (Fin x) (Fin y) = Fin (x / y).
Proof. intros Hy. simpl. now destruct (Req_dec_T y 0). Qed.

Lemma INR_to_nat (k : Z) : (0 <= k)%Z -> INR (Z.to_nat k) = IZR k.
Proof. intros Hk. now rewrite INR_IZR_INZ, Z2Nat.id. Qed.

(** The logarithm of the product of powers is the sum of the logarithms. *)
Lemma flog_product_of_powers (p : R) (m k : Z) :
  0 < p < 1 -> (0 < m)%Z -> (0 < k)%Z ->
  flog (fmul (fpow (fsub (Fin 1) (Fin p)) m) (fpow (Fin p) k))
  = Fin (IZR m * ln (1 - p) + IZR k * ln p).
Proof.
  intros Hp Hm Hk.
  change (fsub (Fin 1) (Fin p)) with (Fin (1 - p)).
  rewrite !fpow_Fin_pos by assumption. cbn [fmul].
  assert (H1 : 0 < (1 - p) ^ Z.to_nat m) by (apply pow_lt; lra).
  assert (H2 : 0 < p ^ Z.to_nat k) by (apply pow_lt; lra).
  rewrite flog_Fin_pos by (apply Rmult_lt_0_compat; assumption).
  rewrite ln_mult, !ln_pow, !INR_to_nat by (assumption || lra || lia).
  reflexivity.
Qed.

(** The observed frequency of a count strictly between 0 and [n]. *)
Lemma frequency_Fin (x n : Z) :
  (0 < x < n)%Z ->
  fdiv (of_Z x) (of_Z n) = Fin (IZR x / IZR n)
  /\ 0 < IZR x / IZR n < 1.
Proof.
  intros Hx.
  assert (0 < IZR x) by (apply IZR_lt; lia).
  assert (IZR x < IZR n) by (apply IZR_lt; lia).
  split.
  - apply fdiv_Fin; lra.
  - split.
    + apply Rdiv_lt_0_compat; lra.
    + apply Rmult_lt_reg_r with (IZR n); [lra|].
      unfold Rdiv; rewrite Rmult_assoc, Rinv_l by lra. lra.
Qed.

(** For [0 < x < n] and [0 < a < 1]: the statistic computed by the code,
    the statistic of the specification, and both as a real number. *)
Lemma kupiec_statistic (a : R) (x n : Z) :
  (0 < x < n)%Z -> 0 < a < 1 ->
  let pi_hat := fdiv (of_Z x) (of_Z n) in
  let LR :=
    -2 * (IZR (n - x) * ln (1 - a) + IZR x * ln a
          - IZR (n - x) * ln (1 - IZR x / IZR n)
          - IZR x * ln (IZR x / IZR n)) in
  fmul (Fin (-2))
    (fsub
       (flog (fmul (fpow (fsub (Fin 1) (Fin a)) (n - x)) (fpow (Fin a) x)))
       (flog (fmul (fpow (fsub (Fin 1) pi_hat) (n - x)) (fpow pi_hat x))))
  = Fin LR
  /\ LR_uc_spec (Fin a) n x = Fin LR.
Proof.
  intros Hx Ha. cbv zeta. unfold LR_uc_spec.
  destruct (frequency_Fin x n Hx) as [-> Hpi].
  rewrite !flog_product_of_powers by (assumption || lia).
  change (fsub (Fin 1) (Fin a)) with (Fin (1 - a)).
  change (fsub (Fin 1) (Fin (IZR x / IZR n)))
    with (Fin (1 - IZR x / IZR n)).
  rewrite !flog_Fin_pos by lra.
  split; simpl; f_equal; ring.
Qed.

(** *** Doubles: underflow and cancellation *)

(** [a - a] is 0, or NaN when [a] is an infinity or NaN. *)
Lemma sub_self (a : Double.double) :
  (a - a)%float = 0%float \/ (a - a)%float = PrimFloat.nan.
Proof.
  rewrite <- (FloatAxioms.SF2Prim_Prim2SF (a - a)%float).
  rewrite FloatAxioms.sub_spec.
  destruct (FloatOps.Prim2SF a) as [s | s | | s m e].
  - left. now destruct s.
  - right. now destruct s.
  - right. reflexivity.
  - left. unfold FloatAxioms.SF64sub, SpecFloat.SFsub.
    cbv zeta. rewrite Z.sub_diag. reflexivity.
Qed.

Lemma iter_pos_nat {A : Type} (f : A -> A) (n : positive) (x : A) :
  SpecFloat.iter_pos f n x = Nat.iter (Pos.to_nat n) f x.
Proof.
  revert x.
  induction n as [n IH | n IH |]; intros x; cbn [SpecFloat.iter_pos].
  - rewrite !IH, Pos2Nat.inj_xI.
    replace (S (2 * Pos.to_nat n))
      with (Pos.to_nat n + (Pos.to_nat n + 1))%nat by lia.
    rewrite !Nat.iter_add. reflexivity.
  - rewrite !IH, Pos2Nat.inj_xO.
    replace (2 * Pos.to_nat n)%nat
      with (Pos.to_nat n + Pos.to_nat n)%nat by lia.
    rewrite Nat.iter_add. reflexivity.
  - reflexivity.
Qed.

(** Shifting a mantissa to the right by more places than it has digits
    leaves nothing of it but the sticky bit. *)
Lemma shr_all (m : positive) (r s : bool) (k : nat) :
  (Pos.to_nat (SpecFloat.digits2_pos m) < k)%nat ->
  Nat.iter k SpecFloat.shr_1
    {| SpecFloat.shr_m := Zpos m; SpecFloat.shr_r := r;
       SpecFloat.shr_s := s |}
  = {| SpecFloat.shr_m := 0; SpecFloat.shr_r := false;
       SpecFloat.shr_s := true |}.
Proof.
  assert (G : forall j,
             Nat.iter j SpecFloat.shr_1
               {| SpecFloat.shr_m := 0; SpecFloat.shr_r := false;
                  SpecFloat.shr_s := true |}
             = {| SpecFloat.shr_m := 0; SpecFloat.shr_r := false;
                  SpecFloat.shr_s := true |}).
  { induction j as [|j IH]; [reflexivity|].
    rewrite Nat.iter_succ, IH. reflexivity. }
  revert r s k. induction m as [m IH | m IH |]; intros r s k Hk;
    cbn [SpecFloat.digits2_pos] in Hk;
    try rewrite Pos2Nat.inj_succ in Hk.
  - destruct k as [|k]; [lia|]. rewrite Nat.iter_succ_r.
    cbn [SpecFloat.shr_1]. apply IH. lia.
  - destruct k as [|k]; [lia|]. rewrite Nat.iter_succ_r.
    cbn [SpecFloat.shr_1]. apply IH. lia.
  - destruct k as [|[|k]]; try (cbn in Hk; lia).
    rewrite !Nat.iter_succ_r. cbn [SpecFloat.shr_1]. apply G.
Qed.

(** A mantissa of [d] digits at an exponent [e] with [d + e <= -1075] is
    below half of the least double, [2^-1074], and rounds to zero. *)
Lemma round_to_zero (sx : bool) (m : positive) (e : Z) :
  (Zpos (SpecFloat.digits2_pos m) + e <= -1075)%Z ->
  SpecFloat.binary_round_aux 53 1024 sx (Zpos m) e SpecFloat.loc_Exact
  = SpecFloat.S754_zero sx.
Proof.
  intros H.
  unfold SpecFloat.binary_round_aux, SpecFloat.shr_fexp, SpecFloat.fexp,
    SpecFloat.emin.
  cbn [SpecFloat.Zdigits2 SpecFloat.shr_record_of_loc].
  change (3 - 1024 - 53)%Z with (-1074)%Z.
  rewrite Z.max_r by lia.
  unfold SpecFloat.shr at 1.
  destruct (-1074 - e)%Z as [|p|p] eqn:En; try lia.
  rewrite iter_pos_nat, shr_all by lia.
  cbn [SpecFloat.shr_m SpecFloat.loc_of_shr_record
       SpecFloat.round_nearest_even SpecFloat.shr_record_of_loc
       SpecFloat.Zdigits2].
  replace (e + Z.pos p)%Z with (-1074)%Z by lia.
  reflexivity.
Qed.

Lemma digits_bound (m : positive) (k : Z) :
  (0 <= k)%Z -> (Zpos m < 2 ^ k)%Z ->
  (Zpos (SpecFloat.digits2_pos m) <= k)%Z.
Proof.
  revert k.
  induction m as [m IH | m IH |]; intros k Hk H;
    cbn [SpecFloat.digits2_pos].
  - rewrite Pos2Z.inj_succ.
    assert (0 < k)%Z.
    { destruct (Z.eq_dec k 0) as [->|]; [cbn in H; lia | lia]. }
    specialize (IH (k - 1)%Z).
    replace k with (Z.succ (k - 1)) in H by lia.
    rewrite Z.pow_succ_r in H by lia.
    assert (Zpos m < 2 ^ (k - 1))%Z by lia.
    lia.
  - rewrite Pos2Z.inj_succ.
    assert (0 < k)%Z.
    { destruct (Z.eq_dec k 0) as [->|]; [cbn in H; lia | lia]. }
    specialize (IH (k - 1)%Z).
    replace k with (Z.succ (k - 1)) in H by lia.
    rewrite Z.pow_succ_r in H by lia.
    assert (Zpos m < 2 ^ (k - 1))%Z by lia.
    lia.
  - destruct (Z.eq_dec k 0) as [->|]; [cbn in H; lia | lia].
Qed.

Lemma digits_gt (m : positive) :
  (Zpos m < 2 ^ Zpos (SpecFloat.digits2_pos m))%Z.
Proof.
  induction m as [m IH | m IH |]; cbn [SpecFloat.digits2_pos];
    try (rewrite Pos2Z.inj_succ, Z.pow_succ_r by lia; lia).
  reflexivity.
Qed.

Lemma digits_mul (m1 m2 : positive) :
  (Zpos (SpecFloat.digits2_pos (m1 * m2))
   <= Zpos (SpecFloat.digits2_pos m1)
      + Zpos (SpecFloat.digits2_pos m2))%Z.
Proof.
  apply digits_bound; [lia|].
  rewrite Z.pow_add_r by lia.
  pose proof (digits_gt m1). pose proof (digits_gt m2).
  rewrite Pos2Z.inj_mul. nia.
Qed.

(** A double from 0 up to a positive finite double [A] is a zero, or
    has a mantissa of at most 53 digits and no higher exponent than [A]. *)
Lemma small_double (a A : Double.double) (mA : positive) (eA : Z) :
  FloatOps.Prim2SF A = SpecFloat.S754_finite false mA eA ->
  (0 <=? a)%float = true -> (a <=? A)%float = true ->
  (exists s, FloatOps.Prim2SF a = SpecFloat.S754_zero s)
  \/ exists m e,
       FloatOps.Prim2SF a = SpecFloat.S754_finite false m e
       /\ (e <= eA)%Z /\ (Zpos (SpecFloat.digits2_pos m) <= 53)%Z.
Proof.
  intros HA H0 H1.
  rewrite FloatAxioms.leb_spec in H0, H1. rewrite HA in H1.
  pose proof (FloatAxioms.Prim2SF_valid a) as V.
  change (FloatOps.Prim2SF 0%float) with (SpecFloat.S754_zero false) in H0.
  destruct (FloatOps.Prim2SF a) as [s | s | | s m e].
  - left. now exists s.
  - destruct s; discriminate.
  - discriminate.
  - right. destruct s; [discriminate H0|].
    exists m, e. split; [reflexivity|].
    unfold SpecFloat.SFleb, SpecFloat.SFcompare in H1.
    cbn [SpecFloat.valid_binary] in V.
    unfold SpecFloat.bounded, SpecFloat.canonical_mantissa, SpecFloat.fexp,
      SpecFloat.emin in V.
    apply andb_prop in V as [V _]. apply Z.eqb_eq in V.
    unfold FloatOps.prec, FloatOps.emax in V.
    change IntDef.Z.max with Z.max in V.
    split.
    + destruct (Z.compare_spec e eA); try lia; discriminate H1.
    + lia.
Qed.

(** The product of two doubles that are small enough underflows: it is
    a zero. *)
Lemma mul_underflow (a b A B : Double.double) (mA mB : positive)
    (eA eB : Z) :
  FloatOps.Prim2SF A = SpecFloat.S754_finite false mA eA ->
  FloatOps.Prim2SF B = SpecFloat.S754_finite false mB eB ->
  (eA + eB <= -1181)%Z ->
  (0 <=? a)%float = true -> (a <=? A)%float = true ->
  (0 <=? b)%float = true -> (b <=? B)%float = true ->
  (a * b)%float = 0%float \/ (a * b)%float = (-0)%float.
Proof.
  intros HA HB HE Ha0 Ha1 Hb0 Hb1.
  rewrite <- (FloatAxioms.SF2Prim_Prim2SF (a * b)%float).
  rewrite FloatAxioms.mul_spec.
  destruct (small_double a A mA eA HA Ha0 Ha1)
    as [[sa ->] | (ma & ea & -> & Hea & Hma)];
  destruct (small_double b B mB eB HB Hb0 Hb1)
    as [[sb ->] | (mb & eb & -> & Heb & Hmb)];
  unfold FloatAxioms.SF64mul, SpecFloat.SFmul.
  - destruct sa, sb; auto.
  - destruct sa; auto.
  - destruct sb; auto.
  - rewrite round_to_zero; [now left|].
    pose proof (digits_mul ma mb). cbn [xorb]. lia.
Qed.

(** *** Underflow of the likelihoods *)

Lemma lt_aligned (a b : Volatility64.Series) :
  Volatility64.index a = Volatility64.index b ->
  Volatility64.lt a b
  = Returns (Volatility64.below (Volatility64.values a)
                                (Volatility64.values b)).
Proof.
  intros E. unfold Volatility64.lt.
  now destruct (list_eq_dec Z.eq_dec _ _).
Qed.

Lemma hits_length (a b : list Double.double) :
  List.length a = List.length b ->
  List.length (Volatility64.astype_int (Volatility64.below a b))
  = List.length a.
Proof.
  intros E. unfold Volatility64.astype_int, Volatility64.below.
  rewrite !length_map, length_combine. lia.
Qed.

(** The specification's statistic at a level equal to the frequency. *)
Lemma LR_uc_spec_calibrated :
  LR_uc_spec (Fin (1 / 20)) 4000 200 = Fin 0.
Proof.
  destruct (kupiec_statistic (1 / 20) 200 4000) as [_ ->]; [lia | lra |].
  f_equal.
  replace (1 - IZR 200 / IZR 4000) with (1 - 1 / 20) by lra.
  replace (IZR 200 / IZR 4000) with (1 / 20) by lra.
  ring.
Qed.

(** C3: on doubles the statistic is not the [LR_uc] of the
    specification.  With 200 violations in 4000 days at the level 0.05,
    the powers [0.95 ** 3800] (about 2.2e-85) and [0.05 ** 200] (about
    6.2e-261) are doubles, but their product, about 1e-345, is below the
    least double and underflows to 0; [np.log] gives [-inf] for this
    likelihood and, the frequency 200/4000 being the double 0.05, for the
    other one too, and their difference is NaN.  The statistic and the
    p-value returned are NaN, where [LR_uc] is 0.  The library is any one
    whose two powers lie between 0 and [2^-270], respectively [2^-860],
    whose [log] is [-inf] at zero and whose distribution function keeps
    NaN. *)
Theorem backtest_var_kupiec_underflow `{Double.Numerics}
    (returns var_series : Volatility64.Series) :
  let x :=
    np_sum (Volatility64.astype_int
              (Volatility64.below (Volatility64.values returns)
                                  (Volatility64.values var_series))) in
  let likelihood_1 := Double.power (1 - 0.05)%float 3800%float in
  let likelihood_2 := Double.power 0.05%float 200%float in
  Volatility64.index returns = Volatility64.index var_series ->
  List.length (Volatility64.values returns) = 4000%nat ->
  List.length (Volatility64.values var_series) = 4000%nat ->
  x = 200%Z ->
  (0 <=? likelihood_1)%float = true ->
  (likelihood_1 <=? 0x1p-270)%float = true ->
  (0 <=? likelihood_2)%float = true ->
  (likelihood_2 <=? 0x1p-860)%float = true ->
  Double.log 0%float = PrimFloat.neg_infinity ->
  Double.log (-0)%float = PrimFloat.neg_infinity ->
  Double.chi2_cdf PrimFloat.nan 1 = PrimFloat.nan ->
  exists r,
    Volatility64.backtest_var returns var_series 0.05%float = Returns r
    /\ Volatility64.n r = 4000%Z
    /\ Volatility64.violations r = 200%Z
    /\ Volatility64.kupiec_lr r = PrimFloat.nan
    /\ Volatility64.p_value r = PrimFloat.nan
    /\ LR_uc_spec (Fin (1 / 20)) 4000 200 = Fin 0.
Proof.
  intros x l1 l2 E Lr Lv Hx H1 H1' H2 H2' Hlog Hlog' Hcdf.
  assert (P : Double.log (l1 * l2)%float = PrimFloat.neg_infinity).
  { destruct (mul_underflow l1 l2 0x1p-270%float 0x1p-860%float
                4503599627370496 4503599627370496 (-322) (-912))
      as [-> | ->]; (reflexivity || lia || assumption). }
  unfold Volatility64.backtest_var. rewrite (lt_aligned _ _ E). cbn [bind].
  cbv zeta. rewrite hits_length by (now rewrite Lr, Lv).
  fold x. rewrite Hx, Lr.
  change (Z.of_nat 4000) with 4000%Z.
  change ((200 =? 0) || (200 =? 4000))%Z with false.
  change (4000 - 200)%Z with 3800%Z.
  change (Double.of_Z 3800) with 3800%float.
  change (Double.of_Z 200) with 200%float.
  change (Double.of_Z 4000) with 4000%float.
  change (200 / 4000)%float with 0.05%float.
  fold l1 l2. rewrite P.
  change (-2 * (PrimFloat.neg_infinity - PrimFloat.neg_infinity))%float
    with PrimFloat.nan.
  rewrite Hcdf.
  eexists. split; [reflexivity|].
  cbn [Volatility64.n Volatility64.violations Volatility64.kupiec_lr
       Volatility64.p_value].
  repeat (split; [reflexivity|]).
  apply LR_uc_spec_calibrated.
Qed.

(** 4000 days, the first 200 below the VaR. *)
Lemma backtest_var_kupiec_underflow_witness :
  exists r,
    Volatility64.backtest_var (H := example_numerics)
      many_days many_days_var 0.05%float = Returns r
    /\ Volatility64.n r = 4000%Z
    /\ Volatility64.violations r = 200%Z
    /\ Volatility64.kupiec_lr r = PrimFloat.nan
    /\ Volatility64.p_value r = PrimFloat.nan
    /\ LR_uc_spec (Fin (1 / 20)) 4000 200 = Fin 0.
Proof.
  apply (backtest_var_kupiec_underflow (H := example_numerics)
           many_days many_days_var); vm_compute; reflexivity.
Defined.

(** *** The violation ratio *)

Lemma Int_part_IZR (z : Z) : Int_part (IZR z) = z.
Proof. symmetry; apply Int_part_spec; lra. Qed.

Lemma Rrint_IZR (z : Z) : Rrint (IZR z) = z.
Proof.
  unfold Rrint. rewrite Int_part_IZR. cbv zeta.
  destruct (Rlt_dec (IZR z - IZR z) (1 / 2)); [reflexivity | lra].
Qed.

(** A number of hundredths is its own rounding. *)
Lemma round2_hundredths (x : R) (z : Z) :
  x * 100 = IZR z -> round2 (Fin x) = Fin x.
Proof.
  intros E. simpl. rewrite E, Rrint_IZR. f_equal. lra.
Qed.

(** A rounded number is a number of hundredths. *)
Lemma round2_Fin (x : R) : exists z : Z, round2 (Fin x) = Fin (IZR z / 100).
Proof. now exists (Rrint (x * 100)). Qed.

Lemma ln_le_minus_1 (x : R) : 0 < x -> ln x <= x - 1.
Proof.
  intros Hx.
  pose proof (exp_ineq1_le (x - 1)) as E.
  destruct (Rle_lt_or_eq_dec _ _ E) as [L | L].
  - left. rewrite <- (ln_exp (x - 1)). apply ln_increasing; lra.
  - right. rewrite <- (ln_exp (x - 1)). f_equal. lra.
Qed.

(** The statistic of 2 violations in 10 days at the 5% level is above 1. *)
Lemma kupiec_example_statistic :
  1 <= -2 * (8 * ln (1 - 1 / 20) + 2 * ln (1 / 20)
             - 8 * ln (1 - 2 / 10) - 2 * ln (2 / 10)).
Proof.
  assert (A : ln (1 - 1 / 20) = ln (19 / 16) + ln (1 - 2 / 10)).
  { rewrite <- ln_mult by lra. f_equal. lra. }
  assert (B : ln (2 / 10) = ln 2 + ln 2 + ln (1 / 20)).
  { rewrite <- !ln_mult by lra. f_equal. lra. }
  pose proof (ln_le_minus_1 (19 / 16)) as C.
  pose proof ln_lt_2 as D.
  rewrite A, B. lra.
Qed.

(** One violation in three days at the 5% level: the ratio returned is
    not 20/3. *)
Lemma one_in_three `{SciPyStats} (returns var_series : list float)
    (r : Volatility.report) :
  List.length returns = List.length var_series ->
  Z.of_nat (List.length returns) = 3%Z ->
  np_sum (Volatility.exceptions_of returns var_series) = 1%Z ->
  Volatility.backtest_var returns var_series (Fin (1 / 20)) = Returns r ->
  Volatility.violation_ratio r
  <> fdiv (fdiv (of_Z 1) (of_Z 3)) (Fin (1 / 20)).
Proof.
  intros E Hn Hx Hr V.
  rewrite backtest_var_aligned in Hr by exact E.
  cbv zeta in Hr. rewrite Hn, Hx in Hr.
  apply Returns_inj in Hr. rewrite <- Hr in V.
  cbn [Volatility.violation_ratio] in V.
  unfold of_Z in V. rewrite !fdiv_Fin in V by lra.
  destruct (round2_Fin (1 / 3 / (1 / 20))) as [z Hz].
  rewrite Hz in V. injection V as V.
  assert (Z3 : IZR (3 * z) = IZR 2000) by (rewrite mult_IZR; lra).
  apply eq_IZR in Z3. lia.
Qed.

(** C8, as stated, fails: one violation in three days at the 5% level has
    the ratio 20/3, and the function returns a number of hundredths. *)
Lemma violation_ratio_not_exact :
  ~ (forall (S : SciPyStats) (returns var_series : list float) (alpha : float),
        List.length returns = List.length var_series ->
        (0 < Z.of_nat (List.length returns))%Z ->
        exists r,
          Volatility.backtest_var returns var_series alpha = Returns r
          /\ Volatility.violation_ratio r
             = fdiv (fdiv
                       (of_Z (np_sum
                                (Volatility.exceptions_of returns var_series)))
                       (of_Z (Z.of_nat (List.length returns))))
                    alpha).
Proof.
  intros C.
  assert (S : np_sum
                (Volatility.exceptions_of
                   [Fin (-1 / 10); Fin 0; Fin (1 / 100)]
                   [Fin (-3 / 100); Fin (-3 / 100); Fin (-3 / 100)]) = 1%Z).
  { unfold Volatility.exceptions_of; simpl. now rdec. }
  destruct (C example_stats
              [Fin (-1 / 10); Fin 0; Fin (1 / 100)]
              [Fin (-3 / 100); Fin (-3 / 100); Fin (-3 / 100)]
              (Fin (1 / 20)) eq_refl) as (r & E & V).
  { simpl; lia. }
  rewrite S in V.
  exact (one_in_three (H := example_stats)
           [Fin (-1 / 10); Fin 0; Fin (1 / 100)]
           [Fin (-3 / 100); Fin (-3 / 100); Fin (-3 / 100)]
           r eq_refl eq_refl S E V).
Qed.

(** C8, amended: the ratio returned is the double [(x/n)/alpha] rounded
    to two decimals by NumPy, [np.rint(v * 100) / 100], and not the exact
    quotient.  At the level 0.05 it is 4.0 for 2 violations in 10 days, and
    0.37 for 3 violations in 160 days, where the double quotient is
    0.37499999999999994 and the exact one 0.375.  For the exceedances
    [0,0,0,1,0,0,1,0,0,0] at the 5% level the p-value is, in exact
    arithmetic, a number below 1/2, given that the chi-square distribution
    function with one degree of freedom is nondecreasing and above 1/2 at
    1/2. *)
Theorem backtest_var_violation_ratio `{Double.Numerics} `{SciPyStats}
    (returns var_series : Volatility64.Series) (alpha : Double.double) :
  let x :=
    np_sum (Volatility64.astype_int
              (Volatility64.below (Volatility64.values returns)
                                  (Volatility64.values var_series))) in
  let n := Z.of_nat (List.length (Volatility64.index returns)) in
  Volatility64.index returns = Volatility64.index var_series ->
  List.length (Volatility64.values returns)
  = List.length (Volatility64.index returns) ->
  List.length (Volatility64.values var_series)
  = List.length (Volatility64.index var_series) ->
  (0 < n)%Z ->
  (exists r,
      Volatility64.backtest_var returns var_series alpha = Returns r
      /\ Volatility64.violation_ratio r
         = Double.round2 (Double.of_Z x / Double.of_Z n / alpha)%float
      /\ (n = 10%Z -> x = 2%Z -> alpha = 0.05%float ->
          Volatility64.violation_ratio r = 4%float)
      /\ (n = 160%Z -> x = 3%Z -> alpha = 0.05%float ->
          (Double.of_Z x / Double.of_Z n / alpha
           = 0.37499999999999994)%float
          /\ Volatility64.violation_ratio r = 0.37%float))
  /\ (forall exact_returns exact_var_series : list float,
         List.length exact_returns = List.length exact_var_series ->
         Volatility.exceptions_of exact_returns exact_var_series
         = [0; 0; 0; 1; 0; 0; 1; 0; 0; 0]%Z ->
         (forall u v, u <= v -> chi2_cdf_R u 1 <= chi2_cdf_R v 1) ->
         1 / 2 < chi2_cdf_R (1 / 2) 1 ->
         exists r p,
           Volatility.backtest_var exact_returns exact_var_series
             (Fin (1 / 20)) = Returns r
           /\ Volatility.p_value r = Fin p /\ p < 1 / 2).
Proof.
  intros x n E Wr Wv Hn. split.
  - unfold Volatility64.backtest_var. rewrite (lt_aligned _ _ E).
    cbn [bind]. cbv zeta.
    rewrite hits_length by (rewrite Wr, Wv; now f_equal).
    rewrite Wr. fold x n.
    destruct ((x =? 0) || (x =? n))%Z;
      (eexists; split; [reflexivity|]);
      cbn [Volatility64.violation_ratio];
      (split; [reflexivity|]);
      (split; [intros -> -> -> | intros -> -> ->]);
      try split; reflexivity.
  - intros exact_returns exact_var_series EL Hex Hmono Hmed.
    eexists. eexists. split; [apply backtest_var_aligned; exact EL|].
    cbn [Volatility.p_value].
    assert (Hlen : Z.of_nat (List.length exact_returns) = 10%Z).
    { rewrite <- (exceptions_of_length _ _ EL), Hex. reflexivity. }
    rewrite Hlen, Hex.
    change (np_sum [0; 0; 0; 1; 0; 0; 1; 0; 0; 0]%Z) with 2%Z.
    cbn [Z.eqb orb].
    destruct (kupiec_statistic (1 / 20) 2 10) as [-> _]; [lia | lra |].
    cbn [chi2_cdf fsub fneg fadd]. split; [reflexivity|].
    change (10 - 2)%Z with 8%Z.
    pose proof kupiec_example_statistic as L.
    set (LR := -2 * _) in *.
    pose proof (Hmono (1 / 2) LR) as M. lra.
Qed.

(** Ten days, the fourth and the seventh below the VaR. *)
Lemma backtest_var_violation_ratio_witness :
  (exists r,
      Volatility64.backtest_var (H := example_numerics)
        ten_days ten_days_var 0.05%float = Returns r
      /\ Volatility64.violation_ratio r = 4%float)
  /\ exists r p,
       Volatility.backtest_var (H := example_stats)
         [Fin 0; Fin (1 / 100); Fin 0; Fin (-1 / 10); Fin 0;
          Fin (1 / 100); Fin (-1 / 10); Fin 0; Fin 0; Fin (1 / 100)]
         (repeat (Fin (-3 / 100)) 10)
         (Fin (1 / 20)) = Returns r
       /\ Volatility.p_value r = Fin p /\ p < 1 / 2.
Proof.
  destruct (backtest_var_violation_ratio
              (H := example_numerics) (H0 := example_stats)
              ten_days ten_days_var 0.05%float)
    as [(r & E & _ & X & _) P]; try reflexivity.
  split.
  - exists r. split; [exact E|]. apply X; reflexivity.
  - apply P.
    + reflexivity.
    + unfold Volatility.exceptions_of; simpl. now rdec.
    + intros u v Huv. simpl. now rdec.
    + simpl. now rdec.
Defined.

(** ** risk_metrics.py: [compute_es] *)

Section ExpectedShortfall.
Context `{SciPyStats}.

(** With a level in (0, 1) the function returns, whatever [dof]. *)
Lemma compute_es_returns (sigma : list float) (dof : float) (a : R) :
  let q := student_t_ppf (Fin a) dof in
  let es_std :=
    fdiv (fmul (fneg (student_t_pdf q dof)) (fadd dof (fpow q 2)))
         (fmul (fsub dof (Fin 1)) (Fin a)) in
  RiskMetrics.compute_es sigma dof (Fin a)
  = Returns {| RiskMetrics.values := map (fun s => fmul es_std s) sigma;
               RiskMetrics.name :=
                 "ES_" ++ RiskMetrics.str_of_int (Rtrunc ((1 - a) * 100)) |}.
Proof. reflexivity. Qed.

(** A quotient by zero is an infinity or NaN. *)
Lemma fdiv_zero_not_finite (a : float) (r : R) : fdiv a (Fin 0) <> Fin r.
Proof.
  destruct a as [| | |x]; simpl; try discriminate.
  - now destruct (Rlt_dec 0 0).
  - now destruct (Rlt_dec 0 0).
  - destruct (Req_dec_T 0 0) as [_|N]; [|now elim N].
    unfold inf_times. now destruct (Rsign x).
Qed.

End ExpectedShortfall.

(** C4, as stated, fails: with [dof = 1] and the level 1% the function
    does not raise [InvalidParameterError]. *)
Lemma compute_es_does_not_raise :
  ~ (forall (S : SciPyStats) (sigma : list float) (dof a : R),
        dof <= 1 -> 0 < a < 1 ->
        RiskMetrics.compute_es sigma (Fin dof) (Fin a)
        = Raises (Exn "InvalidParameterError")).
Proof.
  intros C.
  specialize (C example_stats [Fin (1 / 100)] 1 (1 / 100)).
  rewrite compute_es_returns in C.
  discriminate C; lra.
Qed.

(** C4, amended: for a level in (0, 1) and every [dof], also [dof <= 1],
    [compute_es] raises nothing: it returns the series
    [es_std * sigma_t] with
    [es_std = -f(q) * (dof + q^2) / ((dof - 1) * alpha)], as long as the
    input; at [dof = 1] the divisor is zero and [es_std] is an infinity or
    NaN. *)
Theorem compute_es_no_validation `{SciPyStats}
    (sigma : list float) (dof : float) (a : R) :
  0 < a < 1 ->
  let q := student_t_ppf (Fin a) dof in
  let es_std :=
    fdiv (fmul (fneg (student_t_pdf q dof)) (fadd dof (fpow q 2)))
         (fmul (fsub dof (Fin 1)) (Fin a)) in
  exists s,
    RiskMetrics.compute_es sigma dof (Fin a) = Returns s
    /\ RiskMetrics.values s = map (fun v => fmul es_std v) sigma
    /\ List.length (RiskMetrics.values s) = List.length sigma
    /\ (dof = Fin 1 -> forall r, es_std <> Fin r).
Proof.
  intros Ha q es_std.
  eexists; split; [apply compute_es_returns|].
  cbn [RiskMetrics.values]. fold q es_std.
  split; [reflexivity|]. split; [apply length_map|].
  intros -> r. unfold es_std.
  replace (fmul (fsub (Fin 1) (Fin 1)) (Fin a)) with (Fin 0)
    by (simpl; f_equal; ring).
  apply fdiv_zero_not_finite.
Qed.

(** One degree of freedom, the 1% level, two days. *)
Lemma compute_es_no_validation_witness :
  exists s,
    RiskMetrics.compute_es (H := example_stats)
      [Fin (1 / 100); Fin (2 / 100)] (Fin 1) (Fin (1 / 100)) = Returns s
    /\ List.length (RiskMetrics.values s) = 2%nat.
Proof.
  destruct (compute_es_no_validation (H := example_stats)
              [Fin (1 / 100); Fin (2 / 100)] (Fin 1) (1 / 100))
    as (s & E & _ & L & _).
  - lra.
  - exists s. split; [exact E | exact L].
Defined.

(** ** risk_metrics.py: [christoffersen_test] *)

Lemma Rtrunc_IZR (z : Z) : Rtrunc (IZR z) = z.
Proof.
  unfold Rtrunc. destruct (Rle_dec 0 (IZR z)).
  - apply Int_part_IZR.
  - rewrite <- opp_IZR, Int_part_IZR. lia.
Qed.

Lemma astype_int_of_Z (l : list Z) :
  RiskMetrics.astype_int (map of_Z l) = Returns l.
Proof.
  induction l as [|z l IH]; [reflexivity|].
  cbn [map RiskMetrics.astype_int of_Z].
  rewrite IH. cbn [bind]. now rewrite Rtrunc_IZR.
Qed.

Lemma sum_nonneg (l : list Z) :
  Forall (fun z => 0 <= z)%Z l -> (0 <= np_sum l)%Z.
Proof. induction 1; simpl; lia. Qed.

Lemma transitions_nonneg (a b : Z) (u v : list Z) :
  (0 <= RiskMetrics.transitions a b u v)%Z.
Proof.
  apply sum_nonneg, Forall_forall. intros z Hz.
  apply in_map_iff in Hz as (uv & <- & _).
  destruct (_ && _); lia.
Qed.

Lemma fadd_NaN_r (a : float) : fadd a NaN = NaN.
Proof. now destruct a. Qed.

(** [0 * log 0]: not a number. *)
Lemma zero_times_log_zero : fmul (of_Z 0) (flog (Fin 0)) = NaN.
Proof.
  unfold of_Z. cbn [flog]. rewrite Rsign_0. cbn [fmul].
  unfold inf_times. now rewrite Rsign_0.
Qed.

(** The share [k / (j + k)] of a positive count [k] when [j] is zero is
    1, and the share of a zero count in a positive total is 0. *)
Lemma share_all (k : Z) :
  (0 < k)%Z -> fdiv (of_Z k) (of_Z (0 + k)) = Fin 1.
Proof.
  intros Hk. assert (0 < IZR k) by (apply IZR_lt; lia).
  unfold of_Z. rewrite Z.add_0_l, fdiv_Fin by lra.
  f_equal. field. lra.
Qed.

Lemma share_none (j : Z) :
  (0 < j)%Z -> fdiv (of_Z 0) (of_Z j) = Fin 0.
Proof.
  intros Hj. assert (0 < IZR j) by (apply IZR_lt; lia).
  unfold of_Z. rewrite fdiv_Fin by lra.
  f_equal. field. lra.
Qed.

Lemma share_inside (j k : Z) :
  (0 < j)%Z -> (0 < k)%Z ->
  exists p, fdiv (of_Z k) (of_Z (j + k)) = Fin p /\ 0 < p < 1.
Proof.
  intros Hj Hk.
  destruct (frequency_Fin k (j + k)) as [E P]; [lia|].
  eauto.
Qed.

Section Christoffersen.
Context `{SciPyStats}.

(** On a sequence of integers of length at least 2 the function returns
    the four counts; the statistic is NaN under the guard and
    [-2 * (logL0 - logL1)] otherwise, and the p-value follows. *)
Lemma christoffersen_test_ints (x : list Z) :
  (2 <= List.length x)%nat ->
  let n00 := RiskMetrics.transitions 0 0 (removelast x) (tl x) in
  let n01 := RiskMetrics.transitions 0 1 (removelast x) (tl x) in
  let n10 := RiskMetrics.transitions 1 0 (removelast x) (tl x) in
  let n11 := RiskMetrics.transitions 1 1 (removelast x) (tl x) in
  let guard :=
    ((n01 + n00 =? 0) || (n10 + n11 =? 0) || (n01 + n11 =? 0))%Z in
  let lr := if guard then NaN else LR_ind_spec n00 n01 n10 n11 in
  RiskMetrics.christoffersen_test (map of_Z x)
  = Returns {| RiskMetrics.n00 := of_Z n00; RiskMetrics.n01 := of_Z n01;
               RiskMetrics.n10 := of_Z n10; RiskMetrics.n11 := of_Z n11;
               RiskMetrics.lr_ind := lr;
               RiskMetrics.p_value :=
                 if guard then NaN else fsub (Fin 1) (chi2_cdf lr 1) |}.
Proof.
  intros L. cbv zeta. unfold RiskMetrics.christoffersen_test.
  rewrite astype_int_of_Z. cbn [bind].
  replace (List.length x <? 2)%nat with false
    by (symmetry; apply Nat.ltb_ge; exact L).
  now destruct (_ || _ || _)%Z.
Qed.

(** Outside the guard, a count of zero makes the statistic NaN. *)
Lemma LR_ind_spec_zero_count (n00 n01 n10 n11 : Z) :
  (0 <= n00)%Z -> (0 <= n01)%Z -> (0 <= n10)%Z -> (0 <= n11)%Z ->
  ((n01 + n00 =? 0) || (n10 + n11 =? 0) || (n01 + n11 =? 0))%Z = false ->
  (n00 = 0 \/ n01 = 0 \/ n10 = 0 \/ n11 = 0)%Z ->
  LR_ind_spec n00 n01 n10 n11 = NaN.
Proof.
  intros H00 H01 H10 H11 G Z0.
  apply orb_false_iff in G as [G G3].
  apply orb_false_iff in G as [G1 G2].
  apply Z.eqb_neq in G1, G2, G3.
  unfold LR_ind_spec.
  assert (L1 :
    fadd (fadd (fadd
      (fmul (of_Z n00)
         (flog (fsub (Fin 1) (fdiv (of_Z n01) (of_Z (n00 + n01))))))
      (fmul (of_Z n01) (flog (fdiv (of_Z n01) (of_Z (n00 + n01))))))
      (fmul (of_Z n10)
         (flog (fsub (Fin 1) (fdiv (of_Z n11) (of_Z (n10 + n11)))))))
      (fmul (of_Z n11) (flog (fdiv (of_Z n11) (of_Z (n10 + n11)))))
    = NaN).
  { destruct Z0 as [-> | [-> | [-> | ->]]].
    - rewrite share_all by lia.
      replace (fsub (Fin 1) (Fin 1)) with (Fin 0) by (simpl; f_equal; ring).
      now rewrite zero_times_log_zero.
    - rewrite share_none by lia.
      rewrite zero_times_log_zero, fadd_NaN_r. reflexivity.
    - rewrite share_all by lia.
      replace (fsub (Fin 1) (Fin 1)) with (Fin 0) by (simpl; f_equal; ring).
      rewrite zero_times_log_zero, fadd_NaN_r. reflexivity.
    - rewrite share_none by lia.
      rewrite zero_times_log_zero, fadd_NaN_r. reflexivity. }
  cbv zeta. rewrite L1. unfold fsub. cbn [fneg].
  rewrite fadd_NaN_r. reflexivity.
Qed.

End Christoffersen.

(** With the four counts positive the statistic is a number. *)
Lemma LR_ind_spec_finite (n00 n01 n10 n11 : Z) :
  (0 < n00)%Z -> (0 < n01)%Z -> (0 < n10)%Z -> (0 < n11)%Z ->
  exists l, LR_ind_spec n00 n01 n10 n11 = Fin l.
Proof.
  intros H00 H01 H10 H11. unfold LR_ind_spec.
  destruct (share_inside n00 n01 H00 H01) as (p1 & -> & P1).
  destruct (share_inside n10 n11 H10 H11) as (p2 & -> & P2).
  replace (n00 + n01 + n10 + n11)%Z with ((n00 + n10) + (n01 + n11))%Z
    by lia.
  destruct (share_inside (n00 + n10) (n01 + n11)) as (p & -> & P);
    [lia | lia |].
  change (fsub (Fin 1) (Fin p)) with (Fin (1 - p)).
  change (fsub (Fin 1) (Fin p1)) with (Fin (1 - p1)).
  change (fsub (Fin 1) (Fin p2)) with (Fin (1 - p2)).
  rewrite !flog_Fin_pos by lra.
  eexists. reflexivity.
Qed.

(** The statistic returned on a sequence of at least two integers is NaN
    exactly when one of the four transition counts is zero: not only when a
    marginal sum is. *)
Lemma christoffersen_nan_iff `{SciPyStats} (x : list Z) :
  (2 <= List.length x)%nat ->
  let n00 := RiskMetrics.transitions 0 0 (removelast x) (tl x) in
  let n01 := RiskMetrics.transitions 0 1 (removelast x) (tl x) in
  let n10 := RiskMetrics.transitions 1 0 (removelast x) (tl x) in
  let n11 := RiskMetrics.transitions 1 1 (removelast x) (tl x) in
  exists r,
    RiskMetrics.christoffersen_test (map of_Z x) = Returns r
    /\ (RiskMetrics.lr_ind r = NaN
        <-> (n00 = 0 \/ n01 = 0 \/ n10 = 0 \/ n11 = 0)%Z).
Proof.
  intros L n00 n01 n10 n11.
  pose proof (transitions_nonneg 0 0 (removelast x) (tl x)) as P00.
  pose proof (transitions_nonneg 0 1 (removelast x) (tl x)) as P01.
  pose proof (transitions_nonneg 1 0 (removelast x) (tl x)) as P10.
  pose proof (transitions_nonneg 1 1 (removelast x) (tl x)) as P11.
  fold n00 in P00. fold n01 in P01. fold n10 in P10. fold n11 in P11.
  eexists; split; [apply christoffersen_test_ints; exact L|].
  cbn [RiskMetrics.lr_ind]. fold n00 n01 n10 n11.
  destruct ((n01 + n00 =? 0) || (n10 + n11 =? 0) || (n01 + n11 =? 0))%Z
    eqn:G.
  - split; [intros _ | reflexivity].
    rewrite !orb_true_iff, !Z.eqb_eq in G. lia.
  - split.
    + intros N.
      destruct (Z.eq_dec n00 0) as [|N00]; [tauto|].
      destruct (Z.eq_dec n01 0) as [|N01]; [tauto|].
      destruct (Z.eq_dec n10 0) as [|N10]; [tauto|].
      destruct (Z.eq_dec n11 0) as [|N11]; [tauto|].
      destruct (LR_ind_spec_finite n00 n01 n10 n11) as [l E]; try lia.
      rewrite E in N. discriminate N.
    + intros Z0. now apply LR_ind_spec_zero_count.
Qed.

(** C2 at the sequence 0, 1, 0, 0: no marginal sum is zero, there is no
    transition from 1 to 1, and both the statistic and the p-value are
    NaN. *)
Theorem christoffersen_test_no_repeat `{SciPyStats} :
  RiskMetrics.christoffersen_test [Fin 0; Fin 1; Fin 0; Fin 0]
  = Returns {| RiskMetrics.n00 := Fin 1; RiskMetrics.n01 := Fin 1;
               RiskMetrics.n10 := Fin 1; RiskMetrics.n11 := Fin 0;
               RiskMetrics.lr_ind := NaN; RiskMetrics.p_value := NaN |}.
Proof.
  change [Fin 0; Fin 1; Fin 0; Fin 0] with (map of_Z [0; 1; 0; 0]%Z).
  rewrite christoffersen_test_ints by (simpl; lia).
  cbv zeta.
  change (RiskMetrics.transitions 0 0 (removelast [0; 1; 0; 0]%Z)
            (tl [0; 1; 0; 0]%Z)) with 1%Z.
  change (RiskMetrics.transitions 0 1 (removelast [0; 1; 0; 0]%Z)
            (tl [0; 1; 0; 0]%Z)) with 1%Z.
  change (RiskMetrics.transitions 1 0 (removelast [0; 1; 0; 0]%Z)
            (tl [0; 1; 0; 0]%Z)) with 1%Z.
  change (RiskMetrics.transitions 1 1 (removelast [0; 1; 0; 0]%Z)
            (tl [0; 1; 0; 0]%Z)) with 0%Z.
  cbn [Z.add Z.eqb Pos.add Pos.succ orb].
  rewrite LR_ind_spec_zero_count by (reflexivity || lia || tauto).
  reflexivity.
Qed.

(** ** models.py: [estimate_arima] *)

Section Sortedness.
Context {A : Type} (R : A -> A -> Prop).



End Sortedness.




Lemma in_range (n z : Z) : In z (range n) <-> (0 <= z < n)%Z.
Proof.
  unfold range. rewrite in_map_iff. split.
  - intros (k & <- & Hk). apply in_seq in Hk. lia.
  - intros Hz. exists (Z.to_nat z). split; [lia|]. apply in_seq. lia.
Qed.

(** The grid is every pair of the rectangle. *)
Lemma in_grid (max_p max_q p q : Z) :
  In (p, q) (grid max_p max_q)
  <-> (0 <= p <= max_p)%Z /\ (0 <= q <= max_q)%Z.
Proof.
  unfold grid. rewrite in_flat_map. split.
  - intros (p' & Hp & Hq). apply in_map_iff in Hq as (q' & E & Hq).
    injection E as -> ->. apply in_range in Hp, Hq. lia.
  - intros [Hp Hq]. exists p. split; [apply in_range; lia|].
    apply in_map_iff. exists q. split; [reflexivity | apply in_range; lia].
Qed.


Lemma flt_irrefl (a : float) : flt a a = false.
Proof. destruct a; simpl; auto. now rdec. Qed.

Lemma fle_false_flt (a b : float) : fle a b = false -> flt a b = false.
Proof. unfold fle. now intros E%orb_false_iff. Qed.

(** Not [<=] the old best, so not [<=] a better one. *)
Lemma not_fle_better (a best new : float) :
  flt new best = true -> flt a best = false -> fle a new = false.
Proof.
  intros N O. destruct (fle a new) eqn:E; [|reflexivity].
  now rewrite (fle_flt_trans a new best E N) in O.
Qed.

Section Search.
Context `{StatsModels}.
Variables (series : list float) (d : Z).

Local Abbreviation fit := (fit_at series d).
Local Abbreviation step := (visit series d).
Local Abbreviation start := no_model.
Local Abbreviation selected := (selected series d).

Lemma inner_loop_fold (p : Z) (qs : list Z) (st : Models.search) :
  fold_left (Models.try_order series d p) qs st
  = fold_left step (map (pair p) qs) st.
Proof.
  revert st. induction qs as [|q qs IH]; intros st; [reflexivity|].
  cbn [fold_left map]. apply IH.
Qed.

(** The two loops are one pass over the grid. *)
Lemma search_grid_fold (max_p max_q : Z) :
  Models.search_grid series max_p max_q d
  = fold_left step (grid max_p max_q) start.
Proof.
  unfold Models.search_grid, grid. fold start.
  generalize start. induction (range (max_p + 1)) as [|p l IH]; intros st;
    [reflexivity|].
  cbn [fold_left flat_map].
  now rewrite fold_left_app, IH, inner_loop_fold.
Qed.

Lemma selected_step (done : list (Z * Z)) (st : Models.search)
    (pq : Z * Z) :
  selected done st -> selected (done ++ [pq]) (step st pq).
Proof.
  unfold selected, visit, Models.try_order. fold (fit pq).
  destruct (fit pq) as [model|e] eqn:F.
  - destruct (flt (aic model) (Models.best_aic st)) eqn:L.
    + (* the new fit replaces the best *)
      cbn [Models.best_model Models.best_aic Models.best_order].
      intros I. exists done, pq, []. repeat split; auto.
      2:{ intros ? ? []. }
      intros pq' m' Hin F'.
      destruct (Models.best_model st) as [m|].
      * destruct I as (before & o & after & -> & Fo & A & _ & B & Af).
        rewrite A in L.
        apply in_app_or in Hin as [Hin | [<- | Hin]].
        -- apply not_fle_better with (aic m); auto.
           apply fle_false_flt. eauto.
        -- rewrite Fo in F'. apply Returns_inj in F' as <-.
           now apply flt_not_fle.
        -- apply not_fle_better with (aic m); eauto.
      * destruct I as (A & _ & N). rewrite A in L.
        apply not_below_inf; eauto.
    + (* the best stays *)
      intros I. destruct (Models.best_model st) as [m|].
      * destruct I as (before & o & after & -> & Fo & A & O & B & Af).
        exists before, o, (after ++ [pq]). rewrite <- app_assoc.
        repeat split; auto.
        intros pq' m' Hin F'.
        apply in_app_or in Hin as [Hin | [<- | []]]; eauto.
        rewrite F in F'. apply Returns_inj in F' as <-. now rewrite <- A.
      * destruct I as (A & O & N). repeat split; auto.
        intros pq' m' Hin F'.
        apply in_app_or in Hin as [Hin | [<- | []]]; eauto.
        rewrite F in F'. apply Returns_inj in F' as <-. now rewrite <- A.
  - (* the fit raised: the order is skipped *)
    intros I. destruct (Models.best_model st) as [m|].
    + destruct I as (before & o & after & -> & Fo & A & O & B & Af).
      exists before, o, (after ++ [pq]). rewrite <- app_assoc.
      repeat split; auto.
      intros pq' m' Hin F'.
      apply in_app_or in Hin as [Hin | [<- | []]]; eauto.
      rewrite F in F'. discriminate F'.
    + destruct I as (A & O & N). repeat split; auto.
      intros pq' m' Hin F'.
      apply in_app_or in Hin as [Hin | [<- | []]]; eauto.
      rewrite F in F'. discriminate F'.
Qed.

Lemma selected_fold (l done : list (Z * Z)) (st : Models.search) :
  selected done st -> selected (done ++ l) (fold_left step l st).
Proof.
  revert done st. induction l as [|pq l IH]; intros done st I.
  - now rewrite app_nil_r.
  - cbn [fold_left].
    replace (done ++ pq :: l) with ((done ++ [pq]) ++ l)
      by now rewrite <- app_assoc.
    apply IH, selected_step, I.
Qed.

Lemma search_grid_selected (max_p max_q : Z) :
  selected (grid max_p max_q) (Models.search_grid series max_p max_q d).
Proof.
  rewrite search_grid_fold.
  apply (selected_fold (grid max_p max_q) [] start).
  repeat split. intros ? ? [].
Qed.

End Search.





(** On the grid of orders up to (1, 1): (0, 0) is passed over, and of the
    two fits with the lowest AIC, (0, 1) and (1, 0), the first is
    returned. *)
Example estimate_arima_first_of_ties :
  Models.estimate_arima (H := example_ties) [Fin 0; Fin (1 / 100)] 1 1 0
  = Returns (Some (0, 1)%Z).
Proof.
  unfold Models.estimate_arima, Models.search_grid.
  change (range (1 + 1)) with [0; 1]%Z.
  cbn [fold_left]. unfold Models.try_order.
  do 4 (cbn; rdec). reflexivity.
Qed.

(** When every fit of the grid raises, the search ends with no model. *)
Lemma search_grid_all_raise `{StatsModels}
    (series : list float) (max_p max_q d : Z) :
  (forall p q, (0 <= p <= max_p)%Z -> (0 <= q <= max_q)%Z ->
               exists e, ARIMA_fit series (p, d, q) = Raises e) ->
  Models.best_model (Models.search_grid series max_p max_q d) = None.
Proof.
  intros R.
  pose proof (search_grid_selected series d max_p max_q) as I.
  unfold selected in I.
  destruct (Models.best_model (Models.search_grid series max_p max_q d))
    as [m|]; [|reflexivity].
  destruct I as (before & [p q] & after & G & F & _).
  assert (Hin : In (p, q) (grid max_p max_q)) by (rewrite G; apply in_elt).
  apply in_grid in Hin as [Hp Hq].
  destruct (R p q Hp Hq) as [e E].
  unfold fit_at in F. cbn [fst snd] in F. rewrite F in E. discriminate E.
Qed.

(** C6, as stated, fails: when every fit raises the function does not
    raise [NoConvergentModelError]. *)
Lemma estimate_arima_does_not_raise :
  ~ (forall (M : StatsModels) (series : list float) (max_p max_q d : Z),
        (forall p q, (0 <= p <= max_p)%Z -> (0 <= q <= max_q)%Z ->
                     exists e, ARIMA_fit series (p, d, q) = Raises e) ->
        Models.estimate_arima series max_p max_q d
        = Raises (Exn "NoConvergentModelError")).
Proof.
  intros C.
  specialize (C example_models [Fin 0; Fin (1 / 100)] 5%Z 5%Z 0%Z).
  discriminate C.
  intros p q _ _. eexists. reflexivity.
Qed.

(** C6, amended: when every order of the grid fails to fit,
    [estimate_arima] raises nothing and returns [None]. *)
Theorem estimate_arima_all_fail `{StatsModels}
    (series : list float) (max_p max_q d : Z) :
  (forall p q, (0 <= p <= max_p)%Z -> (0 <= q <= max_q)%Z ->
               exists e, ARIMA_fit series (p, d, q) = Raises e) ->
  Models.estimate_arima series max_p max_q d = Returns None.
Proof.
  intros R. unfold Models.estimate_arima.
  now rewrite search_grid_all_raise.
Qed.

(** The default grid (orders up to 5, [d = 0]) in a library where no
    order can be fitted. *)
Lemma estimate_arima_all_fail_witness :
  Models.estimate_arima (H := example_models)
    [Fin 0; Fin (1 / 100)] 5 5 0 = Returns None.
Proof.
  apply (estimate_arima_all_fail (H := example_models)).
  intros p q _ _. eexists. reflexivity.
Defined.

(** ** tests.py: [arch_lm_test] *)

(** C9, as stated, fails: the F statistic cannot be read from what
    [arch_lm_test] returns.  Two calls whose F statistics differ return the
    same value. *)
Lemma arch_lm_test_drops_F :
  ~ (exists read_F : float * float -> float * float,
        forall (M : StatsModels) (series : list float) (name : string)
               (lags : Z) lm_stat lm_pval f_stat f_pval,
          het_arch series lags = Returns (lm_stat, lm_pval, f_stat, f_pval) ->
          exists out v,
            Tests.arch_lm_test series name lags = Returns (out, v)
            /\ read_F v = (f_stat, f_pval)).
Proof.
  intros (read_F & C).
  destruct (C example_models [] "Series"%string 1%Z _ _ _ _ eq_refl)
    as (o1 & v1 & E1 & R1).
  destruct (C example_models [] "Series"%string 2%Z _ _ _ _ eq_refl)
    as (o2 & v2 & E2 & R2).
  apply Returns_inj in E1, E2.
  injection E1 as _ <-. injection E2 as _ <-.
  rewrite R1 in R2. injection R2 as R2.
  apply eq_IZR in R2. discriminate R2.
Qed.

(** C9, amended: [arch_lm_test] computes the LM statistic with its
    p-value and the F statistic with its p-value and prints the four, and
    returns the LM pair only; when [het_arch] raises, so does it. *)
Theorem arch_lm_test_returns_LM `{StatsModels}
    (series : list float) (name : string) (lags : Z) :
  match het_arch series lags with
  | Returns (lm_stat, lm_pval, f_stat, f_pval) =>
      exists out,
        Tests.arch_lm_test series name lags
        = Returns (out, (lm_stat, lm_pval))
        /\ In (Tests.Stat "LM Statistic: " lm_stat) out
        /\ In (Tests.Stat "p-value (LM): " lm_pval) out
        /\ In (Tests.Stat "F Statistic:  " f_stat) out
        /\ In (Tests.Stat "p-value (F):  " f_pval) out
  | Raises e => Tests.arch_lm_test series name lags = Raises e
  end.
Proof.
  unfold Tests.arch_lm_test.
  destruct (het_arch series lags) as [[[[lm lmp] f] fp]|e]; cbn [bind];
    [|reflexivity].
  eexists; split; [reflexivity|].
  cbn [In]. repeat split; auto 7.
Qed.

(** * Further properties *)

(** ** [backtest_var]: the counts *)

Lemma astype_int_bits (l : list bool) :
  Forall (fun z => z = 0 \/ z = 1)%Z (Volatility64.astype_int l).
Proof.
  apply Forall_forall. intros z Hz.
  apply in_map_iff in Hz as ([|] & <- & _); auto.
Qed.

Lemma np_sum_bits (l : list Z) :
  Forall (fun z => z = 0 \/ z = 1)%Z l ->
  (0 <= np_sum l <= Z.of_nat (List.length l))%Z.
Proof.
  induction 1 as [|z l Hz _ IH]; simpl; [lia|].
  destruct Hz as [-> | ->]; lia.
Qed.

(** [backtest_var] raises exactly when the two series are not labelled
    alike, and then a [ValueError], also when they have the same length.
    On series labelled alike the report counts every day once: [n] is the
    number of days and [violations] lies between 0 and [n]. *)
Theorem backtest_var_counts `{Double.Numerics}
    (returns var_series : Volatility64.Series) (alpha : Double.double) :
  List.length (Volatility64.values returns)
  = List.length (Volatility64.index returns) ->
  List.length (Volatility64.values var_series)
  = List.length (Volatility64.index var_series) ->
  match Volatility64.backtest_var returns var_series alpha with
  | Returns r =>
      Volatility64.index returns = Volatility64.index var_series
      /\ Volatility64.n r
         = Z.of_nat (List.length (Volatility64.index returns))
      /\ (0 <= Volatility64.violations r <= Volatility64.n r)%Z
  | Raises e =>
      Volatility64.index returns <> Volatility64.index var_series
      /\ e = ValueError
  end.
Proof.
  intros Wr Wv. unfold Volatility64.backtest_var, Volatility64.lt.
  destruct (list_eq_dec Z.eq_dec _ _) as [E | N]; cbn [bind]; [|now split].
  cbv zeta.
  destruct (_ || _)%bool;
    cbn [Volatility64.n Volatility64.violations];
    (split; [exact E|]);
    rewrite hits_length by (rewrite Wr, Wv; now f_equal);
    rewrite <- Wr;
    (split; [reflexivity|]);
    rewrite <- (hits_length _ (Volatility64.values var_series))
      by (rewrite Wr, Wv; now f_equal);
    apply np_sum_bits, astype_int_bits.
Qed.

(** Ten days with two violations; and the same values under the labels
    0 to 9 against the labels 1 to 10. *)
Lemma backtest_var_counts_witness :
  (exists r,
      Volatility64.backtest_var (H := example_numerics)
        ten_days ten_days_var 0.05%float = Returns r
      /\ Volatility64.n r = 10%Z
      /\ Volatility64.violations r = 2%Z)
  /\ Volatility64.backtest_var (H := example_numerics)
       {| Volatility64.index := map Z.of_nat (seq 0 10);
          Volatility64.values := Volatility64.values ten_days |}
       ten_days_var 0.05%float
     = Raises ValueError.
Proof.
  split.
  - pose proof (backtest_var_counts (H := example_numerics)
                  ten_days ten_days_var 0.05%float eq_refl eq_refl) as C.
    destruct (Volatility64.backtest_var ten_days ten_days_var 0.05%float)
      as [r|e] eqn:E.
    + exists r. split; [reflexivity|]. split; [apply C|].
      vm_compute in E. apply Returns_inj in E. now rewrite <- E.
    + destruct C as [C _]. now elim C.
  - pose proof (backtest_var_counts (H := example_numerics)
                  {| Volatility64.index := map Z.of_nat (seq 0 10);
                     Volatility64.values := Volatility64.values ten_days |}
                  ten_days_var 0.05%float eq_refl eq_refl) as C.
    destruct (Volatility64.backtest_var _ ten_days_var 0.05%float)
      as [r|e] eqn:E.
    + destruct C as [C _]. discriminate C.
    + destruct C as [_ ->]. reflexivity.
Defined.

(** ** [backtest_var]: a level equal to the frequency *)

(** When the level passed is the observed frequency [x/n] itself, the
    two likelihoods are the same double: the statistic is [-0.0], or NaN
    when the logarithm of the likelihood is infinite or NaN (and when
    [x] is 0 or [n]), whatever the library computes. *)
Theorem backtest_var_kupiec_calibrated `{Double.Numerics}
    (returns var_series : Volatility64.Series) :
  let x :=
    np_sum (Volatility64.astype_int
              (Volatility64.below (Volatility64.values returns)
                                  (Volatility64.values var_series))) in
  let n := Z.of_nat (List.length (Volatility64.index returns)) in
  Volatility64.index returns = Volatility64.index var_series ->
  List.length (Volatility64.values returns)
  = List.length (Volatility64.index returns) ->
  List.length (Volatility64.values var_series)
  = List.length (Volatility64.index var_series) ->
  exists r,
    Volatility64.backtest_var returns var_series
      (Double.of_Z x / Double.of_Z n)%float = Returns r
    /\ (Volatility64.kupiec_lr r = (-0)%float
        \/ Volatility64.kupiec_lr r = PrimFloat.nan).
Proof.
  intros x n E Wr Wv.
  unfold Volatility64.backtest_var. rewrite (lt_aligned _ _ E).
  cbn [bind]. cbv zeta.
  rewrite hits_length by (rewrite Wr, Wv; now f_equal).
  rewrite Wr. fold x n.
  destruct ((x =? 0) || (x =? n))%Z;
    (eexists; split; [reflexivity|]); cbn [Volatility64.kupiec_lr];
    [now right|].
  match goal with
  | |- context [(?L - ?L)%float] => destruct (sub_self L) as [-> | ->]
  end; [now left | now right].
Qed.

(** Two violations in ten days, at the level 2/10. *)
Lemma backtest_var_kupiec_calibrated_witness :
  exists r,
    Volatility64.backtest_var (H := example_numerics)
      ten_days ten_days_var (Double.of_Z 2 / Double.of_Z 10)%float
    = Returns r
    /\ (Volatility64.kupiec_lr r = (-0)%float
        \/ Volatility64.kupiec_lr r = PrimFloat.nan).
Proof.
  apply (backtest_var_kupiec_calibrated (H := example_numerics)
           ten_days ten_days_var); reflexivity.
Defined.

(** ** The likelihood of a frequency *)

(** Gibbs' inequality for two points: the likelihood of [m] failures and
    [k] successes is highest at the observed frequency. *)
Lemma binomial_likelihood_max (a p m k : R) :
  0 < a < 1 -> 0 < p < 1 -> 0 <= m -> 0 <= k ->
  k * (1 - p) = m * p ->
  m * ln (1 - a) + k * ln a <= m * ln (1 - p) + k * ln p.
Proof.
  intros Ha Hp Hm Hk Hf.
  assert (L1 : ln (1 - a) - ln (1 - p) <= (1 - a) / (1 - p) - 1).
  { replace (ln (1 - a) - ln (1 - p)) with (ln ((1 - a) / (1 - p))).
    - apply ln_le_minus_1. apply Rdiv_lt_0_compat; lra.
    - unfold Rdiv. rewrite ln_mult, ln_Rinv; try lra.
      apply Rinv_0_lt_compat; lra. }
  assert (L2 : ln a - ln p <= a / p - 1).
  { replace (ln a - ln p) with (ln (a / p)).
    - apply ln_le_minus_1. apply Rdiv_lt_0_compat; lra.
    - unfold Rdiv. rewrite ln_mult, ln_Rinv; try lra.
      apply Rinv_0_lt_compat; lra. }
  assert (M1 : m * (ln (1 - a) - ln (1 - p)) <= m * ((1 - a) / (1 - p) - 1))
    by (apply Rmult_le_compat_l; lra).
  assert (M2 : k * (ln a - ln p) <= k * (a / p - 1))
    by (apply Rmult_le_compat_l; lra).
  assert (Z0 : m * ((1 - a) / (1 - p) - 1) + k * (a / p - 1) = 0).
  { assert (Hk' : k = m * p / (1 - p)) by (field_simplify_eq; lra).
    subst k. field. lra. }
  lra.
Qed.

(** ** [compute_var]: signs *)

(** A negative variance raises nothing: the series keeps its length and
    the VaR of every day with a negative variance is NaN, whatever the
    other days hold. *)
Theorem compute_var_negative_variance (variance : list float)
    (dist : distribution) (alpha : float) (t : nat) (v : R) :
  nth_error variance t = Some (Fin v) -> v < 0 ->
  List.length (Volatility.compute_var variance dist alpha)
  = List.length variance
  /\ nth_error (Volatility.compute_var variance dist alpha) t = Some NaN.
Proof.
  intros Ht Hv. unfold Volatility.compute_var. split.
  - now rewrite !length_map.
  - rewrite !nth_error_map, Ht. cbn [option_map fsqrt].
    destruct (Rlt_dec v 0); [|lra].
    now destruct (ppf dist alpha).
Qed.

(** A variance of 4 on the first day and of -1 on the second. *)
Lemma compute_var_negative_variance_witness :
  List.length
    (Volatility.compute_var [Fin 4; Fin (-1)] example_dist (Fin (1 / 20)))
  = 2%nat
  /\ nth_error
       (Volatility.compute_var [Fin 4; Fin (-1)] example_dist (Fin (1 / 20)))
       1
     = Some NaN.
Proof.
  apply (compute_var_negative_variance [Fin 4; Fin (-1)] example_dist
           (Fin (1 / 20)) 1 (-1)).
  - reflexivity.
  - lra.
Defined.

(** With positive variances and a negative quantile, the VaR of every day
    is a negative number. *)
Theorem compute_var_negative (variance : list R) (dist : distribution)
    (alpha : float) (q : R) :
  Forall (fun v => 0 < v) variance ->
  ppf dist alpha = Fin q -> q < 0 ->
  Forall (fun var => exists x, var = Fin x /\ x < 0)
    (Volatility.compute_var (map Fin variance) dist alpha).
Proof.
  intros Hpos Hq Hneg. rewrite compute_var_pointwise, map_map, Hq.
  apply Forall_forall. intros var Hin.
  apply in_map_iff in Hin as (v & <- & Hv).
  rewrite Forall_forall in Hpos. specialize (Hpos v Hv).
  rewrite fsqrt_Fin_pos by assumption.
  eexists; split; [reflexivity|].
  pose proof (sqrt_lt_R0 v Hpos). nra.
Qed.

Lemma compute_var_negative_witness :
  Forall (fun var => exists x, var = Fin x /\ x < 0)
    (Volatility.compute_var (map Fin [4; 9]) example_dist (Fin (1 / 20))).
Proof.
  apply (compute_var_negative [4; 9] example_dist (Fin (1 / 20))
           (1 / 20 - 1 / 2)).
  - repeat constructor; lra.
  - reflexivity.
  - lra.
Defined.

(** ** [compute_es]: signs *)

(** With a positive level, a finite quantile and a positive density
    there, the Expected Shortfall on nonnegative volatilities has the sign
    of [1 - dof]: not positive for [dof > 1], and not negative for
    [dof < 1]. *)
Theorem compute_es_sign `{SciPyStats} (sigma : list R) (dof a q f : R) :
  0 < a ->
  student_t_ppf (Fin a) (Fin dof) = Fin q ->
  student_t_pdf (Fin q) (Fin dof) = Fin f ->
  0 < f -> 0 < dof -> dof <> 1 ->
  Forall (fun s => 0 <= s) sigma ->
  exists es,
    RiskMetrics.compute_es (map Fin sigma) (Fin dof) (Fin a) = Returns es
    /\ RiskMetrics.values es
       = map (fun s => Fin (- f * (dof + q ^ 2) / ((dof - 1) * a) * s))
             sigma
    /\ Forall (fun e => exists x, e = Fin x
                                  /\ (1 < dof -> x <= 0)
                                  /\ (dof < 1 -> 0 <= x))
         (RiskMetrics.values es).
Proof.
  intros Ha Hq Hf Hfpos Hdof Hne Hsig.
  eexists; split; [apply compute_es_returns|].
  cbn [RiskMetrics.values]. rewrite Hq, Hf.
  assert (Estd :
    fdiv (fmul (fneg (Fin f)) (fadd (Fin dof) (fpow (Fin q) 2)))
         (fmul (fsub (Fin dof) (Fin 1)) (Fin a))
    = Fin (- f * (dof + q ^ 2) / ((dof - 1) * a))).
  { rewrite fpow_Fin_pos by lia. cbn [fneg fadd fmul fsub].
    rewrite fdiv_Fin by nra.
    change (Z.to_nat 2) with 2%nat. reflexivity. }
  rewrite Estd, map_map. split; [reflexivity|].
  apply Forall_forall. intros e Hin.
  apply in_map_iff in Hin as (s & <- & Hs).
  rewrite Forall_forall in Hsig. specialize (Hsig s Hs).
  eexists; split; [reflexivity|].
  assert (Hnum : 0 < f * (dof + q ^ 2)) by nra.
  split; intros Hd.
  - assert (0 < (dof - 1) * a) by nra.
    assert (0 <= f * (dof + q ^ 2) / ((dof - 1) * a))
      by (apply Rlt_le, Rdiv_lt_0_compat; assumption).
    replace (- f * (dof + q ^ 2) / ((dof - 1) * a))
      with (- (f * (dof + q ^ 2) / ((dof - 1) * a))) by (field; nra).
    nra.
  - assert (0 < (1 - dof) * a) by nra.
    assert (0 <= f * (dof + q ^ 2) / ((1 - dof) * a))
      by (apply Rlt_le, Rdiv_lt_0_compat; assumption).
    replace (- f * (dof + q ^ 2) / ((dof - 1) * a))
      with (f * (dof + q ^ 2) / ((1 - dof) * a)) by (field; nra).
    nra.
Qed.

(** Five degrees of freedom at the 1% level. *)
Lemma compute_es_sign_witness :
  exists es,
    RiskMetrics.compute_es (H := example_stats)
      (map Fin [1 / 100; 2 / 100]) (Fin 5) (Fin (1 / 100)) = Returns es
    /\ Forall (fun e => exists x, e = Fin x /\ x <= 0)
         (RiskMetrics.values es).
Proof.
  destruct (compute_es_sign (H := example_stats)
              [1 / 100; 2 / 100] 5 (1 / 100) (-3) (1 / 100))
    as (es & E & _ & F).
  - lra.
  - reflexivity.
  - reflexivity.
  - lra.
  - lra.
  - lra.
  - repeat constructor; lra.
  - exists es. split; [exact E|].
    eapply Forall_impl; [|exact F].
    intros e (x & -> & Hle & _). exists x. split; [reflexivity|].
    apply Hle. lra.
Defined.

(** ** [christoffersen_test]: errors and counts *)

Lemma astype_int_cases (l : list float) :
  (Forall (fun a => exists x, a = Fin x) l
   /\ exists zs, RiskMetrics.astype_int l = Returns zs
                 /\ List.length zs = List.length l)
  \/ (Exists (fun a => forall x, a <> Fin x) l
      /\ RiskMetrics.astype_int l = Raises ValueError).
Proof.
  induction l as [|a l IH].
  - left. split; [constructor|]. now exists [].
  - destruct a as [| | |x];
      try (right; split; [left; discriminate | reflexivity]).
    destruct IH as [(F & zs & E & L) | (X & E)].
    + left. split; [constructor; eauto|].
      exists (Rtrunc x :: zs). cbn [RiskMetrics.astype_int].
      rewrite E. cbn [bind List.length]. auto.
    + right. split; [now right|].
      cbn [RiskMetrics.astype_int]. now rewrite E.
Qed.

(** The test raises exactly when an entry is NaN or an infinity, and then
    a [ValueError]; on numbers it returns, however short the sequence. *)
Theorem christoffersen_test_raises `{SciPyStats} (exceedances : list float) :
  (Forall (fun a => exists x, a = Fin x) exceedances
   /\ exists r, RiskMetrics.christoffersen_test exceedances = Returns r)
  \/ (Exists (fun a => forall x, a <> Fin x) exceedances
      /\ RiskMetrics.christoffersen_test exceedances = Raises ValueError).
Proof.
  unfold RiskMetrics.christoffersen_test.
  destruct (astype_int_cases exceedances) as [(F & zs & -> & _) | (X & ->)].
  - left. split; [exact F|]. cbn [bind].
    destruct (List.length zs <? 2)%nat; [eauto|].
    destruct (_ || _ || _)%Z; eauto.
  - right. split; [exact X | reflexivity].
Qed.

Lemma transitions_partition (u v : list Z) :
  Forall (fun z => z = 0 \/ z = 1)%Z u ->
  Forall (fun z => z = 0 \/ z = 1)%Z v ->
  (RiskMetrics.transitions 0 0 u v + RiskMetrics.transitions 0 1 u v
   + RiskMetrics.transitions 1 0 u v + RiskMetrics.transitions 1 1 u v
   = Z.of_nat (List.length (combine u v)))%Z.
Proof.
  unfold RiskMetrics.transitions, np_sum.
  intros Hu. revert v.
  induction Hu as [|a u Ha _ IH]; intros v Hv; [reflexivity|].
  destruct Hv as [|b v Hb Hv]; [reflexivity|].
  specialize (IH v Hv).
  cbn [combine map fold_right List.length fst snd].
  rewrite Nat2Z.inj_succ.
  destruct Ha as [-> | ->], Hb as [-> | ->]; simpl Z.eqb; simpl andb; lia.
Qed.

Lemma Forall_removelast {A : Type} (P : A -> Prop) (l : list A) :
  Forall P l -> Forall P (removelast l).
Proof.
  induction 1 as [|a l Ha Hl IH]; [constructor|].
  destruct l; [constructor|]. cbn [removelast] in *. now constructor.
Qed.

Lemma Forall_tl {A : Type} (P : A -> Prop) (l : list A) :
  Forall P l -> Forall P (tl l).
Proof. now destruct 1. Qed.

Lemma length_steps {A : Type} (l : list A) :
  List.length (combine (removelast l) (tl l)) = (List.length l - 1)%nat.
Proof.
  rewrite length_combine.
  assert (List.length (removelast l) = (List.length l - 1)%nat).
  { induction l as [|a l IH]; [reflexivity|].
    destruct l; [reflexivity|].
    cbn [removelast List.length] in *. lia. }
  assert (List.length (tl l) = (List.length l - 1)%nat)
    by (destruct l; simpl; lia).
  lia.
Qed.

(** On a sequence of zeros and ones of length at least 2, the four counts
    of the report are not negative and add up to the number of
    transitions, the length minus one. *)
Theorem christoffersen_test_partition `{SciPyStats} (x : list Z) :
  (2 <= List.length x)%nat ->
  Forall (fun z => z = 0 \/ z = 1)%Z x ->
  exists r c00 c01 c10 c11,
    RiskMetrics.christoffersen_test (map of_Z x) = Returns r
    /\ RiskMetrics.n00 r = of_Z c00 /\ RiskMetrics.n01 r = of_Z c01
    /\ RiskMetrics.n10 r = of_Z c10 /\ RiskMetrics.n11 r = of_Z c11
    /\ (0 <= c00 /\ 0 <= c01 /\ 0 <= c10 /\ 0 <= c11)%Z
    /\ (c00 + c01 + c10 + c11 = Z.of_nat (List.length x) - 1)%Z.
Proof.
  intros L B.
  eexists; eexists; eexists; eexists; eexists.
  split; [apply christoffersen_test_ints; exact L|].
  cbn [RiskMetrics.n00 RiskMetrics.n01 RiskMetrics.n10 RiskMetrics.n11].
  repeat (split; [reflexivity|]).
  split; [repeat split; apply transitions_nonneg|].
  rewrite transitions_partition
    by (apply Forall_removelast || apply Forall_tl; exact B).
  rewrite length_steps. lia.
Qed.

Lemma christoffersen_test_partition_witness :
  exists r c00 c01 c10 c11,
    RiskMetrics.christoffersen_test (H := example_stats)
      (map of_Z [0; 1; 1; 0; 0]%Z) = Returns r
    /\ RiskMetrics.n00 r = of_Z c00 /\ RiskMetrics.n01 r = of_Z c01
    /\ RiskMetrics.n10 r = of_Z c10 /\ RiskMetrics.n11 r = of_Z c11
    /\ (0 <= c00 /\ 0 <= c01 /\ 0 <= c10 /\ 0 <= c11)%Z
    /\ (c00 + c01 + c10 + c11 = Z.of_nat 5 - 1)%Z.
Proof.
  apply (christoffersen_test_partition (H := example_stats)
           [0; 1; 1; 0; 0]%Z).
  - simpl; lia.
  - repeat (apply Forall_cons; [lia|]). apply Forall_nil.
Defined.

Lemma transitions_absent (a b : Z) (u v : list Z) :
  Forall (fun z => z <> a) u -> RiskMetrics.transitions a b u v = 0%Z.
Proof.
  unfold RiskMetrics.transitions, np_sum.
  intros Hu. revert v.
  induction Hu as [|z u Hz _ IH]; intros [|w v]; try reflexivity.
  cbn [combine map fold_right fst snd]. rewrite IH.
  now replace (z =? a)%Z with false by (symmetry; now apply Z.eqb_neq).
Qed.

(** What is neither 0 nor 1 after the cast is counted in no transition:
    a sequence without zeros and ones has four counts of zero and a NaN
    statistic. *)
Theorem christoffersen_test_not_binary `{SciPyStats} (x : list Z) :
  (2 <= List.length x)%nat ->
  Forall (fun z => z <> 0 /\ z <> 1)%Z x ->
  RiskMetrics.christoffersen_test (map of_Z x)
  = Returns {| RiskMetrics.n00 := Fin 0; RiskMetrics.n01 := Fin 0;
               RiskMetrics.n10 := Fin 0; RiskMetrics.n11 := Fin 0;
               RiskMetrics.lr_ind := NaN; RiskMetrics.p_value := NaN |}.
Proof.
  intros L B.
  assert (B0 : Forall (fun z => z <> 0%Z) (removelast x)).
  { apply Forall_removelast. eapply Forall_impl; [|exact B]. now intros z []. }
  assert (B1 : Forall (fun z => z <> 1%Z) (removelast x)).
  { apply Forall_removelast. eapply Forall_impl; [|exact B]. now intros z []. }
  rewrite christoffersen_test_ints by exact L. cbv zeta.
  rewrite !(transitions_absent 0) by exact B0.
  rewrite !(transitions_absent 1) by exact B1.
  reflexivity.
Qed.

Lemma christoffersen_test_not_binary_witness :
  RiskMetrics.christoffersen_test (H := example_stats) (map of_Z [2; 3; 2]%Z)
  = Returns {| RiskMetrics.n00 := Fin 0; RiskMetrics.n01 := Fin 0;
               RiskMetrics.n10 := Fin 0; RiskMetrics.n11 := Fin 0;
               RiskMetrics.lr_ind := NaN; RiskMetrics.p_value := NaN |}.
Proof.
  apply (christoffersen_test_not_binary (H := example_stats) [2; 3; 2]%Z).
  - simpl; lia.
  - repeat (apply Forall_cons; [lia|]). apply Forall_nil.
Defined.

(** ** [christoffersen_test]: the sign of the statistic *)

(** The statistic as a real number, when the four counts are positive. *)
Lemma LR_ind_spec_value (n00 n01 n10 n11 : Z) :
  (0 < n00)%Z -> (0 < n01)%Z -> (0 < n10)%Z -> (0 < n11)%Z ->
  let p01 := IZR n01 / IZR (n00 + n01) in
  let p11 := IZR n11 / IZR (n10 + n11) in
  let p := IZR (n01 + n11) / IZR (n00 + n01 + n10 + n11) in
  LR_ind_spec n00 n01 n10 n11
  = Fin (-2 * ((IZR (n00 + n01) * ln (1 - p) + IZR (n10 + n11) * ln p)
               - (IZR n00 * ln (1 - p01) + IZR n01 * ln p01
                  + IZR n10 * ln (1 - p11) + IZR n11 * ln p11)))
  /\ 0 < p01 < 1 /\ 0 < p11 < 1 /\ 0 < p < 1.
Proof.
  intros H00 H01 H10 H11 p01 p11 p. unfold LR_ind_spec.
  destruct (frequency_Fin n01 (n00 + n01)) as [E1 P1]; [lia|].
  destruct (frequency_Fin n11 (n10 + n11)) as [E2 P2]; [lia|].
  destruct (frequency_Fin (n01 + n11) (n00 + n01 + n10 + n11))
    as [E P]; [lia|].
  fold p01 in E1, P1. fold p11 in E2, P2. fold p in E, P.
  rewrite E1, E2, E.
  change (fsub (Fin 1) (Fin p)) with (Fin (1 - p)).
  change (fsub (Fin 1) (Fin p01)) with (Fin (1 - p01)).
  change (fsub (Fin 1) (Fin p11)) with (Fin (1 - p11)).
  rewrite !flog_Fin_pos by lra.
  split; [|auto]. simpl. f_equal; ring.
Qed.

(** When the four counts are positive and the transitions from 0 to 1
    are as many as those from 1 to 0, the statistic is a number and is not
    negative. *)
Theorem christoffersen_test_nonneg `{SciPyStats} (x : list Z) :
  let n00 := RiskMetrics.transitions 0 0 (removelast x) (tl x) in
  let n01 := RiskMetrics.transitions 0 1 (removelast x) (tl x) in
  let n10 := RiskMetrics.transitions 1 0 (removelast x) (tl x) in
  let n11 := RiskMetrics.transitions 1 1 (removelast x) (tl x) in
  (2 <= List.length x)%nat ->
  (0 < n00)%Z -> (0 < n11)%Z -> (0 < n01)%Z -> n01 = n10 ->
  exists r l,
    RiskMetrics.christoffersen_test (map of_Z x) = Returns r
    /\ RiskMetrics.lr_ind r = Fin l
    /\ 0 <= l.
Proof.
  intros n00 n01 n10 n11 L H00 H11 H01 E.
  assert (H10 : (0 < n10)%Z) by lia.
  destruct (LR_ind_spec_value n00 n01 n10 n11 H00 H01 H10 H11)
    as (V & P01 & P11 & P).
  cbv zeta in V, P01, P11, P.
  eexists; eexists; split; [apply christoffersen_test_ints; exact L|].
  cbn [RiskMetrics.lr_ind]. fold n00 n01 n10 n11.
  replace ((n01 + n00 =? 0) || (n10 + n11 =? 0) || (n01 + n11 =? 0))%Z
    with false
    by (symmetry; rewrite !orb_false_iff, !Z.eqb_neq; lia).
  split; [exact V|].
  set (p := IZR (n01 + n11) / IZR (n00 + n01 + n10 + n11)) in *.
  set (p01 := IZR n01 / IZR (n00 + n01)) in *.
  set (p11 := IZR n11 / IZR (n10 + n11)) in *.
  assert (R00 : 0 < IZR n00) by (apply IZR_lt; lia).
  assert (R01 : 0 < IZR n01) by (apply IZR_lt; lia).
  assert (R10 : 0 < IZR n10) by (apply IZR_lt; lia).
  assert (R11 : 0 < IZR n11) by (apply IZR_lt; lia).
  pose proof (binomial_likelihood_max p p01 (IZR n00) (IZR n01)) as G0.
  pose proof (binomial_likelihood_max p p11 (IZR n10) (IZR n11)) as G1.
  lapply G0; [clear G0; intros G0 | exact P].
  lapply G0; [clear G0; intros G0 | exact P01].
  lapply G0; [clear G0; intros G0 | lra].
  lapply G0; [clear G0; intros G0 | lra].
  lapply G0; [clear G0; intros G0
             | unfold p01; rewrite plus_IZR; field; lra].
  lapply G1; [clear G1; intros G1 | exact P].
  lapply G1; [clear G1; intros G1 | exact P11].
  lapply G1; [clear G1; intros G1 | lra].
  lapply G1; [clear G1; intros G1 | lra].
  lapply G1; [clear G1; intros G1
             | unfold p11; rewrite plus_IZR; field; lra].
  rewrite !plus_IZR. rewrite <- E in *. rewrite !plus_IZR in *.
  nra.
Qed.

Lemma christoffersen_test_nonneg_witness :
  exists r l,
    RiskMetrics.christoffersen_test (H := example_stats)
      (map of_Z [0; 1; 1; 0; 0]%Z) = Returns r
    /\ RiskMetrics.lr_ind r = Fin l
    /\ 0 <= l.
Proof.
  apply (christoffersen_test_nonneg (H := example_stats) [0; 1; 1; 0; 0]%Z).
  - simpl; lia.
  - reflexivity.
  - reflexivity.
  - reflexivity.
  - reflexivity.
Defined.

Lemma ln_quotient (a b : R) : 0 < a -> 0 < b -> ln (a / b) = ln a - ln b.
Proof.
  intros Ha Hb. unfold Rdiv.
  rewrite ln_mult, ln_Rinv; try lra. now apply Rinv_0_lt_compat.
Qed.

(** [2^26 < 5^6 * 3^8], in logarithms. *)
Lemma ln_2_3_5 : 26 * ln 2 < 6 * ln 5 + 8 * ln 3.
Proof.
  assert (E2 : ln (2 ^ 26) = 26 * ln 2)
    by (rewrite ln_pow by lra; simpl INR; ring).
  assert (E5 : ln (5 ^ 6) = 6 * ln 5)
    by (rewrite ln_pow by lra; simpl INR; ring).
  assert (E3 : ln (3 ^ 8) = 8 * ln 3)
    by (rewrite ln_pow by lra; simpl INR; ring).
  rewrite <- E2, <- E5, <- E3, <- ln_mult by (apply pow_lt; lra).
  apply ln_increasing; [apply pow_lt; lra|].
  replace (2 ^ 26) with 67108864 by ring.
  replace (5 ^ 6 * 3 ^ 8) with 102515625 by ring.
  lra.
Qed.

(** The statistic can be negative.  On 0, 1, 1, 0, 0, 0, 0, 0, 1 the four
    counts are 4, 2, 1 and 1, and [logL0], which weighs [log(1 - pi)] by
    [n00 + n01] and [log(pi)] by [n10 + n11], exceeds [logL1]. *)
Theorem christoffersen_test_negative `{SciPyStats} :
  exists r l,
    RiskMetrics.christoffersen_test
      [Fin 0; Fin 1; Fin 1; Fin 0; Fin 0; Fin 0; Fin 0; Fin 0; Fin 1]
    = Returns r
    /\ RiskMetrics.n00 r = Fin 4 /\ RiskMetrics.n01 r = Fin 2
    /\ RiskMetrics.n10 r = Fin 1 /\ RiskMetrics.n11 r = Fin 1
    /\ RiskMetrics.lr_ind r = Fin l
    /\ l < 0.
Proof.
  change [Fin 0; Fin 1; Fin 1; Fin 0; Fin 0; Fin 0; Fin 0; Fin 0; Fin 1]
    with (map of_Z [0; 1; 1; 0; 0; 0; 0; 0; 1]%Z).
  eexists; eexists; split; [apply christoffersen_test_ints; simpl; lia|].
  change (RiskMetrics.transitions 0 0
            (removelast [0; 1; 1; 0; 0; 0; 0; 0; 1]%Z)
            (tl [0; 1; 1; 0; 0; 0; 0; 0; 1]%Z)) with 4%Z.
  change (RiskMetrics.transitions 0 1
            (removelast [0; 1; 1; 0; 0; 0; 0; 0; 1]%Z)
            (tl [0; 1; 1; 0; 0; 0; 0; 0; 1]%Z)) with 2%Z.
  change (RiskMetrics.transitions 1 0
            (removelast [0; 1; 1; 0; 0; 0; 0; 0; 1]%Z)
            (tl [0; 1; 1; 0; 0; 0; 0; 0; 1]%Z)) with 1%Z.
  change (RiskMetrics.transitions 1 1
            (removelast [0; 1; 1; 0; 0; 0; 0; 0; 1]%Z)
            (tl [0; 1; 1; 0; 0; 0; 0; 0; 1]%Z)) with 1%Z.
  cbn [RiskMetrics.n00 RiskMetrics.n01 RiskMetrics.n10 RiskMetrics.n11
       RiskMetrics.lr_ind].
  repeat (split; [reflexivity|]).
  change ((2 + 4 =? 0) || (1 + 1 =? 0) || (2 + 1 =? 0))%Z with false.
  cbv iota.
  destruct (LR_ind_spec_value 4 2 1 1) as (V & _); try lia.
  cbv zeta in V. split; [exact V|].
  change (IZR (4 + 2)) with 6. change (IZR (1 + 1)) with 2.
  change (IZR (2 + 1)) with 3. change (IZR (4 + 2 + 1 + 1)) with 8.
  assert (A1 : ln (1 - 3 / 8) = ln 5 - 3 * ln 2).
  { replace (1 - 3 / 8) with (5 / (2 * 2 * 2)) by lra.
    rewrite ln_quotient, !ln_mult by lra. ring. }
  assert (A2 : ln (3 / 8) = ln 3 - 3 * ln 2).
  { replace (3 / 8) with (3 / (2 * 2 * 2)) by lra.
    rewrite ln_quotient, !ln_mult by lra. ring. }
  assert (A3 : ln (1 - 2 / 6) = ln 2 - ln 3).
  { replace (1 - 2 / 6) with (2 / 3) by lra.
    now rewrite ln_quotient by lra. }
  assert (A4 : ln (2 / 6) = - ln 3).
  { replace (2 / 6) with (1 / 3) by lra.
    rewrite ln_quotient, ln_1 by lra. ring. }
  assert (A5 : ln (1 - 1 / 2) = - ln 2).
  { replace (1 - 1 / 2) with (1 / 2) by lra.
    rewrite ln_quotient, ln_1 by lra. ring. }
  assert (A6 : ln (1 / 2) = - ln 2).
  { rewrite ln_quotient, ln_1 by lra. ring. }
  rewrite A1, A2, A3, A4, A5, A6.
  pose proof ln_2_3_5. lra.
Qed.

(** ** [estimate_arima]: the variables of the search *)

(** The three variables agree when the loops end: either no model, no
    order and the AIC [+inf], or a model, the order of the grid it was
    fitted at, and its AIC.  This is what the summary line prints. *)
Theorem search_grid_consistent `{StatsModels}
    (series : list float) (max_p max_q d : Z) :
  let st := Models.search_grid series max_p max_q d in
  match Models.best_model st with
  | Some m =>
      exists p q,
        (0 <= p <= max_p)%Z /\ (0 <= q <= max_q)%Z
        /\ Models.best_order st = Some (p, d, q)
        /\ ARIMA_fit series (p, d, q) = Returns m
        /\ Models.best_aic st = aic m
        /\ flt (aic m) PInf = true
  | None => Models.best_order st = None /\ Models.best_aic st = PInf
  end.
Proof.
  cbv zeta.
  pose proof (search_grid_selected series d max_p max_q) as I.
  unfold selected in I.
  destruct (Models.best_model (Models.search_grid series max_p max_q d))
    as [m|] eqn:B.
  - destruct I as (before & [p q] & after & G & F & A & O & _).
    assert (Hin : In (p, q) (grid max_p max_q)) by (rewrite G; apply in_elt).
    apply in_grid in Hin as [Hp Hq].
    exists p, q. repeat split; try lia; auto.
    (* the AIC of a model that was kept is below [+inf] *)
    destruct (aic m) eqn:Em; try reflexivity; exfalso.
    + revert B A. rewrite search_grid_fold.
      generalize (grid max_p max_q).
      assert (K : forall l st,
                 Models.best_aic st <> NaN ->
                 Models.best_aic (fold_left (visit series d) l st) <> NaN).
      { induction l as [|o l IH]; intros st N; [exact N|].
        cbn [fold_left]. apply IH. unfold visit, Models.try_order.
        destruct (ARIMA_fit _ _) as [model|]; [|exact N].
        destruct (flt (aic model) (Models.best_aic st)) eqn:C; [|exact N].
        cbn [Models.best_aic]. intros E'. now rewrite E' in C. }
      intros l _ A. apply (K l no_model); [discriminate | exact A].
    + revert B A. rewrite search_grid_fold.
      generalize (grid max_p max_q).
      assert (K : forall l st,
                 Models.best_model st = None \/ Models.best_aic st <> PInf ->
                 Models.best_model (fold_left (visit series d) l st) = None
                 \/ Models.best_aic (fold_left (visit series d) l st)
                    <> PInf).
      { induction l as [|o l IH]; intros st N; [exact N|].
        cbn [fold_left]. apply IH. unfold visit, Models.try_order.
        destruct (ARIMA_fit _ _) as [model|]; [|exact N].
        destruct (flt (aic model) (Models.best_aic st)) eqn:C; [|exact N].
        cbn [Models.best_aic]. right. intros E'. rewrite E' in C.
        now destruct (Models.best_aic st). }
      intros l B A. destruct (K l no_model) as [N | N]; [now left | |].
      * rewrite B in N. discriminate N.
      * now apply N.
  - destruct I as (A & O & _). auto.
Qed.

(** With a negative [max_p] or [max_q] the grid is empty and no model is
    returned. *)
Theorem estimate_arima_empty_grid `{StatsModels}
    (series : list float) (max_p max_q d : Z) :
  (max_p < 0 \/ max_q < 0)%Z ->
  Models.estimate_arima series max_p max_q d = Returns None.
Proof.
  intros Hneg. unfold Models.estimate_arima. f_equal.
  pose proof (search_grid_selected series d max_p max_q) as I.
  unfold selected in I.
  destruct (Models.best_model (Models.search_grid series max_p max_q d))
    as [m|]; [|reflexivity].
  destruct I as (before & [p q] & after & G & _).
  assert (Hin : In (p, q) (grid max_p max_q)) by (rewrite G; apply in_elt).
  apply in_grid in Hin. lia.
Qed.

Lemma estimate_arima_empty_grid_witness :
  Models.estimate_arima (H := example_ties) [Fin 0; Fin (1 / 100)] (-1) 5 0
  = Returns None.
Proof.
  apply (estimate_arima_empty_grid (H := example_ties)). lia.
Defined.

(** ** pandas series: [shift] *)

Lemma map2_length (f : float -> float -> float) (a b : list float) :
  List.length a = List.length b ->
  List.length (Pandas.map2 f a b) = List.length a.
Proof.
  intros E. unfold Pandas.map2.
  rewrite length_map, length_combine, <- E. apply Nat.min_id.
Qed.

Lemma map2_nth (f : float -> float -> float) (a b : list float) (t : nat) :
  List.length a = List.length b -> (t < List.length a)%nat ->
  nth t (Pandas.map2 f a b) NaN = f (nth t a NaN) (nth t b NaN).
Proof.
  intros E Ht.
  rewrite (nth_indep _ NaN (f NaN NaN))
    by (rewrite map2_length; assumption).
  unfold Pandas.map2.
  change (f NaN NaN) with ((fun xy => f (fst xy) (snd xy)) (NaN, NaN)).
  now rewrite map_nth, combine_nth.
Qed.

Lemma shift_length (k : Z) (s : list float) :
  List.length (Pandas.shift k s) = List.length s.
Proof.
  unfold Pandas.shift. destruct (0 <=? k)%Z.
  - rewrite length_firstn, length_app. lia.
  - rewrite length_app, length_skipn, repeat_length. lia.
Qed.

(** Down by [j] places: NaN at the first [j], then the value [j] places
    before. *)
Lemma shift_nth_down (j : nat) (s : list float) (t : nat) :
  (t < List.length s)%nat ->
  nth t (Pandas.shift (Z.of_nat j) s) NaN
  = if (t <? j)%nat then NaN else nth (t - j) s NaN.
Proof.
  intros Ht. unfold Pandas.shift.
  replace (0 <=? Z.of_nat j)%Z with true by (symmetry; apply Z.leb_le; lia).
  rewrite Nat2Z.id, nth_firstn.
  replace (t <? List.length s)%nat with true
    by (symmetry; now apply Nat.ltb_lt).
  destruct (t <? j)%nat eqn:C.
  - apply Nat.ltb_lt in C.
    rewrite app_nth1 by (rewrite repeat_length; exact C).
    apply nth_repeat.
  - apply Nat.ltb_ge in C.
    rewrite app_nth2 by (rewrite repeat_length; exact C).
    now rewrite repeat_length.
Qed.

(** Up by [j] places: the value [j] places after, NaN at the last [j]. *)
Lemma shift_nth_up (j : nat) (s : list float) (t : nat) :
  (0 < j)%nat ->
  nth t (Pandas.shift (- Z.of_nat j) s) NaN = nth (t + j) s NaN.
Proof.
  intros Hj. unfold Pandas.shift.
  replace (0 <=? - Z.of_nat j)%Z with false
    by (symmetry; apply Z.leb_gt; lia).
  replace (Z.to_nat (- - Z.of_nat j)) with j by lia.
  destruct (Nat.lt_ge_cases t (List.length (skipn j s))) as [C | C].
  - rewrite app_nth1 by exact C. rewrite nth_skipn. f_equal. lia.
  - rewrite app_nth2 by exact C. rewrite length_skipn in C.
    rewrite (nth_overflow s) by lia. apply nth_repeat.
Qed.

Lemma nth_map_Fin (xs : list R) (t : nat) :
  (t < List.length xs)%nat -> nth t (map Fin xs) NaN = Fin (nth t xs 0).
Proof.
  intros Ht. rewrite (nth_indep _ NaN (Fin 0)) by (now rewrite length_map).
  apply map_nth.
Qed.

Lemma nth_map_in {A : Type} (f : A -> float) (l : list A) (t : nat) (d : A) :
  (t < List.length l)%nat -> nth t (map f l) NaN = f (nth t l d).
Proof.
  intros Ht. rewrite (nth_indep _ NaN (f d)) by (now rewrite length_map).
  apply map_nth.
Qed.

(** The [t]-th value of a series given place by place. *)
Lemma nth_tabulate (f : nat -> float) (n t : nat) :
  (t < n)%nat -> nth t (map f (seq 0 n)) NaN = f t.
Proof.
  intros Ht.
  rewrite (nth_indep _ NaN (f 0%nat)) by (now rewrite length_map, length_seq).
  now rewrite map_nth, seq_nth.
Qed.

(** ** build_technical_indicators.py: [compute_momentum] *)

(** On a series of numbers and a window [k >= 0], the momentum is NaN on
    the first [k] rows and the value minus the value [k] rows before on the
    others; the series keeps its length. *)
Theorem compute_momentum_lag (xs : list R) (k : nat) :
  Indicators.compute_momentum (map Fin xs) (Z.of_nat k)
  = map (fun t => if (t <? k)%nat then NaN
                  else Fin (nth t xs 0 - nth (t - k) xs 0))
        (seq 0 (List.length xs)).
Proof.
  unfold Indicators.compute_momentum.
  apply (nth_ext _ _ NaN NaN).
  - rewrite map2_length by (now rewrite shift_length).
    now rewrite !length_map, length_seq.
  - intros t Ht. rewrite map2_length in Ht by (now rewrite shift_length).
    rewrite map2_nth by (rewrite ?shift_length; auto).
    rewrite shift_nth_down by exact Ht.
    rewrite length_map in Ht.
    rewrite nth_tabulate by exact Ht.
    rewrite nth_map_Fin by exact Ht.
    destruct (t <? k)%nat; [reflexivity|].
    now rewrite nth_map_Fin by lia.
Qed.

(** A negative window is not refused: the momentum is then the value
    minus the value [k] rows after, and NaN on the last [k] rows. *)
Theorem compute_momentum_lead (xs : list R) (k : nat) :
  Indicators.compute_momentum (map Fin xs) (- Z.of_nat (S k))
  = map (fun t => if (t + S k <? List.length xs)%nat
                  then Fin (nth t xs 0 - nth (t + S k) xs 0)
                  else NaN)
        (seq 0 (List.length xs)).
Proof.
  unfold Indicators.compute_momentum.
  apply (nth_ext _ _ NaN NaN).
  - rewrite map2_length by (now rewrite shift_length).
    now rewrite !length_map, length_seq.
  - intros t Ht. rewrite map2_length in Ht by (now rewrite shift_length).
    rewrite map2_nth by (rewrite ?shift_length; auto).
    rewrite shift_nth_up by lia.
    rewrite length_map in Ht.
    rewrite nth_tabulate by exact Ht.
    rewrite nth_map_Fin by exact Ht.
    destruct (t + S k <? List.length xs)%nat eqn:C.
    + apply Nat.ltb_lt in C. now rewrite nth_map_Fin by exact C.
    + apply Nat.ltb_ge in C.
      now rewrite (nth_overflow (map Fin xs)) by (now rewrite length_map).
Qed.

(** ** pandas series: rolling windows *)

Lemma rolling_mean_length (w m : nat) (s : list float) :
  List.length (Pandas.rolling_mean w m s) = List.length s.
Proof. unfold Pandas.rolling_mean. now rewrite length_map, length_seq. Qed.

Lemma rolling_mean_nth (w m : nat) (s : list float) (t : nat) :
  (t < List.length s)%nat ->
  nth t (Pandas.rolling_mean w m s) NaN
  = let o := Pandas.observations (Pandas.window_at w s t) in
    if (m <=? List.length o)%nat && (0 <? List.length o)%nat
    then Fin (Pandas.mean o) else NaN.
Proof. intros Ht. unfold Pandas.rolling_mean. now rewrite nth_tabulate. Qed.

Lemma in_observations (l : list float) (x : R) :
  In x (Pandas.observations l) <-> In (Fin x) l.
Proof.
  unfold Pandas.observations. rewrite in_flat_map. split.
  - intros (a & Ha & Hx). destruct a; try contradiction.
    now destruct Hx as [<- | []].
  - intros Hx. exists (Fin x). split; [exact Hx | now left].
Qed.

Lemma observations_length (l : list float) :
  (List.length (Pandas.observations l) <= List.length l)%nat.
Proof.
  induction l as [|a l IH]; [reflexivity|].
  change (Pandas.observations (a :: l))
    with (match a with Fin x => [x] | _ => [] end ++ Pandas.observations l).
  rewrite length_app. destruct a; simpl; lia.
Qed.

Lemma observations_Fin {A : Type} (f : A -> R) (l : list A) :
  Pandas.observations (map (fun i => Fin (f i)) l) = map f l.
Proof.
  induction l as [|a l IH]; [reflexivity|].
  change (Pandas.observations (map (fun i => Fin (f i)) (a :: l)))
    with (f a :: Pandas.observations (map (fun i => Fin (f i)) l)).
  now rewrite IH.
Qed.

Lemma in_window_at (w : nat) (s : list float) (t : nat) (a : float) :
  In a (Pandas.window_at w s t) -> In a s.
Proof.
  unfold Pandas.window_at. intros H.
  assert (H1 : In a (firstn (S t) s)).
  { rewrite <- (firstn_skipn (S t - w) (firstn (S t) s)).
    apply in_or_app. now right. }
  rewrite <- (firstn_skipn (S t) s). apply in_or_app. now left.
Qed.

Lemma Rsum_nonneg (l : list R) :
  (forall x, In x l -> 0 <= x) -> 0 <= Pandas.Rsum l.
Proof.
  induction l as [|x l IH]; intros H; simpl; [lra|].
  assert (0 <= x) by (apply H; now left).
  assert (0 <= Pandas.Rsum l) by (apply IH; intros; apply H; now right).
  lra.
Qed.

Lemma mean_nonneg (l : list R) :
  (forall x, In x l -> 0 <= x) -> 0 <= Pandas.mean l.
Proof.
  intros H. unfold Pandas.mean. destruct l as [|x l].
  - simpl. unfold Rdiv. rewrite Rinv_0. lra.
  - apply Rmult_le_pos; [now apply Rsum_nonneg|].
    apply Rlt_le, Rinv_0_lt_compat, lt_0_INR. simpl; lia.
Qed.

(** The rolling mean of a series whose numbers are not negative is, at
    every place, NaN or a number that is not negative. *)
Lemma rolling_mean_nonneg (w m : nat) (s : list float) :
  (forall x, In (Fin x) s -> 0 <= x) ->
  Forall (fun a => a = NaN \/ exists x, a = Fin x /\ 0 <= x)
    (Pandas.rolling_mean w m s).
Proof.
  intros H. unfold Pandas.rolling_mean.
  apply Forall_forall. intros a Ha.
  apply in_map_iff in Ha as (t & <- & _). cbv zeta.
  destruct (_ && _); [right | now left].
  eexists; split; [reflexivity|].
  apply mean_nonneg. intros x Hx.
  apply in_observations, in_window_at in Hx. auto.
Qed.

(** ** build_technical_indicators.py: [compute_RSI] *)

Lemma gain_nonneg (delta : list float) (x : R) :
  In (Fin x) (Pandas.clip_lower_0 delta) -> 0 <= x.
Proof.
  unfold Pandas.clip_lower_0. intros H.
  apply in_map_iff in H as (a & E & _).
  destruct a as [| | |d]; simpl in E; try discriminate E.
  - injection E as <-. lra.
  - destruct (Rlt_dec d 0); injection E as <-; lra.
Qed.

Lemma loss_nonneg (delta : list float) (x : R) :
  In (Fin x) (map fneg (Pandas.clip_upper_0 delta)) -> 0 <= x.
Proof.
  unfold Pandas.clip_upper_0. rewrite map_map. intros H.
  apply in_map_iff in H as (a & E & _).
  destruct a as [| | |d]; simpl in E; try discriminate E.
  - injection E as <-. lra.
  - destruct (Rlt_dec 0 d); injection E as <-; lra.
Qed.

(** The index from the two averages: NaN, or a number from 0 to 100. *)
Lemma rsi_of_averages (g l : float) :
  g = NaN \/ (exists x, g = Fin x /\ 0 <= x) ->
  l = NaN \/ (exists x, l = Fin x /\ 0 <= x) ->
  let rsi := fsub (Fin 100) (fdiv (Fin 100) (fadd (Fin 1) (fdiv g l))) in
  rsi = NaN \/ exists r, rsi = Fin r /\ 0 <= r <= 100.
Proof.
  intros [-> | (a & -> & Ha)] [-> | (b & -> & Hb)]; cbv zeta;
    try (now left).
  cbn [fdiv]. destruct (Req_dec_T b 0) as [-> | Nb].
  - unfold inf_times.
    destruct (Rle_lt_or_eq_dec 0 a Ha) as [Pos | <-];
      [rewrite Rsign_pos by exact Pos | rewrite Rsign_0; now left].
    right. exists 100. cbn [fadd fdiv fsub fneg]. split; [|lra].
    f_equal. lra.
  - right. cbn [fadd fdiv].
    assert (Hq : 0 <= a / b) by (apply Rmult_le_pos;
      [lra | apply Rlt_le, Rinv_0_lt_compat; lra]).
    destruct (Req_dec_T (1 + a / b) 0) as [Z0 | _]; [lra|].
    eexists; split; [reflexivity|].
    assert (0 < 100 / (1 + a / b) <= 100).
    { split; [apply Rdiv_lt_0_compat; lra|].
      apply Rmult_le_reg_r with (1 + a / b); [lra|].
      unfold Rdiv at 1. rewrite Rmult_assoc, Rinv_l by lra. nra. }
    lra.
Qed.

(** [compute_RSI] raises exactly on a negative window; otherwise the
    index has the length of the series, and every value of it is NaN or a
    number from 0 to 100, whatever the series holds. *)
Theorem compute_RSI_range (series : list float) (window : Z) :
  match Indicators.compute_RSI series window with
  | Returns rsi =>
      (0 <= window)%Z
      /\ List.length rsi = List.length series
      /\ Forall (fun v => v = NaN \/ exists r, v = Fin r /\ 0 <= r <= 100)
           rsi
  | Raises e => (window < 0)%Z /\ e = ValueError
  end.
Proof.
  unfold Indicators.compute_RSI.
  destruct (window <? 0)%Z eqn:W;
    [apply Z.ltb_lt in W; auto | apply Z.ltb_ge in W].
  set (delta := Pandas.diff series).
  assert (Ld : List.length delta = List.length series).
  { unfold delta, Pandas.diff. apply map2_length. now rewrite shift_length. }
  set (w := Z.to_nat window).
  set (avg_gain := Pandas.rolling_mean w w (Pandas.clip_lower_0 delta)).
  set (avg_loss := Pandas.rolling_mean w w
                     (map fneg (Pandas.clip_upper_0 delta))).
  assert (Lg : List.length avg_gain = List.length series).
  { unfold avg_gain, Pandas.clip_lower_0.
    now rewrite rolling_mean_length, length_map. }
  assert (Ll : List.length avg_loss = List.length series).
  { unfold avg_loss, Pandas.clip_upper_0.
    now rewrite rolling_mean_length, !length_map. }
  split; [exact W|]. split.
  - rewrite length_map, map2_length; congruence.
  - apply Forall_forall. intros v Hv.
    apply in_map_iff in Hv as (rs & <- & Hrs).
    unfold Pandas.map2 in Hrs.
    apply in_map_iff in Hrs as ([g l] & <- & Hgl). cbn [fst snd].
    pose proof (in_combine_l _ _ _ _ Hgl) as Hg.
    pose proof (in_combine_r _ _ _ _ Hgl) as Hl.
    apply rsi_of_averages.
    + pose proof (rolling_mean_nonneg w w (Pandas.clip_lower_0 delta)
                    (gain_nonneg delta)) as F.
      rewrite Forall_forall in F. now apply F.
    + pose proof (rolling_mean_nonneg w w
                    (map fneg (Pandas.clip_upper_0 delta))
                    (loss_nonneg delta)) as F.
      rewrite Forall_forall in F. now apply F.
Qed.

Lemma diff_cons (a : float) (s : list float) :
  Pandas.diff (a :: s)
  = NaN :: Pandas.map2 fsub s (firstn (List.length s) (a :: s)).
Proof.
  unfold Pandas.diff, Pandas.shift, Pandas.map2.
  change (0 <=? 1)%Z with true. change (Z.to_nat 1) with 1%nat.
  cbn [repeat app List.length firstn combine map fst snd].
  unfold fsub at 1. cbn [fneg]. now rewrite fadd_NaN_r.
Qed.

(** During the first [window] rows the index is NaN. *)
Theorem compute_RSI_warmup (series : list float) (w : nat) :
  exists rsi,
    Indicators.compute_RSI series (Z.of_nat w) = Returns rsi
    /\ firstn w rsi = repeat NaN (Nat.min w (List.length series)).
Proof.
  unfold Indicators.compute_RSI.
  replace (Z.of_nat w <? 0)%Z with false by (symmetry; apply Z.ltb_ge; lia).
  rewrite Nat2Z.id. eexists; split; [reflexivity|].
  set (delta := Pandas.diff series).
  assert (Ld : List.length delta = List.length series).
  { unfold delta, Pandas.diff. apply map2_length. now rewrite shift_length. }
  set (gain := Pandas.clip_lower_0 delta).
  set (loss := map fneg (Pandas.clip_upper_0 delta)).
  assert (Lg : List.length gain = List.length series)
    by (unfold gain, Pandas.clip_lower_0; now rewrite length_map).
  assert (Ll : List.length loss = List.length series)
    by (unfold loss, Pandas.clip_upper_0; now rewrite !length_map).
  apply (nth_ext _ _ NaN NaN).
  - rewrite length_firstn, repeat_length, length_map, map2_length;
      rewrite !rolling_mean_length; congruence.
  - intros t Ht.
    rewrite length_firstn, length_map, map2_length, rolling_mean_length, Lg
      in Ht by (rewrite !rolling_mean_length; congruence).
    rewrite nth_repeat, nth_firstn.
    replace (t <? w)%nat with true by (symmetry; apply Nat.ltb_lt; lia).
    rewrite (nth_map_in _ _ _ NaN)
      by (rewrite map2_length; rewrite !rolling_mean_length; lia).
    rewrite map2_nth by (rewrite !rolling_mean_length; lia).
    rewrite (rolling_mean_nth w w gain) by lia. cbv zeta.
    assert (O : (List.length
                   (Pandas.observations (Pandas.window_at w gain t)) < w)%nat).
    { unfold Pandas.window_at.
      replace (S t - w)%nat with 0%nat by lia. cbn [skipn].
      destruct series as [|a s]; [simpl in Ht; lia|].
      unfold gain, delta. rewrite diff_cons.
      cbn [Pandas.clip_lower_0 map flt firstn].
      change (Pandas.observations (NaN :: ?l))
        with (Pandas.observations l).
      eapply Nat.le_lt_trans; [apply observations_length|].
      rewrite length_firstn. lia. }
    replace (w <=? _)%nat with false by (symmetry; apply Nat.leb_gt; exact O).
    reflexivity.
Qed.

(** A full window, place by place. *)
Lemma window_at_full (w : nat) (s : list float) (t : nat) :
  (w <= S t)%nat -> (t < List.length s)%nat ->
  Pandas.window_at w s t = map (fun i => nth i s NaN) (seq (S t - w) w).
Proof.
  intros Hw Ht. unfold Pandas.window_at.
  apply (nth_ext _ _ NaN NaN).
  - rewrite length_skipn, length_firstn, length_map, length_seq. lia.
  - intros i Hi.
    rewrite length_skipn, length_firstn in Hi.
    rewrite nth_skipn, nth_firstn.
    replace (S t - w + i <? S t)%nat with true
      by (symmetry; apply Nat.ltb_lt; lia).
    rewrite (nth_map_in _ _ _ 0%nat) by (rewrite length_seq; lia).
    now rewrite seq_nth by lia.
Qed.

(** The change from one row to the next, its positive part and the
    positive part of its opposite. *)
Lemma diff_nth (xs : list R) (i : nat) :
  (1 <= i < List.length xs)%nat ->
  nth i (Pandas.diff (map Fin xs)) NaN
  = Fin (nth i xs 0 - nth (i - 1) xs 0).
Proof.
  intros Hi. unfold Pandas.diff.
  rewrite map2_nth by (rewrite ?shift_length, ?length_map; lia).
  change 1%Z with (Z.of_nat 1).
  rewrite shift_nth_down by (rewrite length_map; lia).
  replace (i <? 1)%nat with false by (symmetry; apply Nat.ltb_ge; lia).
  now rewrite !nth_map_Fin by lia.
Qed.

Lemma gain_nth (xs : list R) (i : nat) :
  (1 <= i < List.length xs)%nat ->
  nth i (Pandas.clip_lower_0 (Pandas.diff (map Fin xs))) NaN
  = Fin (Rmax 0 (nth i xs 0 - nth (i - 1) xs 0)).
Proof.
  intros Hi. unfold Pandas.clip_lower_0.
  rewrite (nth_map_in _ _ _ NaN).
  2:{ unfold Pandas.diff.
      rewrite map2_length; rewrite ?shift_length, ?length_map; lia. }
  rewrite diff_nth by exact Hi. cbn [flt].
  unfold Rmax.
  destruct (Rlt_dec _ 0), (Rle_dec 0 _); f_equal; lra.
Qed.

Lemma loss_nth (xs : list R) (i : nat) :
  (1 <= i < List.length xs)%nat ->
  nth i (map fneg (Pandas.clip_upper_0 (Pandas.diff (map Fin xs)))) NaN
  = Fin (Rmax 0 (nth (i - 1) xs 0 - nth i xs 0)).
Proof.
  intros Hi. unfold Pandas.clip_upper_0. rewrite map_map.
  rewrite (nth_map_in _ _ _ NaN).
  2:{ unfold Pandas.diff.
      rewrite map2_length; rewrite ?shift_length, ?length_map; lia. }
  rewrite diff_nth by exact Hi. cbn [flt].
  unfold Rmax.
  destruct (Rlt_dec 0 _), (Rle_dec 0 _); cbn [fneg]; f_equal; lra.
Qed.

(** The rolling mean over a full window of numbers [f i]. *)
Lemma rolling_mean_full (w : nat) (s : list float) (t : nat)
    (f : nat -> R) :
  (1 <= w <= t)%nat -> (t < List.length s)%nat ->
  (forall i, (1 <= i <= t)%nat -> nth i s NaN = Fin (f i)) ->
  nth t (Pandas.rolling_mean w w s) NaN
  = Fin (Pandas.mean (map f (seq (S t - w) w))).
Proof.
  intros Hw Ht Hf.
  rewrite rolling_mean_nth by exact Ht. cbv zeta.
  rewrite window_at_full by lia.
  rewrite (map_ext_in _ (fun i => Fin (f i))).
  2:{ intros i Hi. apply in_seq in Hi. apply Hf. lia. }
  rewrite observations_Fin, length_map, length_seq.
  replace (w <=? w)%nat with true by (symmetry; apply Nat.leb_le; lia).
  now replace (0 <? w)%nat with true by (symmetry; apply Nat.ltb_lt; lia).
Qed.

(** The index after the warm-up, from the mean gain [g] and the mean
    loss [l] of the window. *)
Lemma rsi_after_warmup (xs : list R) (w t : nat) :
  (1 <= w <= t)%nat -> (t < List.length xs)%nat ->
  let g := Pandas.mean
             (map (fun i => Rmax 0 (nth i xs 0 - nth (i - 1) xs 0))
                  (seq (S t - w) w)) in
  let l := Pandas.mean
             (map (fun i => Rmax 0 (nth (i - 1) xs 0 - nth i xs 0))
                  (seq (S t - w) w)) in
  exists rsi,
    Indicators.compute_RSI (map Fin xs) (Z.of_nat w) = Returns rsi
    /\ nth t rsi NaN
       = fsub (Fin 100) (fdiv (Fin 100) (fadd (Fin 1) (fdiv (Fin g) (Fin l)))).
Proof.
  intros Hw Ht g l.
  unfold Indicators.compute_RSI.
  replace (Z.of_nat w <? 0)%Z with false by (symmetry; apply Z.ltb_ge; lia).
  rewrite Nat2Z.id. eexists; split; [reflexivity|].
  set (delta := Pandas.diff (map Fin xs)).
  assert (Ld : List.length delta = List.length xs).
  { unfold delta, Pandas.diff.
    rewrite map2_length; rewrite ?shift_length, ?length_map; lia. }
  assert (Lg : List.length (Pandas.clip_lower_0 delta) = List.length xs)
    by (unfold Pandas.clip_lower_0; now rewrite length_map).
  assert (Ll : List.length (map fneg (Pandas.clip_upper_0 delta))
               = List.length xs)
    by (unfold Pandas.clip_upper_0; now rewrite !length_map).
  rewrite (nth_map_in _ _ _ NaN)
    by (rewrite map2_length; rewrite !rolling_mean_length; lia).
  rewrite map2_nth by (rewrite !rolling_mean_length; lia).
  rewrite (rolling_mean_full w _ t
             (fun i => Rmax 0 (nth i xs 0 - nth (i - 1) xs 0)))
    by (try lia; intros i Hi; apply gain_nth; lia).
  rewrite (rolling_mean_full w _ t
             (fun i => Rmax 0 (nth (i - 1) xs 0 - nth i xs 0)))
    by (try lia; intros i Hi; apply loss_nth; lia).
  reflexivity.
Qed.

Lemma mean_zero (l : list R) :
  (forall x, In x l -> x = 0) -> Pandas.mean l = 0.
Proof.
  intros H. unfold Pandas.mean.
  assert (S0 : Pandas.Rsum l = 0).
  { induction l as [|x l IH]; [reflexivity|]. simpl.
    rewrite (H x) by (now left). rewrite IH; [lra|].
    intros; apply H; now right. }
  rewrite S0. unfold Rdiv. apply Rmult_0_l.
Qed.

Lemma mean_pos (l : list R) :
  l <> [] -> (forall x, In x l -> 0 < x) -> 0 < Pandas.mean l.
Proof.
  intros Hne H. unfold Pandas.mean.
  destruct l as [|x l]; [now elim Hne|].
  apply Rdiv_lt_0_compat; [|apply lt_0_INR; simpl; lia].
  simpl.
  assert (0 < x) by (apply H; now left).
  assert (0 <= Pandas.Rsum l).
  { apply Rsum_nonneg. intros y Hy. apply Rlt_le, H. now right. }
  lra.
Qed.



(** On a series of numbers that falls from every row to the next, the
    index is 0 on every row after the warm-up. *)
Theorem compute_RSI_falling (xs : list R) (w t : nat) :
  (forall i, (1 <= i < List.length xs)%nat ->
             nth i xs 0 < nth (i - 1) xs 0) ->
  (1 <= w <= t)%nat -> (t < List.length xs)%nat ->
  exists rsi,
    Indicators.compute_RSI (map Fin xs) (Z.of_nat w) = Returns rsi
    /\ nth t rsi NaN = Fin 0.
Proof.
  intros Hdown Hw Ht.
  destruct (rsi_after_warmup xs w t Hw Ht) as (rsi & E & V).
  exists rsi. split; [exact E|]. rewrite V. clear V E.
  rewrite (mean_zero (map (fun i => Rmax 0 (nth i xs 0 - nth (i - 1) xs 0)) _)).
  2:{ intros x Hx. apply in_map_iff in Hx as (i & <- & Hi).
      apply in_seq in Hi. specialize (Hdown i). unfold Rmax.
      destruct (Rle_dec 0 _); lra || (lapply Hdown; [lra | lia]). }
  set (l := Pandas.mean _).
  assert (Hl : 0 < l).
  { apply mean_pos.
    + destruct w; [lia | discriminate].
    + intros x Hx. apply in_map_iff in Hx as (i & <- & Hi).
      apply in_seq in Hi. specialize (Hdown i). unfold Rmax.
      destruct (Rle_dec 0 _); lapply Hdown; lra || lia. }
  rewrite fdiv_Fin by lra. cbn [fadd].
  rewrite fdiv_Fin by (unfold Rdiv; lra). cbn [fsub fneg fadd].
  f_equal. unfold Rdiv. rewrite Rmult_0_l. field.
Qed.

Lemma compute_RSI_falling_witness :
  exists rsi,
    Indicators.compute_RSI (map Fin [5; 4; 2; 1]) (Z.of_nat 2) = Returns rsi
    /\ nth 3 rsi NaN = Fin 0.
Proof.
  apply (compute_RSI_falling [5; 4; 2; 1] 2 3).
  - intros i Hi. simpl in Hi.
    assert (C : i = 1%nat \/ i = 2%nat \/ i = 3%nat) by lia.
    destruct C as [-> | [-> | ->]]; simpl; lra.
  - lia.
  - simpl; lia.
Defined.

(** On a window without any change, the index is NaN, not 50. *)
Theorem compute_RSI_flat (xs : list R) (w t : nat) :
  (forall i, (S t - w <= i <= t)%nat -> nth i xs 0 = nth (i - 1) xs 0) ->
  (1 <= w <= t)%nat -> (t < List.length xs)%nat ->
  exists rsi,
    Indicators.compute_RSI (map Fin xs) (Z.of_nat w) = Returns rsi
    /\ nth t rsi NaN = NaN.
Proof.
  intros Hflat Hw Ht.
  destruct (rsi_after_warmup xs w t Hw Ht) as (rsi & E & V).
  exists rsi. split; [exact E|]. rewrite V. clear V E.
  rewrite !mean_zero.
  - cbn [fdiv]. destruct (Req_dec_T 0 0) as [_|N]; [|now elim N].
    unfold inf_times. now rewrite Rsign_0.
  - intros x Hx. apply in_map_iff in Hx as (i & <- & Hi).
    apply in_seq in Hi. rewrite (Hflat i) by lia.
    unfold Rmax. destruct (Rle_dec 0 _); lra.
  - intros x Hx. apply in_map_iff in Hx as (i & <- & Hi).
    apply in_seq in Hi. rewrite (Hflat i) by lia.
    unfold Rmax. destruct (Rle_dec 0 _); lra.
Qed.

Lemma compute_RSI_flat_witness :
  exists rsi,
    Indicators.compute_RSI (map Fin [1; 3; 3; 3]) (Z.of_nat 2) = Returns rsi
    /\ nth 3 rsi NaN = NaN.
Proof.
  apply (compute_RSI_flat [1; 3; 3; 3] 2 3).
  - intros i Hi.
    assert (C : i = 2%nat \/ i = 3%nat) by lia.
    destruct C as [-> | ->]; reflexivity.
  - lia.
  - simpl; lia.
Defined.

(** ** build_technical_indicators.py: [compute_MACD] *)

Lemma ewm_from_length (a : R) (st : float * R) (s : list float) :
  List.length (Pandas.ewm_from a st s) = List.length s.
Proof.
  revert st. induction s as [|cur s IH]; intros st; [reflexivity|].
  cbn [Pandas.ewm_from List.length]. now rewrite IH.
Qed.

Lemma ewm_mean_cases (span : Z) (s : list float) :
  ((1 <= span)%Z
   /\ exists e, Pandas.ewm_mean span s = Returns e
                /\ List.length e = List.length s
                /\ hd NaN e = hd NaN s)
  \/ ((span < 1)%Z /\ Pandas.ewm_mean span s = Raises ValueError).
Proof.
  unfold Pandas.ewm_mean.
  destruct (span <? 1)%Z eqn:C;
    [apply Z.ltb_lt in C; now right | apply Z.ltb_ge in C; left].
  split; [exact C|]. destruct s as [|x0 s]; eexists; split; try reflexivity.
  - now split.
  - cbn [List.length hd]. now rewrite ewm_from_length.
Qed.

(** [compute_MACD] raises exactly when one of the three spans is below
    1, and then a [ValueError]; otherwise the histogram has the length of
    the series. *)
Theorem compute_MACD_spans (series : list float) (fast slow signal : Z) :
  match Indicators.compute_MACD series fast slow signal with
  | Returns h =>
      (1 <= fast /\ 1 <= slow /\ 1 <= signal)%Z
      /\ List.length h = List.length series
  | Raises e => (fast < 1 \/ slow < 1 \/ signal < 1)%Z /\ e = ValueError
  end.
Proof.
  unfold Indicators.compute_MACD.
  destruct (ewm_mean_cases fast series) as [(Hf & ef & -> & Lf & _) | (Hf & ->)];
    cbn [bind]; [|auto].
  destruct (ewm_mean_cases slow series) as [(Hs & es & -> & Ls & _) | (Hs & ->)];
    cbn [bind]; [|auto].
  assert (Lm : List.length (Pandas.map2 fsub ef es) = List.length series)
    by (rewrite map2_length; congruence).
  destruct (ewm_mean_cases signal (Pandas.map2 fsub ef es))
    as [(Hg & eg & -> & Lg & _) | (Hg & ->)]; cbn [bind]; [|auto].
  split; [auto|]. rewrite map2_length; congruence.
Qed.

(** The histogram starts at 0 on a series that starts with a number. *)
Theorem compute_MACD_first (x0 : R) (series : list float)
    (fast slow signal : Z) :
  (1 <= fast)%Z -> (1 <= slow)%Z -> (1 <= signal)%Z ->
  exists h,
    Indicators.compute_MACD (Fin x0 :: series) fast slow signal
    = Returns (Fin 0 :: h).
Proof.
  intros Hf Hs Hg. unfold Indicators.compute_MACD, Pandas.ewm_mean.
  replace (fast <? 1)%Z with false by (symmetry; apply Z.ltb_ge; lia).
  replace (slow <? 1)%Z with false by (symmetry; apply Z.ltb_ge; lia).
  replace (signal <? 1)%Z with false by (symmetry; apply Z.ltb_ge; lia).
  cbn [bind Pandas.map2 combine map fst snd].
  eexists. f_equal. f_equal. simpl. f_equal. ring.
Qed.

Lemma compute_MACD_first_witness :
  exists h,
    Indicators.compute_MACD (Fin 3 :: [Fin 4; Fin 2]) 12 26 9
    = Returns (Fin 0 :: h).
Proof.
  apply (compute_MACD_first 3 [Fin 4; Fin 2] 12 26 9); lia.
Defined.

Lemma ewm_from_constant (a c w : R) (k : nat) :
  Pandas.ewm_from a (Fin c, w) (repeat (Fin c) k) = repeat (Fin c) k.
Proof.
  revert w. induction k as [|k IH]; intros w; [reflexivity|].
  cbn [repeat Pandas.ewm_from Pandas.ewm_step feq fst].
  destruct (Req_dec_T c c) as [_|N]; [|now elim N].
  now rewrite IH.
Qed.

Lemma ewm_mean_constant (span : Z) (c : R) (k : nat) :
  (1 <= span)%Z ->
  Pandas.ewm_mean span (repeat (Fin c) k) = Returns (repeat (Fin c) k).
Proof.
  intros Hs. unfold Pandas.ewm_mean.
  replace (span <? 1)%Z with false by (symmetry; apply Z.ltb_ge; lia).
  destruct k as [|k]; [reflexivity|].
  cbn [repeat]. now rewrite ewm_from_constant.
Qed.

Lemma map2_fsub_constant (c : R) (k : nat) :
  Pandas.map2 fsub (repeat (Fin c) k) (repeat (Fin c) k) = repeat (Fin 0) k.
Proof.
  unfold Pandas.map2. induction k as [|k IH]; [reflexivity|].
  cbn [repeat combine map fst snd]. rewrite IH. f_equal.
  simpl. f_equal. ring.
Qed.

(** On a series that holds one number on every row, the histogram is 0
    on every row. *)
Theorem compute_MACD_constant (c : R) (k : nat) (fast slow signal : Z) :
  (1 <= fast)%Z -> (1 <= slow)%Z -> (1 <= signal)%Z ->
  Indicators.compute_MACD (repeat (Fin c) k) fast slow signal
  = Returns (repeat (Fin 0) k).
Proof.
  intros Hf Hs Hg. unfold Indicators.compute_MACD.
  rewrite !ewm_mean_constant by assumption. cbn [bind].
  rewrite map2_fsub_constant, ewm_mean_constant by assumption. cbn [bind].
  now rewrite map2_fsub_constant.
Qed.

Lemma compute_MACD_constant_witness :
  Indicators.compute_MACD (repeat (Fin 7) 40) 12 26 9
  = Returns (repeat (Fin 0) 40).
Proof.
  apply (compute_MACD_constant 7 40 12 26 9); lia.
Defined.

(** ** build_technical_indicators.py: [compute_volatility] *)

Lemma rolling_std_length (w : nat) (s : list float) :
  List.length (Pandas.rolling_std w s) = List.length s.
Proof. unfold Pandas.rolling_std. now rewrite length_map, length_seq. Qed.

Lemma window_at_length (w : nat) (s : list float) (t : nat) :
  (List.length (Pandas.window_at w s t) <= Nat.min w (S t))%nat.
Proof.
  unfold Pandas.window_at. rewrite length_skipn, length_firstn. lia.
Qed.

(** [compute_volatility] raises exactly on a negative window; otherwise
    the result has the length of the series and every value of it is NaN
    or a number that is not negative. *)
Theorem compute_volatility_range (series : list float) (window : Z) :
  match Indicators.compute_volatility series window with
  | Returns vol =>
      (0 <= window)%Z
      /\ List.length vol = List.length series
      /\ Forall (fun v => v = NaN \/ exists r, v = Fin r /\ 0 <= r) vol
  | Raises e => (window < 0)%Z /\ e = ValueError
  end.
Proof.
  unfold Indicators.compute_volatility.
  destruct (window <? 0)%Z eqn:W;
    [apply Z.ltb_lt in W; auto | apply Z.ltb_ge in W].
  split; [exact W|]. split; [now rewrite length_map, rolling_std_length|].
  apply Forall_forall. intros v Hv.
  apply in_map_iff in Hv as (a & <- & Ha).
  unfold Pandas.rolling_std in Ha.
  apply in_map_iff in Ha as (t & <- & _). cbv zeta.
  destruct (_ && _); [right | now left].
  cbn [fmul]. eexists; split; [reflexivity|].
  apply Rmult_le_pos; apply sqrt_pos.
Qed.

(** The volatility is NaN on the rows before a full window, and on every
    row when the window is 0 or 1: the deviation of fewer than two values
    is not defined. *)
Theorem compute_volatility_warmup (series : list float) (w t : nat) :
  (S t < w \/ w <= 1)%nat ->
  exists vol,
    Indicators.compute_volatility series (Z.of_nat w) = Returns vol
    /\ nth t vol NaN = NaN.
Proof.
  intros Hw. unfold Indicators.compute_volatility.
  replace (Z.of_nat w <? 0)%Z with false by (symmetry; apply Z.ltb_ge; lia).
  rewrite Nat2Z.id. eexists; split; [reflexivity|].
  destruct (Nat.lt_ge_cases t (List.length series)) as [Ht | Ht].
  2:{ apply nth_overflow. now rewrite length_map, rolling_std_length. }
  rewrite (nth_map_in _ _ _ NaN) by (now rewrite rolling_std_length).
  unfold Pandas.rolling_std. rewrite nth_tabulate by exact Ht. cbv zeta.
  pose proof (observations_length (Pandas.window_at w series t)) as O.
  pose proof (window_at_length w series t) as L.
  set (n := List.length (Pandas.observations _)) in *.
  replace ((w <=? n)%nat && (1 <? n)%nat) with false; [reflexivity|].
  symmetry. apply andb_false_iff.
  destruct Hw as [Hw | Hw].
  - left. apply Nat.leb_gt. lia.
  - right. apply Nat.ltb_ge. lia.
Qed.

Lemma compute_volatility_warmup_witness :
  exists vol,
    Indicators.compute_volatility [Fin 1; Fin 2; Fin 4] (Z.of_nat 1)
    = Returns vol
    /\ nth 2 vol NaN = NaN.
Proof.
  apply (compute_volatility_warmup [Fin 1; Fin 2; Fin 4] 1 2). lia.
Defined.

Lemma mean_constant (o : list R) (c : R) :
  o <> [] -> (forall x, In x o -> x = c) -> Pandas.mean o = c.
Proof.
  intros Hne H. unfold Pandas.mean.
  assert (S : Pandas.Rsum o = INR (List.length o) * c).
  { clear Hne. induction o as [|x o IH]; [simpl; lra|].
    cbn [Pandas.Rsum fold_right List.length]. rewrite S_INR.
    rewrite (H x) by (now left).
    fold (Pandas.Rsum o). rewrite IH by (intros; apply H; now right). ring. }
  rewrite S. field. apply not_0_INR. now destruct o.
Qed.

Lemma variance_constant (o : list R) (c : R) :
  o <> [] -> (forall x, In x o -> x = c) -> Pandas.variance_1 o = 0.
Proof.
  intros Hne H. unfold Pandas.variance_1.
  rewrite (mean_constant o c Hne H).
  assert (S : Pandas.Rsum (map (fun x => (x - c) ^ 2) o) = 0).
  { clear Hne. induction o as [|x o IH]; [reflexivity|].
    cbn [map Pandas.Rsum fold_right]. fold (Pandas.Rsum (map (fun x => (x - c) ^ 2) o)).
    rewrite IH by (intros; apply H; now right).
    rewrite (H x) by (now left). ring. }
  rewrite S. unfold Rdiv. apply Rmult_0_l.
Qed.

(** On a full window of at least two rows that hold one number, the
    volatility is 0. *)
Theorem compute_volatility_constant (xs : list R) (w t : nat) (c : R) :
  (2 <= w <= S t)%nat -> (t < List.length xs)%nat ->
  (forall i, (S t - w <= i <= t)%nat -> nth i xs 0 = c) ->
  exists vol,
    Indicators.compute_volatility (map Fin xs) (Z.of_nat w) = Returns vol
    /\ nth t vol NaN = Fin 0.
Proof.
  intros Hw Ht Hc. unfold Indicators.compute_volatility.
  replace (Z.of_nat w <? 0)%Z with false by (symmetry; apply Z.ltb_ge; lia).
  rewrite Nat2Z.id. eexists; split; [reflexivity|].
  rewrite (nth_map_in _ _ _ NaN)
    by (now rewrite rolling_std_length, length_map).
  unfold Pandas.rolling_std.
  rewrite nth_tabulate by (now rewrite length_map). cbv zeta.
  rewrite window_at_full by (rewrite ?length_map; lia).
  rewrite (map_ext_in _ (fun i => Fin (nth i xs 0))).
  2:{ intros i Hi. apply in_seq in Hi. apply nth_map_Fin. lia. }
  rewrite observations_Fin, length_map, length_seq.
  replace (w <=? w)%nat with true by (symmetry; apply Nat.leb_le; lia).
  replace (1 <? w)%nat with true by (symmetry; apply Nat.ltb_lt; lia).
  cbn [andb].
  rewrite (variance_constant _ c).
  - rewrite sqrt_0. cbn [fmul]. f_equal. ring.
  - destruct w; [lia | discriminate].
  - intros x Hx. apply in_map_iff in Hx as (i & <- & Hi).
    apply in_seq in Hi. apply Hc. lia.
Qed.

Lemma compute_volatility_constant_witness :
  exists vol,
    Indicators.compute_volatility (map Fin [1; 3; 3; 3]) (Z.of_nat 3)
    = Returns vol
    /\ nth 3 vol NaN = Fin 0.
Proof.
  apply (compute_volatility_constant [1; 3; 3; 3] 3 3 3).
  - lia.
  - simpl; lia.
  - intros i Hi.
    assert (C : i = 1%nat \/ i = 2%nat \/ i = 3%nat) by lia.
    destruct C as [-> | [-> | ->]]; reflexivity.
Defined.

(** ** data_utils.py: columns *)

Lemma getitem_setitem_same (df : DataUtils.frame) (name : string)
    (v : list float) :
  DataUtils.getitem (DataUtils.setitem df name v) name = Returns v.
Proof.
  induction df as [|[c u] df IH]; cbn [DataUtils.setitem DataUtils.getitem].
  - now rewrite String.eqb_refl.
  - destruct (String.eqb c name) eqn:E; cbn [DataUtils.getitem];
      now rewrite E.
Qed.

Lemma getitem_setitem_other (df : DataUtils.frame) (name other : string)
    (v : list float) :
  name <> other ->
  DataUtils.getitem (DataUtils.setitem df name v) other
  = DataUtils.getitem df other.
Proof.
  intros Hne.
  induction df as [|[c u] df IH]; cbn [DataUtils.setitem DataUtils.getitem].
  - now replace (String.eqb name other) with false
      by (symmetry; now apply String.eqb_neq).
  - destruct (String.eqb c name) eqn:E; cbn [DataUtils.getitem].
    + apply String.eqb_eq in E as ->.
      now replace (String.eqb name other) with false
        by (symmetry; now apply String.eqb_neq).
    + now rewrite IH.
Qed.

Lemma getitem_cases (df : DataUtils.frame) (name : string) :
  (In name (map fst df) /\ exists v, DataUtils.getitem df name = Returns v
                                     /\ In (name, v) df)
  \/ (~ In name (map fst df) /\ DataUtils.getitem df name = Raises KeyError).
Proof.
  induction df as [|[c u] df IH]; [right; split; [intros [] | reflexivity]|].
  cbn [DataUtils.getitem map fst In].
  destruct (String.eqb c name) eqn:E.
  - apply String.eqb_eq in E as ->. left. split; [now left|].
    exists u. split; [reflexivity | now left].
  - apply String.eqb_neq in E.
    destruct IH as [(I & v & G & Iv) | (N & G)].
    + left. split; [now right|]. exists v. split; [exact G | now right].
    + right. split; [|exact G]. intros [C | C]; auto.
Qed.

(** ** data_utils.py: [create_lagged_features] *)

Section Lagged.
Variable df : DataUtils.frame.

Local Abbreviation step := DataUtils.run_task.
Local Abbreviation name_of := DataUtils.task_name.

Lemma lagged_inner_fold (c : string) (lags : list Z)
    (acc : result DataUtils.frame) :
  fold_left (DataUtils.add_lag c) lags acc
  = fold_left step (map (fun k => (c, k)) lags) acc.
Proof.
  revert acc. induction lags as [|k lags IH]; intros acc; [reflexivity|].
  cbn [fold_left map]. apply IH.
Qed.

Lemma lagged_fold (columns : list string) (lags : list Z)
    (acc : result DataUtils.frame) :
  fold_left (fun acc col => fold_left (DataUtils.add_lag col) lags acc)
            columns acc
  = fold_left step (list_prod columns lags) acc.
Proof.
  revert acc. induction columns as [|c columns IH]; intros acc;
    [reflexivity|].
  cbn [fold_left list_prod].
  now rewrite fold_left_app, IH, lagged_inner_fold.
Qed.

Lemma raised_stays (tasks : list (string * Z)) (e : exn) :
  fold_left step tasks (Raises e) = Raises e.
Proof. induction tasks as [|ck tasks IH]; [reflexivity | exact IH]. Qed.

(** After the tasks [done]: the columns that no task names are those of
    [df], and the column of each task is the shifted source. *)
Lemma lagged_invariant (columns : list string)
    (tasks done : list (string * Z)) (out : DataUtils.frame) :
  (forall c, In c columns -> exists v, DataUtils.getitem df c = Returns v) ->
  (forall ck, In ck (done ++ tasks) -> In (fst ck) columns) ->
  NoDup (map name_of (done ++ tasks)) ->
  (forall c, In c columns -> ~ In c (map name_of (done ++ tasks))) ->
  (forall name, ~ In name (map name_of done) ->
                DataUtils.getitem out name = DataUtils.getitem df name) ->
  (forall ck v, In ck done -> DataUtils.getitem df (fst ck) = Returns v ->
                DataUtils.getitem out (name_of ck)
                = Returns (Pandas.shift (snd ck) v)) ->
  exists out',
    fold_left step tasks (Returns out) = Returns out'
    /\ (forall name, ~ In name (map name_of (done ++ tasks)) ->
                     DataUtils.getitem out' name = DataUtils.getitem df name)
    /\ (forall ck v, In ck (done ++ tasks) ->
                     DataUtils.getitem df (fst ck) = Returns v ->
                     DataUtils.getitem out' (name_of ck)
                     = Returns (Pandas.shift (snd ck) v)).
Proof.
  intros Hsrc. revert done out.
  induction tasks as [|[c k] tasks IH]; intros done out Hcols Hnd Hfresh I1 I2.
  - exists out. rewrite app_nil_r in *. auto.
  - assert (Hc : In c columns) by (apply (Hcols (c, k)), in_elt).
    destruct (Hsrc c Hc) as [v Hv].
    assert (Hget : DataUtils.getitem out c = Returns v).
    { rewrite I1; [exact Hv|]. intros C. apply (Hfresh c Hc).
      rewrite map_app. apply in_or_app. now left. }
    cbn [fold_left]. unfold DataUtils.run_task at 2, DataUtils.add_lag.
    cbn [bind fst snd]. rewrite Hget. cbn [bind].
    replace (done ++ (c, k) :: tasks) with ((done ++ [(c, k)]) ++ tasks)
      in * by (now rewrite <- app_assoc).
    assert (Hnew : ~ In (DataUtils.lag_name c k) (map name_of done)).
    { rewrite !map_app in Hnd. apply NoDup_app_remove_r in Hnd.
      cbn [map] in Hnd. apply NoDup_remove_2 in Hnd.
      rewrite app_nil_r in Hnd. exact Hnd. }
    apply IH; auto.
    + intros name Hn. rewrite map_app in Hn. cbn [map] in Hn.
      rewrite getitem_setitem_other.
      * apply I1. intros C. apply Hn, in_or_app. now left.
      * intros <-. apply Hn, in_or_app. right. now left.
    + intros ck w Hin Hw. apply in_app_or in Hin as [Hin | [<- | []]].
      * rewrite getitem_setitem_other; [now apply I2|].
        intros E. apply Hnew. rewrite E. now apply in_map.
      * cbn [fst snd] in *. unfold DataUtils.task_name. cbn [fst snd].
        rewrite getitem_setitem_same. congruence.
Qed.

End Lagged.

(** Without lags nothing is read and nothing is added: the frame comes
    back as it is, also when a column of [columns] does not exist. *)
Theorem create_lagged_features_no_lags (df : DataUtils.frame)
    (columns : list string) :
  DataUtils.create_lagged_features df columns [] = Returns df.
Proof.
  unfold DataUtils.create_lagged_features.
  induction columns as [|c columns IH]; [reflexivity | exact IH].
Qed.

(** When the columns exist, the generated names are distinct and none of
    them is a source column, the result holds for every column [c] and lag
    [k] the column [c] shifted by [k] under the name [c_lag<k>], of the
    same length, and the other columns as they were. *)
Theorem create_lagged_features_columns (df : DataUtils.frame)
    (columns : list string) (lags : list Z) :
  let names :=
    map (fun ck => DataUtils.lag_name (fst ck) (snd ck))
        (list_prod columns lags) in
  NoDup (map fst df) ->
  (forall c, In c columns -> exists v, DataUtils.getitem df c = Returns v) ->
  NoDup names ->
  (forall c, In c columns -> ~ In c names) ->
  exists out,
    DataUtils.create_lagged_features df columns lags = Returns out
    /\ (forall c k v,
           In c columns -> In k lags ->
           DataUtils.getitem df c = Returns v ->
           DataUtils.getitem out (DataUtils.lag_name c k)
           = Returns (Pandas.shift k v)
           /\ List.length (Pandas.shift k v) = List.length v)
    /\ (forall name, ~ In name names ->
                     DataUtils.getitem out name = DataUtils.getitem df name).
Proof.
  intros names _ Hsrc Hnd Hfresh.
  unfold DataUtils.create_lagged_features. rewrite lagged_fold.
  assert (A : forall ck, In ck ([] ++ list_prod columns lags) ->
                         In (fst ck) columns).
  { intros [c k] Hin. cbn [app] in Hin. apply in_prod_iff in Hin. tauto. }
  destruct (lagged_invariant df columns (list_prod columns lags) [] df
              Hsrc A Hnd Hfresh (fun _ _ => eq_refl)
              (fun ck v (H : In ck []) => match H with end))
    as (out & E & I1 & I2).
  exists out. split; [exact E|]. split; [|exact I1].
  intros c k v Hc Hk Hv. split; [|apply shift_length].
  apply (I2 (c, k) v); [|exact Hv].
  cbn [app]. now apply in_prod.
Qed.

Lemma create_lagged_features_columns_witness :
  exists out,
    DataUtils.create_lagged_features
      [("ret"%string, [Fin 1; Fin 2; Fin 3])] ["ret"%string] [1; 2]%Z
    = Returns out
    /\ DataUtils.getitem out "ret_lag1"
       = Returns (Pandas.shift 1 [Fin 1; Fin 2; Fin 3])
    /\ DataUtils.getitem out "ret"
       = Returns [Fin 1; Fin 2; Fin 3].
Proof.
  destruct (create_lagged_features_columns
              [("ret"%string, [Fin 1; Fin 2; Fin 3])] ["ret"%string]
              [1; 2]%Z) as (out & E & I2 & I1).
  - repeat constructor; simpl; intuition.
  - intros c [<- | []]. eexists. reflexivity.
  - repeat constructor; simpl; intuition discriminate.
  - intros c [<- | []]. simpl. intuition discriminate.
  - exists out. split; [exact E|]. split.
    + apply (I2 "ret"%string 1%Z); simpl; auto.
    + rewrite I1; [reflexivity|]. simpl. intuition discriminate.
Defined.

Lemma names_setitem (df : DataUtils.frame) (name n : string)
    (v : list float) :
  In n (map fst (DataUtils.setitem df name v)) ->
  n = name \/ In n (map fst df).
Proof.
  induction df as [|[c u] df IH]; cbn [DataUtils.setitem map fst In].
  - intros [<- | []]. now left.
  - destruct (String.eqb c name); cbn [map fst In]; intuition.
Qed.

Lemma lagged_missing (df : DataUtils.frame) (G : list string)
    (col : string) (tasks : list (string * Z)) (out : DataUtils.frame) :
  ~ In col (map fst df) -> ~ In col G ->
  (forall ck, In ck tasks -> In (DataUtils.task_name ck) G) ->
  (forall n, In n (map fst out) -> In n (map fst df) \/ In n G) ->
  (exists k, In (col, k) tasks) ->
  fold_left DataUtils.run_task tasks (Returns out) = Raises KeyError.
Proof.
  intros Hdf HG. revert out.
  induction tasks as [|[c k] tasks IH]; intros out Hgen Hout [k0 Hin];
    [destruct Hin|].
  cbn [fold_left]. unfold DataUtils.run_task at 2, DataUtils.add_lag.
  cbn [bind fst snd].
  destruct (getitem_cases out c) as [(Ic & v & -> & _) | (Nc & ->)];
    cbn [bind].
  - apply IH.
    + intros ck Hck. apply Hgen. now right.
    + intros n Hn. apply names_setitem in Hn as [-> | Hn]; [|auto].
      right. apply (Hgen (c, k)). now left.
    + destruct Hin as [E | Hin]; [|eauto].
      injection E as -> _. exfalso.
      destruct (Hout col Ic); contradiction.
  - clear. induction tasks as [|ck tasks IH]; [reflexivity | exact IH].
Qed.

(** With at least one lag, a column of [columns] that the frame does not
    hold, and that is no generated name either, makes the function raise a
    [KeyError]. *)
Theorem create_lagged_features_missing (df : DataUtils.frame)
    (columns : list string) (lags : list Z) (col : string) :
  NoDup (map fst df) ->
  In col columns -> lags <> [] ->
  ~ In col (map fst df) ->
  ~ In col (map DataUtils.task_name (list_prod columns lags)) ->
  DataUtils.create_lagged_features df columns lags = Raises KeyError.
Proof.
  intros _ Hcol Hlags Hdf Hgen.
  unfold DataUtils.create_lagged_features. rewrite lagged_fold.
  apply (lagged_missing df
           (map DataUtils.task_name (list_prod columns lags)) col);
    auto.
  - intros ck Hck. now apply in_map.
  - destruct lags as [|k lags]; [now elim Hlags|].
    exists k. apply in_prod; [exact Hcol | now left].
Qed.

Lemma create_lagged_features_missing_witness :
  DataUtils.create_lagged_features
    [("ret"%string, [Fin 1; Fin 2; Fin 3])] ["ret"; "vol"]%string [1]%Z
  = Raises KeyError.
Proof.
  apply (create_lagged_features_missing _ _ _ "vol"%string).
  - repeat constructor; simpl; intuition.
  - simpl; auto.
  - discriminate.
  - simpl. intuition discriminate.
  - simpl. intuition discriminate.
Defined.

(** ** data_utils.py: [add_direction_label] *)

Lemma dropna_no_NaN (df : DataUtils.frame) (c : string) (v : list float)
    (a : float) :
  In (c, v) (DataUtils.dropna df) -> In a v -> a <> NaN.
Proof.
  unfold DataUtils.dropna. intros Hcv Ha.
  apply in_map_iff in Hcv as ([c' u] & E & Hu).
  injection E as -> <-. cbn [snd] in Ha.
  apply in_map_iff in Ha as (t & <- & Ht).
  apply filter_In in Ht as [_ Ht].
  rewrite forallb_forall in Ht. specialize (Ht (c, u) Hu). cbn [snd] in Ht.
  now destruct (nth t u NaN).
Qed.

Lemma tabulate_nth (v : list float) :
  map (fun t => nth t v NaN) (seq 0 (List.length v)) = v.
Proof.
  apply (nth_ext _ _ NaN NaN).
  - now rewrite length_map, length_seq.
  - intros t Ht. rewrite length_map, length_seq in Ht.
    now rewrite nth_tabulate.
Qed.

(** A frame whose columns have [n] rows and hold no NaN loses no row. *)
Lemma dropna_complete (df : DataUtils.frame) (n : nat) :
  Forall (fun cv => List.length (snd cv) = n
                    /\ Forall (fun a => a <> NaN) (snd cv)) df ->
  DataUtils.dropna df = df.
Proof.
  intros W. unfold DataUtils.dropna.
  assert (K : filter
                (fun t => forallb
                            (fun cv => negb (DataUtils.isna (nth t (snd cv) NaN)))
                            df)
                (seq 0 (DataUtils.nrows df))
              = seq 0 (DataUtils.nrows df)).
  { apply forallb_filter_id. apply forallb_forall. intros t Ht.
    apply in_seq in Ht. apply forallb_forall. intros cv Hcv.
    rewrite Forall_forall in W. destruct (W cv Hcv) as [L F].
    rewrite Forall_forall in F.
    assert (Hn : DataUtils.nrows df = n).
    { destruct df as [|[c0 v0] df']; [destruct Hcv|].
      cbn [DataUtils.nrows]. now destruct (W (c0, v0) (or_introl eq_refl)). }
    assert (Hin : In (nth t (snd cv) NaN) (snd cv)) by (apply nth_In; lia).
    specialize (F _ Hin). now destruct (nth t (snd cv) NaN). }
  rewrite K.
  assert (Hn : forall cv, In cv df -> List.length (snd cv) = DataUtils.nrows df).
  { intros cv Hcv. rewrite Forall_forall in W.
    destruct df as [|[c0 v0] df']; [destruct Hcv|].
    cbn [DataUtils.nrows].
    destruct (W (c0, v0) (or_introl eq_refl)) as [E0 _].
    cbn [snd] in E0. rewrite E0. now destruct (W cv Hcv). }
  transitivity (map (fun cv : string * list float => cv) df);
    [|apply map_id].
  apply map_ext_in. intros [c v] Hcv.
  cbn [fst snd]. f_equal. rewrite <- (Hn (c, v) Hcv). apply tabulate_nth.
Qed.

(** On a frame of distinct column names, [add_direction_label] raises a
    [KeyError] exactly when the column is missing; what it returns holds no
    NaN. *)
Theorem add_direction_label_no_NaN (df : DataUtils.frame) (column : string) :
  NoDup (map fst df) ->
  match DataUtils.add_direction_label df column with
  | Returns out =>
      In column (map fst df)
      /\ (forall c v a, In (c, v) out -> In a v -> a <> NaN)
  | Raises e => ~ In column (map fst df) /\ e = KeyError
  end.
Proof.
  intros _. unfold DataUtils.add_direction_label.
  destruct (getitem_cases df column) as [(I & v & -> & _) | (N & ->)];
    cbn [bind]; [|auto].
  split; [exact I | apply dropna_no_NaN].
Qed.

Lemma add_direction_label_no_NaN_witness :
  let df := [("return"%string, [Fin 1; NaN; Fin 2])] in
  NoDup (map fst df)
  /\ match DataUtils.add_direction_label df "return" with
     | Returns out =>
         In "return"%string (map fst df)
         /\ (forall c v a, In (c, v) out -> In a v -> a <> NaN)
     | Raises e => ~ In "return"%string (map fst df) /\ e = KeyError
     end.
Proof.
  assert (N : NoDup (map fst [("return"%string, [Fin 1; NaN; Fin 2])])).
  { repeat constructor; simpl; intuition. }
  split; [exact N|].
  exact (add_direction_label_no_NaN _ "return" N).
Defined.

Lemma setitem_Forall (P : string * list float -> Prop)
    (df : DataUtils.frame) (name : string) (v : list float) :
  Forall P df -> (forall c, P (c, v)) ->
  Forall P (DataUtils.setitem df name v).
Proof.
  intros F Pv. induction F as [|[c u] df Hc Hdf IH];
    cbn [DataUtils.setitem]; [now constructor|].
  destruct (String.eqb c name); constructor; auto.
Qed.

(** On a frame of [n] rows without NaN, no row is dropped, also not the
    last one: the result is the frame with the column [direction], which is
    1 on a row when the value of the next row is positive and 0 otherwise,
    and 0 on the last row. *)
Theorem add_direction_label_complete (df : DataUtils.frame)
    (column : string) (v : list float) (n : nat) :
  NoDup (map fst df) ->
  Forall (fun cv => List.length (snd cv) = n
                    /\ Forall (fun a => a <> NaN) (snd cv)) df ->
  DataUtils.getitem df column = Returns v ->
  let direction :=
    map (fun t => if flt (Fin 0) (nth (S t) v NaN) then Fin 1 else Fin 0)
        (seq 0 n) in
  DataUtils.add_direction_label df column
  = Returns (DataUtils.setitem df "direction" direction)
  /\ nth (n - 1) direction (Fin 0) = Fin 0.
Proof.
  intros _ W G direction.
  assert (Lv : List.length v = n).
  { destruct (getitem_cases df column) as [(_ & u & Gu & Hin) | (_ & Gu)];
      rewrite Gu in G; [|discriminate G].
    apply Returns_inj in G as ->. rewrite Forall_forall in W.
    now destruct (W _ Hin). }
  assert (E : map (fun a => if flt (Fin 0) a then Fin 1 else Fin 0)
                  (Pandas.shift (-1) v) = direction).
  { apply (nth_ext _ _ NaN NaN).
    - unfold direction.
      now rewrite !length_map, shift_length, length_seq.
    - intros t Ht. rewrite length_map, shift_length, Lv in Ht.
      rewrite (nth_map_in _ _ _ NaN) by (rewrite shift_length; lia).
      change (-1)%Z with (- Z.of_nat 1)%Z.
      rewrite shift_nth_up by lia.
      unfold direction. rewrite nth_tabulate by exact Ht.
      now replace (t + 1)%nat with (S t) by lia. }
  split.
  - unfold DataUtils.add_direction_label. rewrite G. cbn [bind].
    rewrite E. f_equal. apply (dropna_complete _ n).
    apply setitem_Forall; [exact W|].
    intros c. cbn [snd]. split.
    + unfold direction. now rewrite length_map, length_seq.
    + apply Forall_forall. intros a Ha. unfold direction in Ha.
      apply in_map_iff in Ha as (t & <- & _).
      now destruct (flt _ _).
  - destruct n as [|n]; [reflexivity|].
    unfold direction.
    rewrite (nth_indep _ (Fin 0) NaN) by (rewrite length_map, length_seq; lia).
    rewrite nth_tabulate by lia.
    replace (S (S n - 1)) with (S n) by lia.
    rewrite nth_overflow by lia. reflexivity.
Qed.

Lemma add_direction_label_complete_witness :
  DataUtils.add_direction_label
    [("return"%string, [Fin 1; Fin (-1); Fin 2])] "return"
  = Returns
      (DataUtils.setitem [("return"%string, [Fin 1; Fin (-1); Fin 2])]
         "direction"
         (map (fun t => if flt (Fin 0) (nth (S t) [Fin 1; Fin (-1); Fin 2] NaN)
                        then Fin 1 else Fin 0) (seq 0 3)))
  /\ nth (3 - 1)
       (map (fun t => if flt (Fin 0) (nth (S t) [Fin 1; Fin (-1); Fin 2] NaN)
                      then Fin 1 else Fin 0) (seq 0 3)) (Fin 0) = Fin 0.
Proof.
  apply (add_direction_label_complete
           [("return"%string, [Fin 1; Fin (-1); Fin 2])] "return"
           [Fin 1; Fin (-1); Fin 2] 3).
  - repeat constructor; simpl; intuition.
  - repeat constructor; discriminate.
  - reflexivity.
Defined.

(** ** models.py: [forecast_arima] *)

Lemma dict_set_keys (d : list (Z * float)) (k : Z) (v : float) :
  map fst (Forecasts.dict_set d k v)
  = if in_dec Z.eq_dec k (map fst d) then map fst d else map fst d ++ [k].
Proof.
  induction d as [|[k' v'] d IH]; cbn [Forecasts.dict_set map fst].
  - now destruct (in_dec _ _ _).
  - destruct (k' =? k)%Z eqn:E.
    + apply Z.eqb_eq in E as ->. cbn [map fst]. clear IH.
      destruct (in_dec Z.eq_dec k (k :: map fst d)) as [_|N]; [reflexivity|].
      elim N. now left.
    + apply Z.eqb_neq in E. cbn [map fst]. rewrite IH.
      destruct (in_dec Z.eq_dec k (map fst d)) as [I|N],
               (in_dec Z.eq_dec k (k' :: map fst d)) as [I'|N'];
        try reflexivity.
      * elim N'. now right.
      * destruct I' as [C|C]; [now elim E | now elim N].
Qed.

Lemma dict_set_items (d : list (Z * float)) (k : Z) (v : float)
    (k' : Z) (v' : float) :
  In (k', v') (Forecasts.dict_set d k v) ->
  (k' = k /\ v' = v) \/ In (k', v') d.
Proof.
  induction d as [|[k0 v0] d IH]; cbn [Forecasts.dict_set In].
  - intros [E | []]. injection E as <- <-. now left.
  - destruct (k0 =? k)%Z eqn:E; cbn [In].
    + apply Z.eqb_eq in E as ->.
      intros [E' | Hin]; [injection E' as <- <-; now left | auto].
    + intros [E' | Hin]; [auto | destruct (IH Hin); auto].
Qed.

Section Forecast.
Context `{ARIMAForecast}.
Variable model : ARIMAResults.

(** The forecast at one horizon: the last value of the path. *)
Local Abbreviation point h :=
  (pred <- predicted_mean model h ;; Forecasts.iloc_last pred).

Lemma forecast_fold (steps done : list Z) (d : list (Z * float)) :
  (forall h, In h steps -> exists f, point h = Returns f) ->
  NoDup (map fst d) ->
  (forall h, In h (map fst d) <-> In h done) ->
  (forall h f, In (h, f) d -> point h = Returns f) ->
  (NoDup done -> map fst d = done) ->
  exists d',
    fold_left (Forecasts.add_step model) steps (Returns d) = Returns d'
    /\ NoDup (map fst d')
    /\ (forall h, In h (map fst d') <-> In h (done ++ steps))
    /\ (forall h f, In (h, f) d' -> point h = Returns f)
    /\ (NoDup (done ++ steps) -> map fst d' = done ++ steps).
Proof.
  revert done d.
  induction steps as [|h steps IH]; intros done d Hok Hnd Hkeys Hval Hord.
  - exists d. rewrite app_nil_r. auto.
  - destruct (Hok h (or_introl eq_refl)) as [f Hf].
    cbn [fold_left]. unfold Forecasts.add_step at 2. cbn [bind].
    destruct (predicted_mean model h) as [pred|e] eqn:P;
      cbn [bind] in Hf |- *; [|discriminate Hf].
    rewrite Hf. cbn [bind].
    replace (done ++ h :: steps) with ((done ++ [h]) ++ steps)
      by (now rewrite <- app_assoc).
    apply IH.
    + intros h' Hh'. apply Hok. now right.
    + rewrite dict_set_keys. destruct (in_dec _ _ _) as [I|N]; [exact Hnd|].
      apply NoDup_app; [exact Hnd | repeat constructor; intros [] |].
      intros x Hx [<- | []]. contradiction.
    + intros h'. rewrite dict_set_keys.
      destruct (in_dec _ _ _) as [I|N].
      * rewrite Hkeys, in_app_iff. cbn [In].
        split; [auto|]. intros [Hd | [<- | []]]; [exact Hd|].
        now apply Hkeys.
      * rewrite !in_app_iff. cbn [In]. now rewrite Hkeys.
    + intros h' f' Hin. apply dict_set_items in Hin as [[-> ->] | Hin].
      * now rewrite P.
      * now apply Hval.
    + intros Hnd'. rewrite dict_set_keys.
      apply NoDup_app_remove_r in Hnd' as Hd.
      destruct (in_dec _ _ _) as [I|N].
      * apply Hkeys in I. exfalso.
        apply NoDup_remove_2 in Hnd'. rewrite app_nil_r in Hnd'. contradiction.
      * now rewrite Hord.
Qed.

End Forecast.

(** When the forecast at every requested horizon exists, the table has
    one row for each distinct horizon: the horizons of the rows do not
    repeat and are those of [steps], in the order of [steps] when [steps]
    does not repeat; every row holds the last value of the mean path to its
    horizon, and the label. *)
Theorem forecast_arima_rows `{ARIMAForecast} (model : ARIMAResults)
    (steps : list Z) (label : string) :
  (forall h, In h steps ->
             exists pred f, predicted_mean model h = Returns pred
                            /\ Forecasts.iloc_last pred = Returns f) ->
  exists rows,
    Forecasts.forecast_arima model steps label = Returns rows
    /\ NoDup (map (fun r => fst (fst r)) rows)
    /\ (forall h, In h (map (fun r => fst (fst r)) rows) <-> In h steps)
    /\ (forall h f l,
           In (h, f, l) rows ->
           l = label
           /\ exists pred, predicted_mean model h = Returns pred
                           /\ Forecasts.iloc_last pred = Returns f)
    /\ (NoDup steps -> map (fun r => fst (fst r)) rows = steps).
Proof.
  intros Hok.
  destruct (forecast_fold model steps [] []) as (d & E & Hnd & Hk & Hv & Ho).
  - intros h Hh. destruct (Hok h Hh) as (pred & f & -> & Hf).
    exists f. exact Hf.
  - constructor.
  - reflexivity.
  - intros ? ? [].
  - reflexivity.
  - unfold Forecasts.forecast_arima. rewrite E. cbn [bind].
    eexists; split; [reflexivity|].
    rewrite map_map. cbn [fst].
    change (map (fun x : Z * float => fst x) d) with (map fst d).
    split; [exact Hnd|]. split; [exact Hk|]. split; [|exact Ho].
    intros h f l Hin.
    apply in_map_iff in Hin as ([h' f'] & E' & Hin).
    injection E' as -> -> <-. split; [reflexivity|].
    specialize (Hv _ _ Hin).
    destruct (predicted_mean model h) as [pred|e]; [|discriminate Hv].
    exists pred. auto.
Qed.

Lemma forecast_arima_rows_witness :
  exists rows,
    Forecasts.forecast_arima (H0 := example_forecast) (0, 1)%Z [1; 5; 1]%Z
      "IBEX" = Returns rows
    /\ NoDup (map (fun r => fst (fst r)) rows)
    /\ (forall h, In h (map (fun r => fst (fst r)) rows)
                  <-> In h [1; 5; 1]%Z).
Proof.
  destruct (forecast_arima_rows (H0 := example_forecast) (0, 1)%Z
              [1; 5; 1]%Z "IBEX") as (rows & E & Hnd & Hk & _).
  - intros h Hh.
    assert (C : h = 1%Z \/ h = 5%Z) by (simpl in Hh; intuition).
    destruct C as [-> | ->]; eexists; eexists; split; reflexivity.
  - exists rows. auto.
Defined.

(** The first horizon whose forecast raises ends the function with that
    exception. *)
Theorem forecast_arima_raises `{ARIMAForecast} (model : ARIMAResults)
    (before after : list Z) (h : Z) (label : string) (e : exn) :
  (forall h', In h' before ->
              exists pred f, predicted_mean model h' = Returns pred
                             /\ Forecasts.iloc_last pred = Returns f) ->
  predicted_mean model h = Raises e ->
  Forecasts.forecast_arima model (before ++ h :: after) label = Raises e.
Proof.
  intros Hok He.
  destruct (forecast_fold model before [] []) as (d & E & _).
  - intros h' Hh'. destruct (Hok h' Hh') as (pred & f & -> & Hf).
    exists f. exact Hf.
  - constructor.
  - reflexivity.
  - intros ? ? [].
  - reflexivity.
  - unfold Forecasts.forecast_arima.
    rewrite fold_left_app, E. cbn [fold_left].
    unfold Forecasts.add_step at 2. cbn [bind]. rewrite He. cbn [bind].
    assert (K : forall l, fold_left (Forecasts.add_step model) l (Raises e)
                          = Raises e)
      by (induction l as [|x l IH]; [reflexivity | exact IH]).
    now rewrite K.
Qed.

Lemma forecast_arima_raises_witness :
  Forecasts.forecast_arima (H0 := example_forecast) (0, 1)%Z
    ([1] ++ 0 :: [5])%Z "IBEX" = Raises ValueError.
Proof.
  apply (forecast_arima_raises (H0 := example_forecast) (0, 1)%Z
           [1%Z] [5%Z] 0%Z "IBEX" ValueError).
  - intros h' [<- | []]. eexists; eexists; split; reflexivity.
  - reflexivity.
Defined.

(** ** data_utils.py: [load_returns_data] *)

Section LoadReturns.
Variables cell timestamp : Type.
Variable to_datetime : list cell -> result (list timestamp).

Local Abbreviation load := (Loading.load_returns_data cell timestamp to_datetime).

Lemma existsb_eqb (c : string) (l : list string) :
  existsb (String.eqb c) l = true <-> In c l.
Proof.
  rewrite existsb_exists. split.
  - intros (x & Hx & E). apply String.eqb_eq in E. now subst.
  - intros Hc. exists c. split; [exact Hc | apply String.eqb_refl].
Qed.

Lemma existsb_eqb_false (c : string) (l : list string) :
  ~ In c l -> existsb (String.eqb c) l = false.
Proof.
  intros N. destruct (existsb (String.eqb c) l) eqn:E; [|reflexivity].
  apply existsb_eqb in E. contradiction.
Qed.

Lemma rename_same (name : string) (df : Loading.table cell) :
  Loading.rename cell name name df = df.
Proof.
  unfold Loading.rename.
  transitivity (map (fun cv : string * list cell => cv) df); [|apply map_id].
  apply map_ext. intros [c v]. cbn [fst snd].
  destruct (String.eqb c name) eqn:E; [|reflexivity].
  apply String.eqb_eq in E. now subst.
Qed.

Lemma column_rename (old new : string) (df : Loading.table cell) :
  ~ In new (map fst df) ->
  Loading.column cell (Loading.rename cell old new df) new
  = Loading.column cell df old.
Proof.
  intros N. induction df as [|[c v] df IH]; [reflexivity|].
  cbn [Loading.rename map fst snd Loading.column] in *.
  destruct (String.eqb c old) eqn:E.
  - now rewrite String.eqb_refl.
  - replace (String.eqb c new) with false.
    + apply IH. intros C. apply N. now right.
    + symmetry. apply String.eqb_neq. intros ->. apply N. now left.
Qed.

Lemma without_rename (old new : string) (df : Loading.table cell) :
  ~ In new (map fst df) ->
  Loading.without cell new (Loading.rename cell old new df)
  = Loading.without cell old df.
Proof.
  intros N. induction df as [|[c v] df IH]; [reflexivity|].
  cbn [Loading.rename Loading.without map filter fst snd] in *.
  destruct (String.eqb c old) eqn:E.
  - rewrite String.eqb_refl. cbn [negb]. apply IH.
    intros C. apply N. now right.
  - replace (String.eqb c new) with false.
    + cbn [negb]. f_equal. apply IH. intros C. apply N. now right.
    + symmetry. apply String.eqb_neq. intros ->. apply N. now left.
Qed.

(** On a table whose column names are distinct, as [read_csv] gives them,
    the date column is the first of [Date], [date] and [Unnamed: 0] that
    the table holds: its parsed values become the index and the other
    columns stay, in their order; a second candidate stays a column. *)
Theorem load_returns_data_found (df : Loading.table cell) (c : string) :
  NoDup (map fst df) ->
  In c (map fst df) ->
  c = "Date"%string
  \/ (c = "date"%string /\ ~ In "Date"%string (map fst df))
  \/ (c = "Unnamed: 0"%string /\ ~ In "Date"%string (map fst df)
      /\ ~ In "date"%string (map fst df)) ->
  load df
  = (dates <- Loading.column cell df c ;;
     index <- to_datetime dates ;;
     Returns (index, Loading.without cell c df)).
Proof.
  intros _ Hc P. unfold Loading.load_returns_data, Loading.detect.
  cbn [find].
  destruct P as [-> | [(-> & ND) | (-> & ND & Nd)]].
  - rewrite (proj2 (existsb_eqb _ _) Hc). cbv zeta.
    now rewrite rename_same.
  - rewrite (existsb_eqb_false _ _ ND), (proj2 (existsb_eqb _ _) Hc).
    cbv zeta. now rewrite column_rename, without_rename.
  - rewrite (existsb_eqb_false _ _ ND), (existsb_eqb_false _ _ Nd),
      (proj2 (existsb_eqb _ _) Hc).
    cbv zeta. now rewrite column_rename, without_rename.
Qed.

(** Without any of the three names the function raises a [ValueError],
    and nothing is parsed. *)
Theorem load_returns_data_missing (df : Loading.table cell) :
  ~ In "Date"%string (map fst df) ->
  ~ In "date"%string (map fst df) ->
  ~ In "Unnamed: 0"%string (map fst df) ->
  load df = Raises ValueError.
Proof.
  intros ND Nd Nu. unfold Loading.load_returns_data, Loading.detect.
  cbn [find].
  now rewrite (existsb_eqb_false _ _ ND), (existsb_eqb_false _ _ Nd),
    (existsb_eqb_false _ _ Nu).
Qed.

End LoadReturns.

Lemma load_returns_data_found_witness :
  Loading.load_returns_data nat nat (fun v => Returns v)
    [("date"%string, [1; 2]%nat); ("Unnamed: 0"%string, [0; 1]%nat);
     ("IBEX_ret"%string, [7; 8]%nat)]
  = Returns ([1; 2]%nat,
             [("Unnamed: 0"%string, [0; 1]%nat);
              ("IBEX_ret"%string, [7; 8]%nat)]).
Proof.
  rewrite (load_returns_data_found nat nat (fun v => Returns v) _
             "date"%string).
  - reflexivity.
  - repeat (apply NoDup_cons; [simpl; intuition discriminate|]).
    apply NoDup_nil.
  - simpl; auto.
  - right. left. split; [reflexivity|]. simpl. intuition discriminate.
Defined.

Lemma load_returns_data_missing_witness :
  Loading.load_returns_data nat nat (fun v => Returns v)
    [("day"%string, [1; 2]%nat); ("IBEX_ret"%string, [7; 8]%nat)]
  = Raises ValueError.
Proof.
  apply (load_returns_data_missing nat nat (fun v => Returns v)).
  - simpl. intuition discriminate.
  - simpl. intuition discriminate.
  - simpl. intuition discriminate.
Defined.
